(** * RicksCodeAnalyzer_Advanced: the advanced analysis engine

    A shallow embedding of [advanced_analyzer.py] (class
    [AdvancedCodeAnalyzer]) and the properties of its specification.

    Conventions of the embedding:
    - Python [int] is [Z]; Python [float] is [Q] (exact rationals: every
      quantity the engine computes from integers by [+], [*], [/] is read
      at its mathematical value);
    - Python [str] is [string], one [ascii] per code point (code points
      below 256);
    - a [dict] or [defaultdict] is an association list in insertion order,
      which is the order Python iterates it in;
    - an exception is a [Raise] result; the analyzer object is threaded
      through, and what was written to it before a [raise] stays written. *)

From Stdlib Require Import ZArith QArith Qround Lqa List String Ascii Lia Bool.
From Stdlib Require Import DecimalString Permutation Sorted.
Import ListNotations.

Local Open Scope string_scope.
Local Open Scope list_scope.
Local Open Scope Z_scope.

(** ** Python values and containers *)

Module Py.

(** Keys of dictionaries: a decidable equality. *)
Class KeyEq (K : Type) := {
  keqb : K -> K -> bool;
  keqb_spec : forall a b, reflect (a = b) (keqb a b)
  }.

#[export] Instance KeyEq_string : KeyEq string :=
  {| keqb := String.eqb; keqb_spec := String.eqb_spec |}.

#[export] Instance KeyEq_Z : KeyEq Z :=
  {| keqb := Z.eqb; keqb_spec := Z.eqb_spec |}.

Definition pair_eqb {A B} `{KeyEq A} `{KeyEq B} (x y : A * B) : bool :=
  keqb (fst x) (fst y) && keqb (snd x) (snd y).

Lemma pair_eqb_spec {A B} `{KeyEq A} `{KeyEq B} (x y : A * B) :
  reflect (x = y) (pair_eqb x y).
Proof.
  destruct x as [a b], y as [c d]; unfold pair_eqb; simpl.
  destruct (keqb_spec a c), (keqb_spec b d); simpl; constructor; congruence.
Qed.

#[export] Instance KeyEq_pair {A B} `{KeyEq A} `{KeyEq B} : KeyEq (A * B) :=
  {| keqb := pair_eqb; keqb_spec := pair_eqb_spec |}.

Section Dict.
Context {K V : Type} `{KeyEq K}.

Definition dict := list (K * V).

(** [d.get(k)] *)
Fixpoint dict_find (d : dict) (k : K) : option V :=
  match d with
  | [] => None
  | (k', v) :: d' => if keqb k' k then Some v else dict_find d' k
  end.

(** [d.get(k, default)] *)
Definition dict_get (d : dict) (k : K) (default : V) : V :=
  match dict_find d k with Some v => v | None => default end.

(** [d[k] = v]: an existing key keeps its place, a new one goes last. *)
Fixpoint dict_set (d : dict) (k : K) (v : V) : dict :=
  match d with
  | [] => [(k, v)]
  | (k', v') :: d' =>
      if keqb k' k then (k', v) :: d' else (k', v') :: dict_set d' k v
  end.

(** [d.values()] *)
Definition dict_values (d : dict) : list V := map snd d.

(** [d.keys()] *)
Definition dict_keys (d : dict) : list K := map fst d.
End Dict.

Arguments dict : clear implicits.

(** [d[k].append(x)] on a [defaultdict(list)]. *)
Definition dd_append {K A} `{KeyEq K} (d : dict K (list A)) (k : K) (x : A)
  : dict K (list A) :=
  dict_set d k (dict_get d k [] ++ [x]).

(** [s.add(x)] on a set, kept as a duplicate-free list. *)
Definition set_add {A} `{KeyEq A} (s : list A) (x : A) : list A :=
  if existsb (keqb x) s then s else s ++ [x].

(** [d[k].add(x)] on a [defaultdict(set)]. *)
Definition dd_add {K A} `{KeyEq K} `{KeyEq A}
    (d : dict K (list A)) (k : K) (x : A) : dict K (list A) :=
  dict_set d k (set_add (dict_get d k []) x).

(** [sum(...)] over ints and over floats: a left fold from 0. *)
Definition sumZ (l : list Z) : Z := fold_left Z.add l 0.
Definition sumQ (l : list Q) : Q := fold_left Qplus l 0%Q.

(** [len(l)] *)
Definition len {A} (l : list A) : Z := Z.of_nat (List.length l).

(** [str(n)] for an int. *)
Definition str_int (z : Z) : string := NilZero.string_of_int (Z.to_int z).

Definition Qltb (a b : Q) : bool := negb (Qle_bool b a).

(** [max(a, b)] and [min(a, b)] of two arguments: the first one unless
    the second is strictly greater (smaller). *)
Definition max (a b : Q) : Q := if Qltb a b then b else a.
Definition min (a b : Q) : Q := if Qltb b a then b else a.

(** [round(x, 1)]: to the nearest tenth, ties to the even tenth. *)
Definition round1 (x : Q) : Q :=
  let y := (x * 10)%Q in
  let f := Qfloor y in
  let r := (y - inject_Z f)%Q in
  let n := if Qltb r (1 # 2) then f
           else if Qltb (1 # 2) r then f + 1
           else if Z.even f then f else f + 1 in
  Qmake n 10.

(** *** Strings *)

Definition newline : ascii := "010"%char.
Definition nl : string := String newline EmptyString.

(** [c.isspace()], which is also the class [\s] of [re] on [str]. *)
Definition isspace (c : ascii) : bool :=
  let n := nat_of_ascii c in
  ((9 <=? n) && (n <=? 13) || (28 <=? n) && (n <=? 32)
   || (n =? 133) || (n =? 160))%nat.

(** The class [\d] of [re]: decimal digits. *)
Definition isdecimal (c : ascii) : bool :=
  let n := nat_of_ascii c in ((48 <=? n) && (n <=? 57))%nat.

(** The class [\w] of [re] on [str]: alphanumeric or underscore. *)
Definition isword (c : ascii) : bool :=
  let n := nat_of_ascii c in
  ((48 <=? n) && (n <=? 57) || (65 <=? n) && (n <=? 90)
   || (97 <=? n) && (n <=? 122) || (n =? 95)
   || (n =? 170) || (n =? 178) || (n =? 179) || (n =? 181)
   || (n =? 185) || (n =? 186) || (188 <=? n) && (n <=? 190)
   || (192 <=? n) && (n <=? 214) || (216 <=? n) && (n <=? 246)
   || (248 <=? n) && (n <=? 255))%nat.

Fixpoint lstrip (s : string) : string :=
  match s with
  | EmptyString => EmptyString
  | String c r => if isspace c then lstrip r else s
  end.

Fixpoint rstrip (s : string) : string :=
  match s with
  | EmptyString => EmptyString
  | String c r =>
      match rstrip r with
      | EmptyString => if isspace c then EmptyString else String c EmptyString
      | r' => String c r'
      end
  end.

(** [s.strip()] *)
Definition strip (s : string) : string := rstrip (lstrip s).

(** [s.split('\n')] *)
Fixpoint split_lines (s : string) : list string :=
  match s with
  | EmptyString => [EmptyString]
  | String c r =>
      if Ascii.eqb c newline then EmptyString :: split_lines r
      else match split_lines r with
           | l :: ls => String c l :: ls
           | [] => [String c EmptyString]
           end
  end.

(** ['\n'.join(lines)] *)
Definition join_lines (lines : list string) : string := String.concat nl lines.

(** [len(s)] *)
Definition strlen (s : string) : Z := Z.of_nat (String.length s).

(** [s.startswith(p)] *)
Definition startswith (s p : string) : bool := String.prefix p s.

(** [s.find(sub)]: the first index of [sub] in [s], if any. *)
Definition find (s sub : string) : option nat := String.index 0 sub s.

(** [sub in s] *)
Definition contains (s sub : string) : bool :=
  match find s sub with Some _ => true | None => false end.

(** [s[i:]] *)
Fixpoint slice_from (i : nat) (s : string) : string :=
  match i, s with
  | O, _ => s
  | S i', String _ r => slice_from i' r
  | S _, EmptyString => EmptyString
  end.

(** [s[:n]] *)
Definition slice_to (n : nat) (s : string) : string := String.substring 0 n s.

(** [s.count('\n')] *)
Fixpoint count_newlines (s : string) : Z :=
  match s with
  | EmptyString => 0
  | String c r => (if Ascii.eqb c newline then 1 else 0) + count_newlines r
  end.

(** [s[a:b]] for indices within the string or beyond its end. *)
Definition slice (a b : nat) (s : string) : string :=
  String.substring a (b - a) s.

(** [s.find(sub, start)] *)
Definition find_from (s sub : string) (start : nat) : option nat :=
  String.index start sub s.

(** [c.lower()] on the code points below 256. *)
Definition lower_char (c : ascii) : ascii :=
  let n := nat_of_ascii c in
  if ((65 <=? n) && (n <=? 90)
      || (192 <=? n) && (n <=? 222) && negb (n =? 215))%nat
  then ascii_of_nat (n + 32) else c.

(** [s.lower()] *)
Fixpoint lower (s : string) : string :=
  match s with
  | EmptyString => EmptyString
  | String c r => String (lower_char c) (lower r)
  end.

(** The double quote, which a string literal cannot hold. *)
Definition dq : string := String "034"%char EmptyString.

End Py.
Import Py.

(** ** Exceptions and the analyzer monad *)

Inductive exn : Type :=
| SyntaxError (lineno : option Z) (msg : string)
| AttributeError (msg : string)
| RecursionError
| ZeroDivisionError
| OtherException (type_name : string) (msg : string).

Inductive result (A : Type) : Type :=
| Ok (a : A)
| Raise (e : exn).
Arguments Ok {A} a.
Arguments Raise {A} e.

(** ** Data model *)

(** One reported issue: the dictionaries appended to the four issue
    tables of [self.results]. *)
Record Issue := mkIssue {
  i_type : string;
  i_description : string;
  i_severity : string;
  i_line : option Z;
  i_context : option string
}.

(** One entry of [self.function_metrics[file_path]]. *)
Record FunctionMetric := mkFunctionMetric {
  fm_name : string;
  fm_params : Z;
  fm_lines : Z;
  fm_complexity : Z;
  fm_line : Z
}.

(** One entry of [self.file_metrics]. *)
Record FileMetrics := mkFileMetrics {
  loc : Z;
  comment_lines : Z;
  comment_density : Q;
  avg_line_length : Q
}.

(** One occurrence stored in [self.duplicated_blocks[block_hash]]. *)
Record Occurrence := mkOccurrence {
  occ_file : string;
  occ_start_line : Z;
  occ_end_line : Z;
  occ_content : string
}.

(** One location of a reported duplicate block. *)
Record Location := mkLocation {
  file_path : string;
  start_line : Z;
  end_line : Z
}.

(** One entry of [self.results['duplicated_code']]. *)
Record ReportBlock := mkReportBlock {
  rb_lines : Z;
  rb_tokens : Z;
  rb_files : list Location;
  rb_code_snippet : string
}.

(** [self.results['complexity_metrics']] once it is filled. *)
Record ProjectMetrics := mkProjectMetrics {
  total_lines_of_code : Z;
  total_comment_lines : Z;
  pm_comment_density : Q;
  pm_avg_line_length : Q;
  code_smell_count : Z;
  security_issue_count : Z;
  performance_issue_count : Z;
  style_issue_count : Z;
  avg_function_complexity : Q;
  avg_function_size : Q;
  avg_function_params : Q;
  duplicated_code_blocks : Z;
  maintainability_index : Q;
  maintainability_rating : string;
  technical_debt_hours : Q;
  technical_debt_days : Q
}.

Definition issue_table := dict string (list Issue).

(** The analyzer object. The first seven fields are entries of
    [self.results]; [complexity_metrics = None] is the empty dictionary
    [{}] that [__init__] stores. The token statistics, the best-practice
    table and the run metadata (time stamps) are left out. *)
Record Analyzer := mkAnalyzer {
  code_smells : issue_table;
  security_issues : issue_table;
  performance_issues : issue_table;
  style_issues : issue_table;
  complexity_metrics : option ProjectMetrics;
  dependencies : dict string (list string);
  duplicated_code : list ReportBlock;
  duplicated_blocks : dict Z (list Occurrence);
  file_metrics : dict string FileMetrics;
  function_metrics : dict string (dict string FunctionMetric);
  import_graph : dict string (list string)
}.

(** [AdvancedCodeAnalyzer.__init__] *)
Definition init : Analyzer :=
  {| code_smells := []; security_issues := []; performance_issues := [];
     style_issues := []; complexity_metrics := None; dependencies := [];
     duplicated_code := []; duplicated_blocks := []; file_metrics := [];
     function_metrics := []; import_graph := [] |}.

Definition set_code_smells (v : issue_table) (a : Analyzer) : Analyzer :=
  {| code_smells := v; security_issues := security_issues a;
     performance_issues := performance_issues a;
     style_issues := style_issues a;
     complexity_metrics := complexity_metrics a;
     dependencies := dependencies a; duplicated_code := duplicated_code a;
     duplicated_blocks := duplicated_blocks a;
     file_metrics := file_metrics a;
     function_metrics := function_metrics a;
     import_graph := import_graph a |}.

Definition set_security_issues (v : issue_table) (a : Analyzer) : Analyzer :=
  {| code_smells := code_smells a; security_issues := v;
     performance_issues := performance_issues a;
     style_issues := style_issues a;
     complexity_metrics := complexity_metrics a;
     dependencies := dependencies a; duplicated_code := duplicated_code a;
     duplicated_blocks := duplicated_blocks a;
     file_metrics := file_metrics a;
     function_metrics := function_metrics a;
     import_graph := import_graph a |}.

Definition set_performance_issues (v : issue_table) (a : Analyzer)
  : Analyzer :=
  {| code_smells := code_smells a; security_issues := security_issues a;
     performance_issues := v;
     style_issues := style_issues a;
     complexity_metrics := complexity_metrics a;
     dependencies := dependencies a; duplicated_code := duplicated_code a;
     duplicated_blocks := duplicated_blocks a;
     file_metrics := file_metrics a;
     function_metrics := function_metrics a;
     import_graph := import_graph a |}.

Definition set_style_issues (v : issue_table) (a : Analyzer) : Analyzer :=
  {| code_smells := code_smells a; security_issues := security_issues a;
     performance_issues := performance_issues a;
     style_issues := v;
     complexity_metrics := complexity_metrics a;
     dependencies := dependencies a; duplicated_code := duplicated_code a;
     duplicated_blocks := duplicated_blocks a;
     file_metrics := file_metrics a;
     function_metrics := function_metrics a;
     import_graph := import_graph a |}.

Definition set_complexity_metrics (v : option ProjectMetrics) (a : Analyzer)
  : Analyzer :=
  {| code_smells := code_smells a; security_issues := security_issues a;
     performance_issues := performance_issues a;
     style_issues := style_issues a;
     complexity_metrics := v;
     dependencies := dependencies a; duplicated_code := duplicated_code a;
     duplicated_blocks := duplicated_blocks a;
     file_metrics := file_metrics a;
     function_metrics := function_metrics a;
     import_graph := import_graph a |}.

Definition set_dependencies (v : dict string (list string)) (a : Analyzer)
  : Analyzer :=
  {| code_smells := code_smells a; security_issues := security_issues a;
     performance_issues := performance_issues a;
     style_issues := style_issues a;
     complexity_metrics := complexity_metrics a;
     dependencies := v; duplicated_code := duplicated_code a;
     duplicated_blocks := duplicated_blocks a;
     file_metrics := file_metrics a;
     function_metrics := function_metrics a;
     import_graph := import_graph a |}.

Definition set_duplicated_code (v : list ReportBlock) (a : Analyzer)
  : Analyzer :=
  {| code_smells := code_smells a; security_issues := security_issues a;
     performance_issues := performance_issues a;
     style_issues := style_issues a;
     complexity_metrics := complexity_metrics a;
     dependencies := dependencies a; duplicated_code := v;
     duplicated_blocks := duplicated_blocks a;
     file_metrics := file_metrics a;
     function_metrics := function_metrics a;
     import_graph := import_graph a |}.

Definition set_duplicated_blocks (v : dict Z (list Occurrence))
    (a : Analyzer) : Analyzer :=
  {| code_smells := code_smells a; security_issues := security_issues a;
     performance_issues := performance_issues a;
     style_issues := style_issues a;
     complexity_metrics := complexity_metrics a;
     dependencies := dependencies a; duplicated_code := duplicated_code a;
     duplicated_blocks := v;
     file_metrics := file_metrics a;
     function_metrics := function_metrics a;
     import_graph := import_graph a |}.

Definition set_file_metrics (v : dict string FileMetrics) (a : Analyzer)
  : Analyzer :=
  {| code_smells := code_smells a; security_issues := security_issues a;
     performance_issues := performance_issues a;
     style_issues := style_issues a;
     complexity_metrics := complexity_metrics a;
     dependencies := dependencies a; duplicated_code := duplicated_code a;
     duplicated_blocks := duplicated_blocks a;
     file_metrics := v;
     function_metrics := function_metrics a;
     import_graph := import_graph a |}.

Definition set_function_metrics
    (v : dict string (dict string FunctionMetric)) (a : Analyzer)
  : Analyzer :=
  {| code_smells := code_smells a; security_issues := security_issues a;
     performance_issues := performance_issues a;
     style_issues := style_issues a;
     complexity_metrics := complexity_metrics a;
     dependencies := dependencies a; duplicated_code := duplicated_code a;
     duplicated_blocks := duplicated_blocks a;
     file_metrics := file_metrics a;
     function_metrics := v;
     import_graph := import_graph a |}.

Definition set_import_graph (v : dict string (list string)) (a : Analyzer)
  : Analyzer :=
  {| code_smells := code_smells a; security_issues := security_issues a;
     performance_issues := performance_issues a;
     style_issues := style_issues a;
     complexity_metrics := complexity_metrics a;
     dependencies := dependencies a; duplicated_code := duplicated_code a;
     duplicated_blocks := duplicated_blocks a;
     file_metrics := file_metrics a;
     function_metrics := function_metrics a;
     import_graph := v |}.

(** [self.results[category][file_path].append(issue)] *)
Definition add_code_smell (file : string) (i : Issue) (a : Analyzer) :=
  set_code_smells (dd_append (code_smells a) file i) a.
Definition add_security_issue (file : string) (i : Issue) (a : Analyzer) :=
  set_security_issues (dd_append (security_issues a) file i) a.
Definition add_performance_issue (file : string) (i : Issue) (a : Analyzer) :=
  set_performance_issues (dd_append (performance_issues a) file i) a.
Definition add_style_issue (file : string) (i : Issue) (a : Analyzer) :=
  set_style_issues (dd_append (style_issues a) file i) a.

(** ** The aggregate metrics engine: [_calculate_project_metrics] *)

(** [a / b] on numbers: raises when [b] is zero. *)
Definition truediv (a b : Q) : result Q :=
  if Qeq_bool b 0 then Raise ZeroDivisionError else Ok (a / b)%Q.

(** The table [issue_weights]. *)
Definition issue_weights : dict string Z :=
  [("critical", 8); ("high", 4); ("medium", 2); ("low", 1)].

(** The three loops that add up the technical debt. *)
Definition debt_of_smells (tbl : issue_table) (total : Q) : Q :=
  fold_left (fun t issues =>
    fold_left (fun t issue =>
      (t + inject_Z (dict_get issue_weights (i_severity issue) 2%Z))%Q)
      issues t) (dict_values tbl) total.

Definition debt_of_security (tbl : issue_table) (total : Q) : Q :=
  fold_left (fun t issues =>
    fold_left (fun t issue =>
      let weight := dict_get issue_weights (i_severity issue) 4 in
      (t + inject_Z weight * (3 # 2))%Q)
      issues t) (dict_values tbl) total.

Definition debt_of_performance (tbl : issue_table) (total : Q) : Q :=
  fold_left (fun t issues =>
    fold_left (fun t issue =>
      (t + inject_Z (dict_get issue_weights (i_severity issue) 2%Z))%Q)
      issues t) (dict_values tbl) total.

Definition total_debt_hours (a : Analyzer) : Q :=
  let t := 0%Q in
  let t := debt_of_smells (code_smells a) t in
  let t := debt_of_security (security_issues a) t in
  let t := debt_of_performance (performance_issues a) t in
  (t + inject_Z (len (duplicated_code a) * 3)%Z)%Q.

(** The maintainability formula and its clamp (lines 1040-1046). *)
Definition maintainability (v g : Q) (l : Z) (cm : Q) : result Q :=
  match truediv (inject_Z l) 1000 with
  | Raise e => Raise e
  | Ok l1000 =>
      Ok (171 - (52 # 10) * (v - 1) - (23 # 100) * g - (162 # 10) * l1000
          + 50 * cm)%Q
  end.

(** The banding of the index (lines 1049-1059). *)
Definition rating_of (rating_value : Q) : string :=
  if Qle_bool 80 rating_value then "Excellent"
  else if Qle_bool 60 rating_value then "Good"
  else if Qle_bool 40 rating_value then "Fair"
  else if Qle_bool 20 rating_value then "Poor"
  else "Very Poor".

(** [sum(f.get(key, 0) for f in all_functions) / len(all_functions)
      if all_functions else 0] *)
Definition function_average (proj : FunctionMetric -> Z)
    (all_functions : list FunctionMetric) : result Q :=
  match all_functions with
  | [] => Ok 0%Q
  | _ => truediv (inject_Z (sumZ (map proj all_functions)))
                 (inject_Z (len all_functions))
  end.

Definition bind_result {A B} (r : result A) (k : A -> result B) : result B :=
  match r with Ok a => k a | Raise e => Raise e end.

Notation "x <- r ;;; k" := (bind_result r (fun x => k))
  (at level 61, r at next level, right associativity).

(** [all_functions] as the loop of lines 1012-1014 builds it. *)
Definition all_functions (a : Analyzer) : list FunctionMetric :=
  fold_left (fun acc file_funcs => acc ++ dict_values file_funcs)
            (dict_values (function_metrics a)) [].

(** [_calculate_project_metrics]. The outcome is the analyzer afterwards,
    or the exception that escapes. The divisions guarded by a test come
    before the dictionary is stored; the two that follow it divide by the
    literals 1000 and 8. *)
Definition calculate_project_metrics (a : Analyzer) : result Analyzer :=
  match file_metrics a with
  | [] => Ok a
  | _ =>
    let fms := dict_values (file_metrics a) in
    let total_loc := sumZ (map loc fms) in
    let total_comment_lines := sumZ (map comment_lines fms) in
    avg_comment_density <-
      (if 0 <? total_loc
       then truediv (inject_Z total_comment_lines) (inject_Z total_loc)
       else Ok 0%Q) ;;;
    avg_line_length <-
      (if 0 <? total_loc
       then truediv
              (sumQ (map (fun m => (avg_line_length m * inject_Z (loc m))%Q)
                         fms))
              (inject_Z total_loc)
       else Ok 0%Q) ;;;
    let code_smell_count := sumZ (map len (dict_values (code_smells a))) in
    let security_issue_count :=
      sumZ (map len (dict_values (security_issues a))) in
    let performance_issue_count :=
      sumZ (map len (dict_values (performance_issues a))) in
    let style_issue_count := sumZ (map len (dict_values (style_issues a))) in
    let all_functions := all_functions a in
    avg_function_complexity <- function_average fm_complexity all_functions ;;;
    avg_function_size <- function_average fm_lines all_functions ;;;
    avg_function_params <- function_average fm_params all_functions ;;;
    m <- maintainability avg_function_complexity avg_line_length total_loc
           avg_comment_density ;;;
    let index := Py.min 100 (Py.max 0 m) in
    let hours := total_debt_hours a in
    days <- truediv hours 8 ;;;
    Ok (set_complexity_metrics (Some
      {| total_lines_of_code := total_loc;
         total_comment_lines := total_comment_lines;
         pm_comment_density := avg_comment_density;
         pm_avg_line_length := avg_line_length;
         code_smell_count := code_smell_count;
         security_issue_count := security_issue_count;
         performance_issue_count := performance_issue_count;
         style_issue_count := style_issue_count;
         avg_function_complexity := avg_function_complexity;
         avg_function_size := avg_function_size;
         avg_function_params := avg_function_params;
         duplicated_code_blocks := len (duplicated_code a);
         maintainability_index := index;
         maintainability_rating := rating_of index;
         technical_debt_hours := hours;
         technical_debt_days := round1 days |}) a)
  end.

(** [metrics.get(key, 0)], the way [get_summary], [get_recommendations] and
    the reporter read a number from [complexity_metrics]. *)
Definition metrics_get {A} (m : option ProjectMetrics)
    (key : ProjectMetrics -> A) (default : A) : A :=
  match m with Some pm => key pm | None => default end.

(** ** The analyzer monad *)

(** A method of the analyzer: it reads and writes the analyzer object and
    returns or raises. The analyzer comes back in both cases. *)
Definition M (A : Type) : Type := Analyzer -> result A * Analyzer.

Definition ret {A} (x : A) : M A := fun a => (Ok x, a).

Definition bind {A B} (m : M A) (k : A -> M B) : M B :=
  fun a =>
    match m a with
    | (Ok x, a') => k x a'
    | (Raise e, a') => (Raise e, a')
    end.

Definition raise {A} (e : exn) : M A := fun a => (Raise e, a).

(** A statement that only updates the analyzer. *)
Definition modify (f : Analyzer -> Analyzer) : M unit := fun a => (Ok tt, f a).

Notation "x <- m ;; k" := (bind m (fun x => k))
  (at level 61, m at next level, right associativity).
Notation "m ;; k" := (bind m (fun _ => k))
  (at level 61, right associativity).

(** [for x in l: body(x)] *)
Fixpoint for_each {A} (l : list A) (body : A -> M unit) : M unit :=
  match l with
  | [] => ret tt
  | x :: rest => body x ;; for_each rest body
  end.

(** A method keeps a relation between the analyzer before and after,
    whether it returns or raises. *)
Definition preserves {A} (R : Analyzer -> Analyzer -> Prop) (m : M A) : Prop :=
  forall a r a', m a = (r, a') -> R a a'.

(** ** Syntax trees *)

Inductive boolop := And | Or.

(** [ast.arguments]: the parameter names of a function. *)
Record arguments := mkArguments {
  args : list string;
  posonlyargs : list string;
  kwonlyargs : list string;
  vararg : option string;
  kwarg : option string
}.

(** The classes of [ast] nodes that the analyzer tells apart, with the
    attributes it reads; every other class is [Other]. *)
Inductive node_class :=
| Module_
| FunctionDef (name : string) (a : arguments) (body_len : Z)
| AsyncFunctionDef (name : string) (a : arguments) (body_len : Z)
| If | For | While | With | Try | AsyncFor | AsyncWith
| ExceptHandler
| BoolOp (op : boolop) (values_len : Z)
| Import (names : list string)
| ImportFrom (module : option string)
| Other (class_name : string).

(** A node as the generic traversals see it: its class, [lineno] and
    [end_lineno] (0 when the attribute is missing), and the child nodes
    that [ast.iter_child_nodes] yields, in order. [body_len] of a
    function is [len(node.body)] and [values_len] of a [BoolOp] is
    [len(node.values)]. *)
#[warnings="-register-all"]
Inductive node := Node (cls : node_class) (lineno end_lineno : Z)
                       (children : list node).

Definition cls (n : node) : node_class := let 'Node c _ _ _ := n in c.
Definition lineno (n : node) : Z := let 'Node _ l _ _ := n in l.
Definition end_lineno (n : node) : Z := let 'Node _ _ e _ := n in e.
Definition children (n : node) : list node := let 'Node _ _ _ ch := n in ch.

(** The number of nodes of a tree. *)
Fixpoint size (n : node) : nat :=
  match n with
  | Node _ _ _ ch => S (fold_right (fun c acc => (size c + acc)%nat) O ch)
  end.

(** [ast.walk]: breadth first, from a queue. The queue never holds more
    nodes than the tree has, so [size] turns of the loop empty it. *)
Fixpoint walk_queue (turns : nat) (todo : list node) : list node :=
  match turns, todo with
  | S turns', n :: todo' => n :: walk_queue turns' (todo' ++ children n)
  | _, _ => []
  end.

Definition walk (n : node) : list node := walk_queue (size n) [n].

(** The outcome of [ast.parse]. *)
Inductive parse_result :=
| Parsed (tree : node)
| ParseRaises (e : exn).

(** One match of [re.finditer]: [match.start()] and [match.group(1)]. *)
Record Match := mkMatch {
  m_start : nat;
  m_group1 : string
}.

(** What the analyzer takes from the interpreter and its libraries.
    [frames] is the number of stack frames left for the recursive tree
    walk when it starts (the recursion limit minus the frames in use);
    [has_posonlyargs] tells whether [ast.arguments] has the attribute
    [posonlyargs] (Python 3.8 and later); [unparse_lines] is the number of
    lines of [ast.unparse(node)] where [ast.unparse] exists and
    succeeds. *)
Class Runtime := {
  ast_parse : string -> parse_result;
  re_finditer : string -> string -> list Match;
  frames : nat;
  has_posonlyargs : bool;
  unparse_lines : node -> option Z
}.

(** ** The structural analyzer *)

(** One rule of a regex table. *)
Record Pattern := mkPattern {
  p_name : string;
  p_description : string;
  p_severity : string;
  p_regex : string
}.

Definition PYTHON_ANTI_PATTERNS : list Pattern :=
  [ mkPattern "bare_except" "Using bare except: statements" "high"
      "except\s*:";
    mkPattern "import_star" "Using from module import *" "medium"
      "from\s+\w+\s+import\s+\*";
    mkPattern "mutable_default" "Using mutable default arguments" "medium"
      "def\s+\w+\s*\([^)]*=\s*(\[\]|\{\}|\(\))";
    mkPattern "eval_usage" "Using eval() function" "high"
      "eval\s*\(" ].

(** [_analyze_python_imports] *)
Definition record_import (file name : string) (a : Analyzer) : Analyzer :=
  set_dependencies (dd_add (dependencies a) file name)
    (set_import_graph (dd_add (import_graph a) file name) a).

Definition analyze_python_imports (tree : node) (file : string)
    (a : Analyzer) : Analyzer :=
  fold_left (fun a n =>
    match cls n with
    | Import names => fold_left (fun a name => record_import file name a) names a
    | ImportFrom (Some module) =>
        if String.eqb module "" then a else record_import file module a
    | _ => a
    end) (walk tree) a.

(** [isinstance(node, (ast.If, ast.For, ast.While, ast.With, ast.Try,
    ast.AsyncFor, ast.AsyncWith))] *)
Definition is_control (c : node_class) : bool :=
  match c with
  | If | For | While | With | Try | AsyncFor | AsyncWith => true
  | _ => false
  end.

Definition deep_nesting_issue (func_name : string) (current_depth line : Z)
  : Issue :=
  {| i_type := "deep_nesting";
     i_description :=
       ("Deep nesting (level " ++ str_int current_depth ++ ") in function '"
        ++ func_name ++ "'")%string;
     i_severity := "high";
     i_line := Some line;
     i_context := None |}.

(** [_check_python_nesting]. Each call takes one stack frame; with none
    left the interpreter raises [RecursionError]. *)
Fixpoint check_python_nesting (frames : nat) (n : node)
    (func_name file : string) (current_depth : Z) : M unit :=
  match frames with
  | O => raise RecursionError
  | S frames' =>
      let control := is_control (cls n) in
      let current_depth :=
        if control then current_depth + 1 else current_depth in
      (if control && (4 <? current_depth)
       then modify (add_code_smell file
                      (deep_nesting_issue func_name current_depth (lineno n)))
       else ret tt) ;;
      for_each (children n) (fun child =>
        check_python_nesting frames' child func_name file current_depth)
  end.

(** What one node adds to the complexity of a function (lines 427-428). *)
Definition complexity_step (inner_node : node) : Z :=
  match cls inner_node with
  | If | While | For | Try | AsyncFor => 1
  | BoolOp And values_len => values_len - 1
  | _ => 0
  end.

(** The complexity loop of lines 425-428. *)
Definition complexity_of (n : node) : Z :=
  fold_left (fun complexity inner_node =>
               complexity + complexity_step inner_node) (walk n) 1.

(** The line count of lines 399-416. *)
Definition lines_of_code_of `{Runtime} (n : node) (body_len : Z) : Z :=
  if negb (lineno n =? 0) && negb (end_lineno n =? 0)
  then end_lineno n - lineno n + 1
  else match unparse_lines n with
       | Some k => k
       | None => body_len + 2
       end.

(** The parameter count of lines 391-395. *)
Definition params_count_of `{Runtime} (a : arguments) : M Z :=
  if has_posonlyargs then
    ret (len (args a) + len (posonlyargs a) + len (kwonlyargs a)
         + match vararg a with Some _ => 1 | None => 0 end
         + match kwarg a with Some _ => 1 | None => 0 end)
  else raise (AttributeError
                "'arguments' object has no attribute 'posonlyargs'").

(** [self.function_metrics[file_path][func_key] = metric] *)
Definition store_function_metric (file func_key : string)
    (m : FunctionMetric) (a : Analyzer) : Analyzer :=
  set_function_metrics
    (dict_set (function_metrics a) file
       (dict_set (dict_get (function_metrics a) file []) func_key m)) a.

(** The body of the loop of [_analyze_python_functions] for one function
    definition (lines 387-445). *)
Definition analyze_function `{Runtime} (file : string) (n : node)
    (func_name : string) (fargs : arguments) (body_len : Z) : M unit :=
  let line_num := lineno n in
  params_count <- params_count_of fargs ;;
  let lines_of_code := lines_of_code_of n body_len in
  (if 5 <? params_count
   then modify (add_code_smell file
          {| i_type := "too_many_parameters";
             i_description :=
               ("Function '" ++ func_name ++ "' has " ++ str_int params_count
                ++ " parameters")%string;
             i_severity := "medium";
             i_line := Some line_num;
             i_context := None |})
   else ret tt) ;;
  (if 50 <? lines_of_code
   then modify (add_code_smell file
          {| i_type := "long_function";
             i_description :=
               ("Function '" ++ func_name ++ "' is approx. "
                ++ str_int lines_of_code ++ " lines long")%string;
             i_severity := "medium";
             i_line := Some line_num;
             i_context := None |})
   else ret tt) ;;
  let complexity := complexity_of n in
  (if 10 <? complexity
   then modify (add_code_smell file
          {| i_type := "high_complexity";
             i_description :=
               ("Function '" ++ func_name
                ++ "' has high cyclomatic complexity (" ++ str_int complexity
                ++ ")")%string;
             i_severity := "medium";
             i_line := Some line_num;
             i_context := None |})
   else ret tt) ;;
  modify (store_function_metric file
            (func_name ++ "@" ++ str_int line_num)%string
            {| fm_name := func_name; fm_params := params_count;
               fm_lines := lines_of_code; fm_complexity := complexity;
               fm_line := line_num |}) ;;
  check_python_nesting frames n func_name file 0.

(** [_analyze_python_functions] *)
Definition analyze_python_functions `{Runtime} (tree : node) (file : string)
  : M unit :=
  for_each (walk tree) (fun n =>
    match cls n with
    | FunctionDef name fargs body_len
    | AsyncFunctionDef name fargs body_len =>
        analyze_function file n name fargs body_len
    | _ => ret tt
    end).

(** [content.count('\n', 0, pos) + 1] *)
Definition line_of_offset (content : string) (pos : nat) : Z :=
  count_newlines (slice_to pos content) + 1.

(** [lines[line_num - 1].strip() if line_num <= len(lines) else ""] *)
Definition context_line (lines : list string) (line_num : Z) : string :=
  if line_num <=? len lines
  then strip (nth (Z.to_nat (line_num - 1)) lines "")
  else "".

(** [_apply_regex_patterns] with [result_category = 'code_smells']. *)
Definition apply_regex_patterns `{Runtime} (patterns : list Pattern)
    (file content : string) (a : Analyzer) : Analyzer :=
  fold_left (fun a p =>
    fold_left (fun a m =>
      let line_num := line_of_offset content (m_start m) in
      add_code_smell file
        {| i_type := p_name p; i_description := p_description p;
           i_severity := p_severity p; i_line := Some line_num;
           i_context := Some (context_line (split_lines content) line_num) |}
        a)
      (re_finditer (p_regex p) content) a)
    patterns a.

(** [s.split(' as ')[0]] *)
Definition before_as (s : string) : string :=
  match find s " as " with
  | Some i => slice_to i s
  | None => s
  end.

(** [_analyze_python_with_regex] *)
Definition analyze_python_with_regex `{Runtime} (file content : string)
    (a : Analyzer) : Analyzer :=
  let a :=
    fold_left (fun a p =>
      fold_left (fun a m =>
        add_code_smell file
          {| i_type := p_name p; i_description := p_description p;
             i_severity := p_severity p;
             i_line := Some (line_of_offset content (m_start m));
             i_context := None |} a)
        (re_finditer (p_regex p) content) a)
      PYTHON_ANTI_PATTERNS a in
  fold_left (fun a m =>
    let dependency := strip (before_as (m_group1 m)) in
    if String.eqb dependency "" then a
    else set_dependencies (dd_add (dependencies a) file dependency) a)
    (re_finditer "(?:from|import)\s+([\w\.]+)" content) a.

(** [type(e).__name__] *)
Definition type_name (e : exn) : string :=
  match e with
  | SyntaxError _ _ => "SyntaxError"
  | AttributeError _ => "AttributeError"
  | RecursionError => "RecursionError"
  | ZeroDivisionError => "ZeroDivisionError"
  | OtherException name _ => name
  end.

(** [str(x)] for a line number that may be [None]. *)
Definition str_lineno (l : option Z) : string :=
  match l with Some z => str_int z | None => "None" end.

(** The style issue that each [except] clause of [_analyze_python_file]
    appends. *)
Definition failure_issue (e : exn) : Issue :=
  match e with
  | SyntaxError lineno msg =>
      {| i_type := "syntax_error";
         i_description :=
           ("Python syntax error prevents AST analysis (line "
            ++ str_lineno lineno ++ ": " ++ msg ++ ")")%string;
         i_severity := "warning";
         i_line := lineno;
         i_context := None |}
  | AttributeError msg =>
      {| i_type := "ast_feature_error";
         i_description :=
           ("AST analysis failed (" ++ msg
            ++ "). Analysis may be incomplete.")%string;
         i_severity := "warning";
         i_line := Some 1;
         i_context := None |}
  | _ =>
      {| i_type := "ast_processing_error";
         i_description :=
           ("Unexpected AST processing error: " ++ type_name e ++ ".")%string;
         i_severity := "error";
         i_line := Some 1;
         i_context := None |}
  end.

(** The three [except] clauses: one style issue, then the regex
    fallback. *)
Definition regex_fallback `{Runtime} (file content : string) (e : exn)
    (a : Analyzer) : Analyzer :=
  analyze_python_with_regex file content
    (add_style_issue file (failure_issue e) a).

(** [_analyze_python_file]: returns [True] when the tree was analysed. *)
Definition analyze_python_file `{Runtime} (file content : string)
    (a : Analyzer) : bool * Analyzer :=
  match ast_parse content with
  | ParseRaises e => (false, regex_fallback file content e a)
  | Parsed tree =>
      let a1 := analyze_python_imports tree file a in
      match analyze_python_functions tree file a1 with
      | (Ok _, a2) =>
          (true, apply_regex_patterns PYTHON_ANTI_PATTERNS file content a2)
      | (Raise e, a2) => (false, regex_fallback file content e a2)
      end
  end.

(** The sum of [f] over the nodes of a tree, by recursion on the
    tree. *)
Fixpoint tree_sum (f : node -> Z) (n : node) : Z :=
  match n with
  | Node _ _ _ ch => f n + fold_right (fun c acc => tree_sum f c + acc) 0 ch
  end.

Definition forest_size (l : list node) : nat :=
  fold_right (fun c acc => (size c + acc)%nat) O l.

Definition forest_sum (f : node -> Z) (l : list node) : Z :=
  fold_right (fun c acc => tree_sum f c + acc) 0 l.

(** The metrics that [_analyze_python_functions] holds for a file. *)
Definition recorded_functions (a : Analyzer) (file : string)
  : list FunctionMetric :=
  dict_values (dict_get (function_metrics a) file []).

(** The name of a function definition node. *)
Definition function_name (n : node) : option string :=
  match cls n with
  | FunctionDef name _ _ | AsyncFunctionDef name _ _ => Some name
  | _ => None
  end.

(** The later analyzer differs from the earlier one in its code smells
    only. *)
Definition only_smells (a a' : Analyzer) : Prop :=
  exists tbl, a' = set_code_smells tbl a.

(** A metric that the walk over [tree] records: that of a function
    definition of the tree, with the complexity that the loop computes. *)
Definition metric_of_tree (tree : node) (m : FunctionMetric) : Prop :=
  exists n name,
    In n (walk tree) /\ function_name n = Some name
    /\ fm_name m = name /\ fm_line m = lineno n
    /\ fm_complexity m = complexity_of n.

(** Every metric held for [file] afterwards was held before or is a
    metric of [tree]. *)
Definition records_of_tree (tree : node) (file : string)
    (a a' : Analyzer) : Prop :=
  forall m, In m (recorded_functions a' file) ->
            In m (recorded_functions a file) \/ metric_of_tree tree m.

(** The deep-nesting issues held for a file. *)
Definition is_deep_nesting (i : Issue) : bool :=
  String.eqb (i_type i) "deep_nesting".

Definition deep_nesting_issues (a : Analyzer) (file : string) : list Issue :=
  filter is_deep_nesting (dict_get (code_smells a) file []).

(** A method returns [x] and adds the deep-nesting issues [extra] to those
    of [file]. *)
Definition emits {A} (file : string) (extra : list Issue) (m : M A) (x : A)
  : Prop :=
  forall a, exists a',
    m a = (Ok x, a')
    /\ deep_nesting_issues a' file = deep_nesting_issues a file ++ extra.

(** The issues of the nesting check on [levels] nested conditionals that
    start at depth [depth] on line [line]. *)
Fixpoint nest_emitted (func_name : string) (depth line : Z) (levels : nat)
  : list Issue :=
  match levels with
  | O => []
  | S k =>
      (if 4 <? depth + 1
       then [deep_nesting_issue func_name (depth + 1) line] else [])
      ++ nest_emitted func_name (depth + 1) (line + 1) k
  end.

(** [x] is a node of the tree [n]. *)
Inductive subnode (x : node) : node -> Prop :=
| subnode_here : subnode x x
| subnode_child (n c : node) :
    In c (children n) -> subnode x c -> subnode x n.

(** No node of the tree is a function definition. *)
Fixpoint no_function_in (n : node) : bool :=
  match n with
  | Node c _ _ ch =>
      match c with
      | FunctionDef _ _ _ | AsyncFunctionDef _ _ _ => false
      | _ => true
      end && forallb no_function_in ch
  end.

(** The later analyzer differs from the earlier one in its code smells
    and function metrics only. *)
Definition only_smells_and_metrics (a a' : Analyzer) : Prop :=
  exists tbl fm, a' = set_function_metrics fm (set_code_smells tbl a).

(** The severity that the [except] clauses of [_analyze_python_file] give
    to the style issue: a warning for a syntax error and for an attribute
    error, an error for every other exception. *)
Definition failure_severity (e : exn) : string :=
  match e with
  | SyntaxError _ _ | AttributeError _ => "warning"
  | _ => "error"
  end.

(** Where and how the structural analysis of a file failed: [ast.parse]
    raised [e] (the analyzer [at_failure] is still the one before), or the
    walk over the parsed tree raised [e] and left the analyzer as
    [at_failure]. *)
Definition structural_failure `{Runtime} (file content : string)
    (a : Analyzer) (e : exn) (at_failure : Analyzer) : Prop :=
  (ast_parse content = ParseRaises e /\ at_failure = a)
  \/ exists tree,
       ast_parse content = Parsed tree
       /\ analyze_python_functions tree file
            (analyze_python_imports tree file a) = (Raise e, at_failure).

(** ** The duplicate-block detector *)

(** The comment markers of [_check_duplicated_code]. *)
Definition dup_comment_markers : dict string (list string) :=
  [ ("Python", ["#"]); ("JavaScript", ["//"; "/*"]); ("Java", ["//"; "/*"]);
    ("C", ["//"; "/*"]); ("C++", ["//"; "/*"]); ("C#", ["//"; "/*"]);
    ("Ruby", ["#"]); ("PHP", ["//"; "/*"; "#"]) ].

Definition dup_block_comment_languages : list string :=
  ["JavaScript"; "Java"; "C"; "C++"; "C#"; "PHP"].

(** [x in l] for a list of strings. *)
Definition str_in (x : string) (l : list string) : bool :=
  existsb (String.eqb x) l.

(** ['/*' in s and '*/' not in s[s.index('/*') + 2:]] *)
Definition opens_block_comment (line_stripped : string) : bool :=
  match find line_stripped "/*" with
  | Some i => negb (contains (slice_from (i + 2) line_stripped) "*/")
  | None => false
  end.

(** The loop that keeps the lines that are neither blank nor comments
    (lines 854-881). *)
Fixpoint clean_lines_loop (language : string) (markers : list string)
    (lines : list string) (in_block_comment : bool)
    (clean_lines : list string) : list string :=
  match lines with
  | [] => clean_lines
  | line :: rest =>
      let line_stripped := strip line in
      if String.eqb line_stripped "" then
        clean_lines_loop language markers rest in_block_comment clean_lines
      else
        let in_block_1 :=
          if str_in language dup_block_comment_languages
             && opens_block_comment line_stripped
          then true else in_block_comment in
        if str_in language dup_block_comment_languages
           && contains line_stripped "*/" && in_block_1
        then clean_lines_loop language markers rest false clean_lines
        else
          let is_comment := existsb (startswith line_stripped) markers in
          if is_comment || in_block_1 then
            clean_lines_loop language markers rest in_block_1 clean_lines
          else
            clean_lines_loop language markers rest in_block_1
              (clean_lines ++ [line_stripped])
  end.

Definition clean_lines_of (content language : string) : list string :=
  clean_lines_loop language (dict_get dup_comment_markers language ["#"; "//"])
    (split_lines content) false [].

Definition min_block_size : Z := 5.

(** [re.search(r'[^\s\d\W]{3,}', block)]: a run of three characters that
    are word characters and neither digits nor white space. *)
Definition plain_letter (c : ascii) : bool :=
  isword c && negb (isdecimal c) && negb (isspace c).

Fixpoint has_letter_run (s : string) : bool :=
  match s with
  | String a ((String b (String c _)) as r) =>
      plain_letter a && plain_letter b && plain_letter c || has_letter_run r
  | _ => false
  end.

(** [clean_lines[i:i + min_block_size]] joined by newlines. *)
Definition window (clean_lines : list string) (i : nat) : string :=
  join_lines (firstn (Z.to_nat min_block_size) (skipn i clean_lines)).

(** The test that skips a window (line 891). *)
Definition too_simple (block : string) : bool :=
  (strlen block <? 100) || negb (has_letter_run block).

(** One turn of the sliding-window loop (lines 887-903). *)
Definition window_step (hash : string -> Z) (file : string)
    (clean_lines : list string) (blocks : dict Z (list Occurrence)) (i : nat)
  : dict Z (list Occurrence) :=
  let block := window clean_lines i in
  if too_simple block then blocks
  else
    dd_append blocks (hash block)
      {| occ_file := file;
         occ_start_line := Z.of_nat i + 1;
         occ_end_line := Z.of_nat i + min_block_size;
         occ_content := block |}.

(** [range(n)] *)
Definition range (n : Z) : list nat := seq 0 (Z.to_nat n).

(** [_check_duplicated_code]; [hash] is the built-in [hash] of the running
    interpreter on strings. *)
Definition check_duplicated_code (hash : string -> Z)
    (file content language : string) (a : Analyzer) : Analyzer :=
  let clean_lines := clean_lines_of content language in
  set_duplicated_blocks
    (fold_left (window_step hash file clean_lines)
       (range (len clean_lines - min_block_size + 1))
       (duplicated_blocks a))
    a.

(** [len(re.findall(r'\w+', s))]: the number of maximal runs of word
    characters. *)
Fixpoint count_words (inside : bool) (s : string) : Z :=
  match s with
  | EmptyString => 0
  | String c r =>
      if isword c then (if inside then 0 else 1) + count_words true r
      else count_words false r
  end.

(** The tuples [(file, start_line)] of [reported_locations]. *)
Abbreviation loc_tuple := (string * Z)%type (only parsing).

Definition occ_key (o : Occurrence) : loc_tuple :=
  (occ_file o, occ_start_line o).
Definition loc_key (l : Location) : loc_tuple :=
  (file_path l, start_line l).

(** The loop over the occurrences of one hash (lines 924-935). *)
Fixpoint collect_locations (occurrences : list Occurrence)
    (locations_for_report : list Location)
    (reported_locations : list loc_tuple)
  : list Location * list loc_tuple :=
  match occurrences with
  | [] => (locations_for_report, reported_locations)
  | occ :: rest =>
      let loc_tuple := (occ_file occ, occ_start_line occ) in
      if existsb (keqb loc_tuple) reported_locations then
        collect_locations rest locations_for_report reported_locations
      else
        collect_locations rest
          (locations_for_report
           ++ [ {| file_path := occ_file occ;
                   start_line := occ_start_line occ;
                   end_line := occ_end_line occ |} ])
          (set_add reported_locations loc_tuple)
  end.

(** The loop that adds one [duplicate_code] smell per file of a reported
    block (lines 954-965). *)
Fixpoint smell_duplicate_files (locations : list Location)
    (lines n_locations : Z) (files_smelled : list string) (a : Analyzer)
  : Analyzer :=
  match locations with
  | [] => a
  | l :: rest =>
      if str_in (file_path l) files_smelled then
        smell_duplicate_files rest lines n_locations files_smelled a
      else
        smell_duplicate_files rest lines n_locations
          (set_add files_smelled (file_path l))
          (add_code_smell (file_path l)
             {| i_type := "duplicate_code";
                i_description :=
                  ("Part of duplicated code block (" ++ str_int lines
                   ++ " lines) found in " ++ str_int n_locations
                   ++ " location(s)")%string;
                i_severity := "high";
                i_line := Some (start_line l);
                i_context := None |} a)
  end.

(** The state of the loop over the hash groups: [final_duplicates],
    [reported_locations] and the analyzer. *)
Definition dup_loop_state : Type :=
  list ReportBlock * list loc_tuple * Analyzer.

(** One turn of the loop over [self.duplicated_blocks.items()]
    (lines 911-965). *)
Definition dup_group_step (st : dup_loop_state)
    (item : Z * list Occurrence) : dup_loop_state :=
  let '(final_duplicates, reported_locations, a) := st in
  let occurrences := snd item in
  if 1 <? len occurrences then
    match occurrences with
    | [] => st
    | representative_occurrence :: _ =>
        let block_line_count :=
          occ_end_line representative_occurrence
          - occ_start_line representative_occurrence + 1 in
        if block_line_count <? 5 then st
        else
          let '(locations_for_report, reported_locations') :=
            collect_locations occurrences [] reported_locations in
          if 1 <? len locations_for_report then
            let content_sample := occ_content representative_occurrence in
            let report_block :=
              {| rb_lines := block_line_count;
                 rb_tokens := count_words false content_sample;
                 rb_files := locations_for_report;
                 rb_code_snippet :=
                   String.append (slice_to 300 content_sample)
                     (if 300 <? strlen content_sample then "..." else "") |}
            in
            (final_duplicates ++ [report_block], reported_locations',
             smell_duplicate_files locations_for_report block_line_count
               (len locations_for_report) [] a)
          else (final_duplicates, reported_locations', a)
    end
  else st.

(** [(x['lines'], x['tokens'])] of one block is greater than that of
    another. *)
Definition sort_key_gt (x y : ReportBlock) : bool :=
  (rb_lines y <? rb_lines x)
  || (rb_lines y =? rb_lines x) && (rb_tokens y <? rb_tokens x).

(** [l.sort(key=..., reverse=True)]: descending, and blocks with equal
    keys keep their order. *)
Fixpoint insert_desc (x : ReportBlock) (l : list ReportBlock)
  : list ReportBlock :=
  match l with
  | [] => [x]
  | y :: r => if sort_key_gt y x then y :: insert_desc x r else x :: y :: r
  end.

Definition sort_desc (l : list ReportBlock) : list ReportBlock :=
  fold_right insert_desc [] l.

(** [_analyze_duplicated_code] *)
Definition analyze_duplicated_code (a : Analyzer) : Analyzer :=
  let '(final_duplicates, _, a') :=
    fold_left dup_group_step (duplicated_blocks a) ([], [], a) in
  set_duplicated_code (sort_desc final_duplicates) a'.

(** All occurrences held by [self.duplicated_blocks]. *)
Definition all_occurrences (blocks : dict Z (list Occurrence))
  : list Occurrence :=
  List.concat (dict_values blocks).

(** The location that [_analyze_duplicated_code] reports for an
    occurrence. *)
Definition location_of (o : Occurrence) : Location :=
  {| file_path := occ_file o;
     start_line := occ_start_line o;
     end_line := occ_end_line o |}.

(** A hash group passes the two guards of lines 912 and 919, so that the
    loop over its occurrences runs. *)
Definition is_processed (item : Z * list Occurrence) : bool :=
  (1 <? len (snd item))
  && match snd item with
     | [] => false
     | o :: _ => negb (occ_end_line o - occ_start_line o + 1 <? 5)
     end.

(** What the scanner records for one window of a file: five lines, the
    1-based position of the window in [clean_lines], and the window's
    text. *)
Definition window_recorded (file : string) (clean_lines : list string)
    (o : Occurrence) : Prop :=
  occ_file o = file
  /\ occ_end_line o - occ_start_line o + 1 = 5
  /\ exists i : nat,
       occ_start_line o = Z.of_nat i + 1
       /\ (i + 5 <= List.length clean_lines)%nat
       /\ occ_content o = join_lines (firstn 5 (skipn i clean_lines)).

(** The invariant of the loop over the hash groups once the groups
    [done] have been processed: every block found so far has two
    locations or more, no location is in two blocks, every location of a
    processed group is marked as reported, and a block's locations are in
    no processed group before the one the block comes from. *)
Record dup_invariant (done : list (Z * list Occurrence))
    (final : list ReportBlock) (reported : list loc_tuple) : Prop := {
  inv_two : Forall (fun rb => 2 <= len (rb_files rb)) final;
  inv_nodup : NoDup (map loc_key (List.concat (map rb_files final)));
  inv_reported :
    forall k, In k (map loc_key (List.concat (map rb_files final))) ->
              In k reported;
  inv_claimed :
    forall item, In item done -> is_processed item = true ->
      forall o, In o (snd item) -> In (occ_key o) reported;
  inv_first :
    forall rb, In rb final ->
      exists pre item post,
        done = pre ++ item :: post
        /\ (forall l, In l (rb_files rb) ->
              exists o, In o (snd item) /\ l = location_of o)
        /\ (forall l earlier, In l (rb_files rb) -> In earlier pre ->
              is_processed earlier = true ->
              ~ In (loc_key l) (map occ_key (snd earlier)))
}.

(** ** The generic analyzer: [_analyze_generic] *)

(** One rule of [SECURITY_VULNERABILITIES] or [PERFORMANCE_ISSUES]; the
    rule [nested_loops] has no regex. *)
Record Rule := mkRule {
  r_name : string;
  r_description : string;
  r_severity : string;
  r_regex : option string;
  r_languages : list string
}.

Definition SECURITY_VULNERABILITIES : list Rule :=
  [ mkRule "sql_injection" "Potential SQL Injection vulnerabilities"
      "critical"
      (Some ".*(?:execute|query|run).*\+.*|.*(?:execute|query|run).*\$\{")
      ["python"; "javascript"; "php"; "ruby"];
    mkRule "xss" "Potential Cross-Site Scripting (XSS) vulnerabilities"
      "critical" (Some "innerHTML\s*=|document\.write\s*\(")
      ["javascript"; "html"];
    mkRule "eval_input" "Evaluating user input (can lead to code injection)"
      "critical"
      (Some "eval\s*\(.*(?:input|param|request|query|\$_GET|\$_POST)")
      ["python"; "javascript"; "php"];
    mkRule "hardcoded_credentials" "Hardcoded credentials or API keys"
      "critical"
      (Some ("password\s*=\s*[" ++ dq ++ "\'][^" ++ dq ++ "\']+[" ++ dq
             ++ "\']|api[_-]?key\s*=\s*[" ++ dq ++ "\'][^" ++ dq ++ "\']+["
             ++ dq ++ "\']")%string)
      ["all"] ].

Definition PERFORMANCE_ISSUES : list Rule :=
  [ mkRule "inefficient_loop" "Inefficient loop patterns" "medium"
      (Some "for\s+\w+\s+in\s+range\s*\(\s*len\s*\(\s*\w+\s*\)\s*\)")
      ["python"];
    mkRule "nested_loops" "Nested loops with high complexity" "high"
      None ["all"];
    mkRule "multiple_dom_access" "Multiple DOM accesses that could be cached"
      "medium"
      (Some ("document\.getElement(s)?By|\$\(\s*[\'" ++ dq ++ "]")%string)
      ["javascript"] ].

(** The comment markers of [_analyze_generic]. *)
Definition comment_markers : dict string (list string) :=
  [ ("Python", ["#"]); ("JavaScript", ["//"; "/*"]); ("Java", ["//"; "/*"]);
    ("C", ["//"; "/*"]); ("C++", ["//"; "/*"]); ("C#", ["//"; "/*"]);
    ("Ruby", ["#"]); ("PHP", ["//"; "/*"; "#"]); ("Swift", ["//"; "/*"]);
    ("Go", ["//"]); ("Rust", ["//"; "/*"]) ].

Definition block_comment_languages : list string :=
  ["JavaScript"; "Java"; "C"; "C++"; "C#"; "PHP"; "Swift"].

Definition code_indicators : list string :=
  [ "\bif\b"; "\bfor\b"; "\bwhile\b"; "\bdef\b"; "\bfunction\b";
    "\breturn\b"; "\bclass\b"; "{"; "}"; "="; "\(.*\)" ].

(** [re.search(pattern, s)] finds something. *)
Definition re_search `{Runtime} (pattern s : string) : bool :=
  match re_finditer pattern s with [] => false | _ => true end.

(** The long-line loop (lines 566-573). *)
Fixpoint long_lines_loop (file : string) (lines : list string) (i : Z)
    (a : Analyzer) : Analyzer :=
  match lines with
  | [] => a
  | line :: rest =>
      long_lines_loop file rest (i + 1)
        (if 100 <? strlen (strip line)
         then add_style_issue file
                {| i_type := "long_line";
                   i_description := "Line exceeds 100 characters";
                   i_severity := "low";
                   i_line := Some (i + 1);
                   i_context := None |} a
         else a)
  end.

(** The block-comment bookkeeping shared by both loops over the lines. *)
Definition block_comment_after (language line_stripped : string)
    (in_block_comment : bool) : bool :=
  if str_in language block_comment_languages then
    let in_block_1 :=
      if opens_block_comment line_stripped then true else in_block_comment in
    if contains line_stripped "*/" && in_block_1 then false else in_block_1
  else in_block_comment.

(** The comment line without its marker (lines 626-630). *)
Fixpoint strip_marker (markers : list string) (code_line : string) : string :=
  match markers with
  | [] => code_line
  | marker :: rest =>
      if startswith code_line marker
      then strip (slice_from (String.length marker) code_line)
      else strip_marker rest code_line
  end.

(** The loop that collects blocks of commented-out code (lines 595-640);
    it returns [in_block_comment], [commented_code_lines] and
    [current_block]. *)
Fixpoint commented_code_loop `{Runtime} (language : string)
    (markers : list string) (lines : list string) (i : Z)
    (in_block_comment : bool) (commented_code_lines : list (list (Z * string)))
    (current_block : list (Z * string))
  : bool * list (list (Z * string)) * list (Z * string) :=
  match lines with
  | [] => (in_block_comment, commented_code_lines, current_block)
  | line :: rest =>
      let line_stripped := strip line in
      if String.eqb line_stripped "" then
        commented_code_loop language markers rest (i + 1) in_block_comment
          commented_code_lines current_block
      else
        let in_block_comment :=
          block_comment_after language line_stripped in_block_comment in
        let is_comment := existsb (startswith line_stripped) markers in
        if is_comment || in_block_comment then
          let code_line := strip_marker markers line_stripped in
          if existsb (fun indicator => re_search indicator code_line)
               code_indicators
          then commented_code_loop language markers rest (i + 1)
                 in_block_comment commented_code_lines
                 (current_block ++ [(i + 1, line_stripped)])
          else commented_code_loop language markers rest (i + 1)
                 in_block_comment commented_code_lines current_block
        else
          match current_block with
          | [] =>
              commented_code_loop language markers rest (i + 1)
                in_block_comment commented_code_lines current_block
          | _ =>
              commented_code_loop language markers rest (i + 1)
                in_block_comment
                (if 1 <? len current_block
                 then commented_code_lines ++ [current_block]
                 else commented_code_lines)
                []
          end
  end.

(** The report of the commented-out blocks (lines 647-655). *)
Definition report_commented_code (file : string)
    (commented_code_lines : list (list (Z * string))) (a : Analyzer)
  : Analyzer :=
  fold_left (fun a block =>
    let start_line := fst (hd (0, "") block) in
    let end_line := fst (last block (0, "")) in
    add_code_smell file
      {| i_type := "commented_code";
         i_description :=
           ("Commented-out code block (lines " ++ str_int start_line ++ "-"
            ++ str_int end_line ++ ")")%string;
         i_severity := "low";
         i_line := Some start_line;
         i_context := None |} a)
    commented_code_lines a.

(** The language test of a rule (lines 660-662 and 679-681): the rule is
    skipped. *)
Definition rule_skipped (rule : Rule) (language : string) : bool :=
  negb (str_in "all" (r_languages rule))
  && negb (str_in (lower language) (map lower (r_languages rule))).

(** The issue of one regex match (lines 667-674 and 687-694). *)
Definition match_issue (rule : Rule) (content : string) (m : Match) : Issue :=
  let line_number := count_newlines (slice_to (m_start m) content) + 1 in
  {| i_type := r_name rule;
     i_description := r_description rule;
     i_severity := r_severity rule;
     i_line := Some line_number;
     i_context :=
       Some (strip (nth (Z.to_nat (line_number - 1)) (split_lines content) ""))
  |}.

(** The security loop (lines 658-674). *)
Definition security_loop `{Runtime} (file content language : string)
    (a : Analyzer) : Analyzer :=
  fold_left (fun a vuln =>
    if rule_skipped vuln language then a
    else
      match r_regex vuln with
      | Some regex =>
          fold_left (fun a m =>
            add_security_issue file (match_issue vuln content m) a)
            (re_finditer regex content) a
      | None => a
      end)
    SECURITY_VULNERABILITIES a.

(** The performance loop (lines 677-694). *)
Definition performance_loop `{Runtime} (file content language : string)
    (a : Analyzer) : Analyzer :=
  fold_left (fun a issue =>
    if rule_skipped issue language then a
    else
      match r_regex issue with
      | Some regex =>
          fold_left (fun a m =>
            add_performance_issue file (match_issue issue content m) a)
            (re_finditer regex content) a
      | None => a
      end)
    PERFORMANCE_ISSUES a.

(** The value of the loop variable [issue_name] once the performance loop
    is over: the last key of [PERFORMANCE_ISSUES]. *)
Definition issue_name_after_loop : string :=
  last (map r_name PERFORMANCE_ISSUES) "".

(** *** The nested-loop block (lines 697-781) *)

Definition loop_patterns : dict string string :=
  [ ("Python", "\b(for|while)\b"); ("JavaScript", "\b(for|while|do)\b");
    ("Java", "\b(for|while|do)\b"); ("C", "\b(for|while|do)\b");
    ("C++", "\b(for|while|do)\b"); ("C#", "\b(for|while|do|foreach)\b");
    ("Ruby", "\b(for|while|until|each)\b");
    ("PHP", "\b(for|while|do|foreach)\b") ].

(** The [while] loop that looks for the end of an indented block
    (lines 741-754); [pos] grows at every turn, so [turns] beyond the
    length of [content] are never needed. *)
Fixpoint indented_block_end (turns : nat) (content : string)
    (indentation pos : nat) : nat :=
  match turns with
  | O => String.length content
  | S turns' =>
      if (pos <? String.length content)%nat then
        let line_start := pos in
        let line_end :=
          match find_from content nl line_start with
          | Some e => e
          | None => String.length content
          end in
        let line := slice line_start line_end content in
        if negb (String.eqb (strip line) "")
           && (String.length line - String.length (lstrip line)
               <=? indentation)%nat
        then (line_start - 1)%nat
        else indented_block_end turns' content indentation (line_end + 1)
      else String.length content
  end.

(** The [for] loop that looks for the matching closing brace
    (lines 759-768), over the text from index [j] on. *)
Fixpoint matching_brace (rest : string) (j : nat) (opening_count : Z)
  : option nat :=
  match rest with
  | EmptyString => None
  | String c rest' =>
      if Ascii.eqb c "{"%char then matching_brace rest' (S j) (opening_count + 1)
      else if Ascii.eqb c "}"%char then
        if opening_count - 1 =? 0 then Some j
        else matching_brace rest' (S j) (opening_count - 1)
      else matching_brace rest' (S j) opening_count
  end.

(** Lines 771-781: the search for an inner loop in the block. *)
Definition report_nested_loop `{Runtime} (file content loop_regex : string)
    (line_number : Z) (block_start block_end : nat) : M unit :=
  let block_content := slice block_start block_end content in
  match re_finditer loop_regex block_content with
  | [] => ret tt
  | inner_loops :: _ =>
      let inner_line :=
        line_number
        + count_newlines (slice_to (m_start inner_loops) block_content) in
      modify (add_performance_issue file
        {| i_type := "nested_loops";
           i_description :=
             ("Nested loops detected (outer loop at line "
              ++ str_int line_number ++ ", inner at line "
              ++ str_int inner_line ++ ")")%string;
           i_severity := "high";
           i_line := Some line_number;
           i_context := None |})
  end.

(** The loop over the loop keywords (lines 714-781). [block_start] is a
    local variable that only the brace branch assigns: it is [None] until
    then, and reading it unassigned raises. *)
Fixpoint nested_loops_loop `{Runtime} (file content loop_regex : string)
    (loop_matches : list Match) (block_start : option nat) : M unit :=
  match loop_matches with
  | [] => ret tt
  | m :: rest =>
      let loop_start := m_start m in
      let line_number := count_newlines (slice_to loop_start content) + 1 in
      match find_from content "{" loop_start with
      | None =>
          match find_from content ":" loop_start with
          | None => nested_loops_loop file content loop_regex rest block_start
          | Some opening_bracket =>
              let next_line_start :=
                match find_from content nl opening_bracket with
                | Some p => (p + 1)%nat
                | None => O
                end in
              if (String.length content <=? next_line_start)%nat then
                nested_loops_loop file content loop_regex rest block_start
              else
                let next_line_end :=
                  match find_from content nl next_line_start with
                  | Some e => e
                  | None => String.length content
                  end in
                let next_line := slice next_line_start next_line_end content in
                let indentation :=
                  (String.length next_line
                   - String.length (lstrip next_line))%nat in
                let block_end :=
                  indented_block_end (S (String.length content)) content
                    indentation (next_line_end + 1) in
                match block_start with
                | None =>
                    raise (OtherException "UnboundLocalError"
                             "local variable 'block_start' referenced before assignment")
                | Some start =>
                    report_nested_loop file content loop_regex line_number
                      start block_end ;;
                    nested_loops_loop file content loop_regex rest block_start
                end
          end
      | Some opening_bracket =>
          let start := (opening_bracket + 1)%nat in
          match matching_brace (slice_from start content) start 1 with
          | None =>
              nested_loops_loop file content loop_regex rest (Some start)
          | Some block_end =>
              report_nested_loop file content loop_regex line_number
                start block_end ;;
              nested_loops_loop file content loop_regex rest (Some start)
          end
      end
  end.

Definition nested_loops_block `{Runtime} (file content language : string)
  : M unit :=
  let loop_regex := dict_get loop_patterns language "\b(for|while)\b" in
  nested_loops_loop file content loop_regex (re_finditer loop_regex content)
    None.

(** *** File metrics (lines 792-829) *)

(** The loop that counts comment lines (lines 798-815). *)
Fixpoint comment_lines_loop (language : string) (markers : list string)
    (lines : list string) (in_block_comment : bool) (comment_lines : Z) : Z :=
  match lines with
  | [] => comment_lines
  | line :: rest =>
      let line_stripped := strip line in
      let is_comment := existsb (startswith line_stripped) markers in
      comment_lines_loop language markers rest
        (block_comment_after language line_stripped in_block_comment)
        (if is_comment || in_block_comment
         then comment_lines + 1 else comment_lines)
  end.

Definition store_file_metrics (file language : string) (lines : list string)
    (markers : list string) (in_block_comment : bool) (a : Analyzer)
  : Analyzer :=
  let loc := len lines in
  let comment_lines :=
    comment_lines_loop language markers lines in_block_comment 0 in
  let comment_density :=
    if 0 <? loc then (inject_Z comment_lines / inject_Z loc)%Q else 0%Q in
  let non_empty_lines :=
    map strlen
      (filter (fun line => negb (String.eqb (strip line) "")) lines) in
  let avg_line_length :=
    match non_empty_lines with
    | [] => 0%Q
    | _ => (inject_Z (sumZ non_empty_lines)
            / inject_Z (len non_empty_lines))%Q
    end in
  set_file_metrics
    (dict_set (file_metrics a) file
       {| loc := loc; comment_lines := comment_lines;
          comment_density := comment_density;
          avg_line_length := avg_line_length |}) a.

(** [_analyze_generic]. The token statistics (lines 783-790) are left
    out. *)
Definition analyze_generic `{Runtime} (file content language : string)
  : M unit :=
  let lines := split_lines content in
  modify (long_lines_loop file lines 0) ;;
  let markers := dict_get comment_markers language ["#"; "//"] in
  let '(in_block_comment, commented_code_lines, current_block) :=
    commented_code_loop language markers lines 0 false [] [] in
  let commented_code_lines :=
    if 1 <? len current_block
    then commented_code_lines ++ [current_block]
    else commented_code_lines in
  modify (report_commented_code file commented_code_lines) ;;
  modify (security_loop file content language) ;;
  modify (performance_loop file content language) ;;
  (if String.eqb issue_name_after_loop "nested_loops"
   then nested_loops_block file content language
   else ret tt) ;;
  modify (store_file_metrics file language lines markers in_block_comment).

(** ** JavaScript files: [_analyze_js_file] *)

Definition JS_ANTI_PATTERNS : list Pattern :=
  [ mkPattern "var_usage" "Using var instead of let/const" "medium"
      "\bvar\s+";
    mkPattern "triple_equals" "Using == instead of ===" "medium"
      "[^=!]==[^=]";
    mkPattern "eval_usage" "Using eval() function" "high" "eval\s*\(";
    mkPattern "with_statement" "Using with statement" "high" "\bwith\s*\(" ].

(** The loop over the function matches (lines 530-559) iterates over
    [matches], the iterator that the last turn of the loop over
    [JS_ANTI_PATTERNS] has used up: it has no turn. *)
Definition analyze_js_file `{Runtime} (file content : string) (a : Analyzer)
  : Analyzer :=
  let a :=
    fold_left (fun a p =>
      fold_left (fun a m =>
        add_code_smell file
          {| i_type := p_name p; i_description := p_description p;
             i_severity := p_severity p;
             i_line :=
               Some (count_newlines (slice_to (m_start m) content) + 1);
             i_context := None |} a)
        (re_finditer (p_regex p) content) a)
      JS_ANTI_PATTERNS a in
  let a :=
    fold_left (fun a m =>
      set_dependencies (dd_add (dependencies a) file (m_group1 m)) a)
      (re_finditer
         ("import\s+.*from\s+[\'" ++ dq ++ "]([^\'" ++ dq ++ "]+)[\'" ++ dq
          ++ "]")%string content) a in
  fold_left (fun a m =>
    set_dependencies (dd_add (dependencies a) file (m_group1 m)) a)
    (re_finditer
       ("require\s*\(\s*[\'" ++ dq ++ "]([^\'" ++ dq ++ "]+)[\'" ++ dq
        ++ "]\s*\)")%string content) a.

(** ** The run: [analyze_project] *)

(** [_get_language_from_extension] *)
Definition languages : dict string string :=
  [ (".py", "Python"); (".pyw", "Python"); (".js", "JavaScript");
    (".jsx", "JavaScript"); (".ts", "TypeScript"); (".tsx", "TypeScript");
    (".java", "Java"); (".c", "C"); (".cpp", "C++"); (".h", "C/C++");
    (".hpp", "C++"); (".cs", "C#"); (".rb", "Ruby"); (".php", "PHP");
    (".swift", "Swift"); (".go", "Go"); (".rs", "Rust"); (".html", "HTML");
    (".htm", "HTML"); (".css", "CSS"); (".scss", "SCSS"); (".sass", "SASS");
    (".less", "LESS"); (".sql", "SQL") ].

Definition get_language_from_extension (extension : string) : string :=
  dict_get languages extension "Unknown".

(** [s.rfind(c)] for a character. *)
Fixpoint rfind_char (c : ascii) (s : string) : option nat :=
  match s with
  | EmptyString => None
  | String c' r =>
      match rfind_char c r with
      | Some i => Some (S i)
      | None => if Ascii.eqb c' c then Some O else None
      end
  end.

Fixpoint all_dots (s : string) : bool :=
  match s with
  | EmptyString => true
  | String c r => Ascii.eqb c "."%char && all_dots r
  end.

(** [os.path.splitext(p)[1]] with [/] as the separator: the text from the
    last dot of the file name on, unless only dots come before it. *)
Definition splitext_ext (p : string) : string :=
  match rfind_char "."%char p with
  | None => ""
  | Some dot =>
      let name_start :=
        match rfind_char "/"%char p with Some sep => S sep | None => O end in
      if (dot <? name_start)%nat then ""
      else if all_dots (slice name_start dot p) then ""
      else slice_from dot p
  end.

(** One file of the project: its path, and its decoded content unless the
    file cannot be read. *)
Record SourceFile := mkSourceFile {
  sf_path : string;
  sf_content : option string
}.

(** The language tag of a file (lines 247-248). *)
Definition language_of (file_path : string) : string :=
  get_language_from_extension (lower (splitext_ext file_path)).

(** The language-specific analysis and the generic analysis of a file
    (lines 269-275). *)
Definition analyze_content `{Runtime} (file_path content language : string)
  : M unit :=
  fun a =>
    let a :=
      if String.eqb language "Python"
      then snd (analyze_python_file file_path content a)
      else if str_in language ["JavaScript"; "TypeScript"]
      then analyze_js_file file_path content a
      else a in
    analyze_generic file_path content language a.

(** The body of the loop over the files (lines 246-281). A file that
    cannot be read, or an exception raised while the file is analysed,
    ends the work on that file. *)
Definition analyze_file `{Runtime} (hash : string -> Z) (f : SourceFile)
    (a : Analyzer) : Analyzer :=
  let file_path := sf_path f in
  let language := language_of file_path in
  if String.eqb language "Unknown" then a
  else
    match sf_content f with
    | None => a
    | Some content =>
        match analyze_content file_path content language a with
        | (Ok _, a) => check_duplicated_code hash file_path content language a
        | (Raise _, a) => a
        end
    end.

(** [analyze_project] on a fresh analyzer, up to the metrics. The result
    is the analyzer at the end, or the exception that escapes. *)
Definition analyze_project `{Runtime} (hash : string -> Z)
    (files : list SourceFile) : result Analyzer :=
  let a := fold_left (fun a f => analyze_file hash f a) files init in
  let a := analyze_duplicated_code a in
  calculate_project_metrics a.

(** The nested-loop issues held for a file. *)
Definition is_nested_loops (i : Issue) : bool :=
  String.eqb (i_type i) "nested_loops".

Definition nested_loops_issues (a : Analyzer) (file : string) : list Issue :=
  filter is_nested_loops (dict_get (performance_issues a) file []).

(** *** What a run takes from the string hash *)

(** The windows that the duplicate scan of a file hashes, each with the
    occurrence stored for it. *)
Definition windows_of (file content language : string)
  : list (string * Occurrence) :=
  let clean_lines := clean_lines_of content language in
  flat_map (fun i =>
    let block := window clean_lines i in
    if too_simple block then []
    else [(block,
           {| occ_file := file;
              occ_start_line := Z.of_nat i + 1;
              occ_end_line := Z.of_nat i + min_block_size;
              occ_content := block |})])
    (range (len clean_lines - min_block_size + 1)).

Definition file_windows (f : SourceFile) : list (string * Occurrence) :=
  let language := language_of (sf_path f) in
  if String.eqb language "Unknown" then []
  else match sf_content f with
       | None => []
       | Some content => windows_of (sf_path f) content language
       end.

(** All the blocks of text that a run over [files] hashes. *)
Definition project_blocks (files : list SourceFile) : list string :=
  map fst (flat_map file_windows files).

(** The hash gives different values to different blocks of the
    project. *)
Definition collision_free (hash : string -> Z) (files : list SourceFile)
  : bool :=
  forallb (fun b1 =>
    forallb (fun b2 => implb (hash b1 =? hash b2) (String.eqb b1 b2))
      (project_blocks files))
    (project_blocks files).

(** The table that the windows [ws] leave in [self.duplicated_blocks]. *)
Definition insert_windows (hash : string -> Z)
    (ws : list (string * Occurrence)) (blocks : dict Z (list Occurrence))
  : dict Z (list Occurrence) :=
  fold_left (fun d w => dd_append d (hash (fst w)) (snd w)) ws blocks.

(** The same table with the blocks themselves as keys. *)
Definition insert_by_content (ws : list (string * Occurrence))
    (blocks : dict string (list Occurrence))
  : dict string (list Occurrence) :=
  fold_left (fun d w => dd_append d (fst w) (snd w)) ws blocks.

Definition relabel (hash : string -> Z) (d : dict string (list Occurrence))
  : dict Z (list Occurrence) :=
  map (fun kv => (hash (fst kv), snd kv)) d.

(** The analyzer without its table of hashed windows: the findings, the
    metrics, the dependencies and the reported duplicate blocks. *)
Definition analysis_output (a : Analyzer) : Analyzer :=
  set_duplicated_blocks [] a.

Definition output_of (r : result Analyzer) : result Analyzer :=
  match r with
  | Ok a => Ok (analysis_output a)
  | Raise e => Raise e
  end.

(** An update of the analyzer, and a method, that neither read nor write
    the table of hashed windows. *)
Definition ignores_blocks (op : Analyzer -> Analyzer) : Prop :=
  forall d a, op (set_duplicated_blocks d a) = set_duplicated_blocks d (op a).

Definition ignores_blocks_M {A} (m : M A) : Prop :=
  forall d a,
    m (set_duplicated_blocks d a)
    = (fst (m a), set_duplicated_blocks d (snd (m a))).

(** ** The specification's reading of the aggregate metrics *)

Module Spec.

(** The four categories of a Finding; in the code a Finding's category
    is the table of [self.results] that holds it. *)
Inductive Category := CodeSmell | Security | Performance | Style.

Definition Finding : Type := Category * Issue.

Definition findings_in (c : Category) (tbl : issue_table) : list Finding :=
  map (pair c) (List.concat (dict_values tbl)).

(** All Findings of a run. *)
Definition all_findings (a : Analyzer) : list Finding :=
  findings_in CodeSmell (code_smells a)
  ++ findings_in Security (security_issues a)
  ++ findings_in Performance (performance_issues a)
  ++ findings_in Style (style_issues a).

Fixpoint Qsum (l : list Q) : Q :=
  match l with
  | [] => 0
  | x :: r => x + Qsum r
  end%Q.

(** The severity weight table {critical:8, high:4, medium:2, low:1}. *)
Definition severity_weight (severity : string) : Q :=
  if String.eqb severity "critical" then 8
  else if String.eqb severity "high" then 4
  else if String.eqb severity "medium" then 2
  else if String.eqb severity "low" then 1
  else 0.

(** The hours of one Finding as the specification words them: the
    table weight, times 1.5 for the security category. *)
Definition finding_hours (f : Finding) : Q :=
  match fst f with
  | Security => severity_weight (i_severity (snd f)) * (3 # 2)
  | _ => severity_weight (i_severity (snd f))
  end%Q.

(** Technical debt as the specification words it: every Finding
    counts. *)
Definition technical_debt_hours (a : Analyzer) : Q :=
  (Qsum (map finding_hours (all_findings a))
   + 3 * inject_Z (len (duplicated_code a)))%Q.

(** The hours of one Finding as the code counts them: a style Finding
    counts nothing, and a severity missing from [issue_weights] counts
    as medium (as high in the security table). *)
Definition counted_hours (f : Finding) : Q :=
  match fst f with
  | CodeSmell | Performance =>
      inject_Z (dict_get issue_weights (i_severity (snd f)) 2%Z)
  | Security =>
      inject_Z (dict_get issue_weights (i_severity (snd f)) 4%Z) * (3 # 2)
  | Style => 0
  end%Q.

(** [clamp(lo, hi, x)] *)
Definition clamp (lo hi x : Q) : Q :=
  if Qltb x lo then lo else if Qltb hi x then hi else x.

(** The maintainability index of the specification. *)
Definition maintainability_index
    (avg_complexity avg_line_length : Q) (total_loc : Z)
    (comment_density : Q) : Q :=
  clamp 0 100
    (171 - (52 # 10) * (avg_complexity - 1) - (23 # 100) * avg_line_length
     - (162 # 10) * (inject_Z total_loc / 1000) + 50 * comment_density)%Q.

(** The branching constructs that the specification names: [if],
    [while], [for], [try] and the exception-handling clauses. *)
Definition is_branching (c : node_class) : bool :=
  match c with
  | If | While | For | AsyncFor | Try | ExceptHandler => true
  | _ => false
  end.

(** The extra operands of a short-circuit boolean chain. *)
Definition extra_operands (n : node) : Z :=
  match cls n with
  | BoolOp _ values_len => values_len - 1
  | _ => 0
  end.

(** Cyclomatic complexity as the specification words it. *)
Definition cyclomatic_complexity (n : node) : Z :=
  1 + tree_sum (fun m => if is_branching (cls m) then 1 else 0) n
  + tree_sum extra_operands n.

(** The statements that the code counts as branching: [if], [while],
    [for] (also [async for]) and [try], not the [except] clauses. *)
Definition counted_branching (c : node_class) : bool :=
  match c with
  | If | While | For | AsyncFor | Try => true
  | _ => false
  end.

(** The extra operands of an [and] chain. *)
Definition extra_and_operands (n : node) : Z :=
  match cls n with
  | BoolOp And values_len => values_len - 1
  | _ => 0
  end.

End Spec.

(** ** Example projects *)

Module Examples.

(** The analyzer after the per-file passes over a project whose one
    file [a.py] is a single comment line of 102 characters: one
    long-line style issue, nothing else. *)
Definition long_comment_project : Analyzer :=
  add_style_issue "a.py"
    (mkIssue "long_line" "Line exceeds 100 characters" "low" (Some 1) None)
    (set_file_metrics [("a.py", mkFileMetrics 1 1 1 102)] init).

(** The analyzer after the per-file passes over a project whose one
    file [config.py] is the line [password = 'hunter2']. *)
Definition hunter2_project : Analyzer :=
  add_security_issue "config.py"
    (mkIssue "hardcoded_credentials" "Hardcoded credentials or API keys"
             "critical" (Some 1) (Some "password = 'hunter2'"))
    (set_file_metrics [("config.py", mkFileMetrics 1 0 0 20)] init).

(** An analyzer holding one file of 10 lines and one function of
    cyclomatic complexity 1000. *)
Definition steep_project : Analyzer :=
  set_function_metrics
    [("big.py", [("f@1", mkFunctionMetric "f" 0 10 1000 1)])]
    (set_file_metrics [("big.py", mkFileMetrics 10 0 0 30)] init).

(** An analyzer whose file table has one entry with no line at all. *)
Definition empty_lines_project : Analyzer :=
  set_file_metrics [("none.py", mkFileMetrics 0 0 0 0)] init.

(** An interpreter for the examples: Python 3.8 or later with the
    default recursion limit of 1000, of which the tree walk gets 990
    frames; [parse] stands for [ast.parse] on the example sources, none
    of which holds a match of a rule's regex. *)
Definition python3 (parse : string -> parse_result) : Runtime :=
  {| ast_parse := parse;
     re_finditer := fun _ _ => [];
     frames := 990;
     has_posonlyargs := true;
     unparse_lines := fun _ => None |}.

Definition name_node (line : Z) : node :=
  Node (Other "Name") line line [Node (Other "Load") 0 0 []].

Definition arguments_node (line : Z) (names : list string) : node :=
  Node (Other "arguments") 0 0
    (map (fun _ => Node (Other "arg") line line []) names).

(** [def f(a, b):] / [    return a or b] *)
Definition or_source : string :=
  join_lines ["def f(a, b):"; "    return a or b"].

Definition or_function : node :=
  Node (FunctionDef "f" (mkArguments ["a"; "b"] [] [] None None) 1) 1 2
    [ arguments_node 1 ["a"; "b"];
      Node (Other "Return") 2 2
        [ Node (BoolOp Or 2) 2 2
            [ Node (Other "Or") 0 0 []; name_node 2; name_node 2 ] ] ].

Definition or_module : node := Node Module_ 0 0 [or_function].

Definition parse_or (content : string) : parse_result :=
  if String.eqb content or_source then Parsed or_module
  else ParseRaises (SyntaxError (Some 1) "invalid syntax").

(** [levels] conditionals nested in one another, the outermost on
    [line] and one per line; the innermost holds [pass]. *)
Fixpoint nested_if (levels : nat) (line last : Z) : node :=
  match levels with
  | O => Node (Other "Pass") line line []
  | S k => Node If line last [name_node line; nested_if k (line + 1) last]
  end.

(** [def name(x):] followed by [levels] nested [if x:] and a [pass]. *)
Definition nested_function (name : string) (levels : nat) : node :=
  Node (FunctionDef name (mkArguments ["x"] [] [] None None) 1)
    1 (Z.of_nat levels + 2)
    [arguments_node 1 ["x"]; nested_if levels 2 (Z.of_nat levels + 2)].

Definition nested_module (name : string) (levels : nat) : node :=
  Node Module_ 0 0 [nested_function name levels].

(** The source of [nested_module "f" 6]. *)
Definition six_levels_source : string :=
  join_lines
    [ "def f(x):";
      "    if x:";
      "        if x:";
      "            if x:";
      "                if x:";
      "                    if x:";
      "                        if x:";
      "                            pass" ].

Definition parse_six_levels (content : string) : parse_result :=
  if String.eqb content six_levels_source then Parsed (nested_module "f" 6)
  else ParseRaises (SyntaxError (Some 1) "invalid syntax").

(** A string hash for the examples: the code points read as the
    digits of a number in base [base], on top of [seed]. *)
Fixpoint digits_hash (base seed : Z) (s : string) : Z :=
  match s with
  | EmptyString => seed
  | String c r => digits_hash base (seed * base + Z.of_nat (nat_of_ascii c) + 1) r
  end.

(** Five statements under a comment line. *)
Definition five_statements : list string :=
  [ "alpha_value = compute_something(first_argument, second_argument)";
    "beta_value = compute_something(alpha_value, third_argument)";
    "gamma_value = alpha_value + beta_value";
    "delta_value = gamma_value * 2";
    "print(alpha_value, beta_value, gamma_value, delta_value)" ].

Definition commented_source : string :=
  join_lines ("# header comment" :: five_statements).

(** What the scanner records for [commented_source]. *)
Definition commented_occurrence (file : string) : Occurrence :=
  {| occ_file := file; occ_start_line := 1; occ_end_line := 5;
     occ_content := join_lines five_statements |}.

(** [x + x + ... + x]: a sum of [terms + 1] names on line [line], as the
    parser nests it (to the left). *)
Fixpoint sum_chain (terms : nat) (line : Z) : node :=
  match terms with
  | O => name_node line
  | S k =>
      Node (Other "BinOp") line line
        [sum_chain k line; Node (Other "Add") 0 0 []; name_node line]
  end.

(** [import os] / [def f(x):] / [    return x + x + ... + x], the sum
    having 1000 terms. *)
Definition long_sum_module : node :=
  Node Module_ 0 0
    [ Node (Import ["os"]) 1 1 [Node (Other "alias") 1 1 []];
      Node (FunctionDef "f" (mkArguments ["x"] [] [] None None) 1) 2 3
        [ arguments_node 2 ["x"];
          Node (Other "Return") 3 3 [sum_chain 999 3] ] ].

Fixpoint sum_source (terms : nat) : string :=
  match terms with
  | O => "x"
  | S k => String.append (sum_source k) " + x"
  end.

Definition long_sum_source : string :=
  join_lines
    [ "import os"; "def f(x):";
      String.append "    return " (sum_source 999) ].

Definition parse_long_sum (content : string) : parse_result :=
  if String.eqb content long_sum_source then Parsed long_sum_module
  else ParseRaises (SyntaxError (Some 1) "invalid syntax").

(** An interpreter older than Python 3.8: [ast.arguments] has no
    [posonlyargs]. *)
Definition python37 (parse : string -> parse_result) : Runtime :=
  {| ast_parse := parse;
     re_finditer := fun _ _ => [];
     frames := 990;
     has_posonlyargs := false;
     unparse_lines := fun _ => None |}.

(** A JavaScript file with a loop inside the block of another. *)
Definition loops_source : string := "for (;;) { while (1) { } }".

(** [re.finditer] on [loops_source]: the loop keywords are the only
    matches of any rule, at offsets 0 and 11; in the block of the outer loop
    the inner keyword is at offset 1. *)
Definition loops_finditer (pattern s : string) : list Match :=
  if String.eqb pattern "\b(for|while|do)\b" then
    if String.eqb s loops_source then [mkMatch 0 "for"; mkMatch 11 "while"]
    else if String.eqb s " while (1) { } " then [mkMatch 1 "while"]
    else []
  else [].

Definition javascript_runtime : Runtime :=
  {| ast_parse := fun _ => ParseRaises (SyntaxError (Some 1) "invalid syntax");
     re_finditer := loops_finditer;
     frames := 990;
     has_posonlyargs := true;
     unparse_lines := fun _ => None |}.

(** The tree of [commented_source]: four assignments and a call. *)
Definition call_node (line : Z) (arguments : nat) : node :=
  Node (Other "Call") line line
    (name_node line :: map (fun _ => name_node line) (seq 0 arguments)).

Definition assign_node (line : Z) (value : node) : node :=
  Node (Other "Assign") line line
    [Node (Other "Name") line line [Node (Other "Store") 0 0 []]; value].

Definition binop_node (line : Z) (op : string) (right : node) : node :=
  Node (Other "BinOp") line line
    [name_node line; Node (Other op) 0 0 []; right].

Definition statements_module : node :=
  Node Module_ 0 0
    [ assign_node 2 (call_node 2 2);
      assign_node 3 (call_node 3 2);
      assign_node 4 (binop_node 4 "Add" (name_node 4));
      assign_node 5 (binop_node 5 "Mult" (Node (Other "Constant") 5 5 []));
      Node (Other "Expr") 6 6 [call_node 6 4] ].

Definition parse_statements (content : string) : parse_result :=
  if String.eqb content commented_source then Parsed statements_module
  else ParseRaises (SyntaxError (Some 1) "invalid syntax").

(** A project of two files with the same content. *)
Definition two_copies : list SourceFile :=
  [ mkSourceFile "src/a.py" (Some commented_source);
    mkSourceFile "src/b.py" (Some commented_source) ].

(** The sources of [long_comment_project] and [hunter2_project]. *)
Fixpoint repeat_x (n : nat) : string :=
  match n with
  | O => ""
  | S k => String "x"%char (repeat_x k)
  end.

Definition long_comment_source : string := String.append "# " (repeat_x 100).

Definition hunter2_source : string := "password = 'hunter2'".

(** [ast.parse] and [re.finditer] on the two sources: the comment parses
    to an empty module, the assignment to one [Assign]; the only match of a
    rule is that of [hardcoded_credentials] on the assignment. *)
Definition parse_small (content : string) : parse_result :=
  if String.eqb content long_comment_source then Parsed (Node Module_ 0 0 [])
  else if String.eqb content hunter2_source
  then Parsed (Node Module_ 0 0
                 [assign_node 1 (Node (Other "Constant") 1 1 [])])
  else ParseRaises (SyntaxError (Some 1) "invalid syntax").

Definition small_finditer (pattern s : string) : list Match :=
  if String.eqb s hunter2_source
     && String.eqb pattern
        (match r_regex (last SECURITY_VULNERABILITIES
                          (mkRule "" "" "" None [])) with
         | Some regex => regex
         | None => ""
         end)
  then [mkMatch 0 ""]
  else [].

Definition small_runtime : Runtime :=
  {| ast_parse := parse_small;
     re_finditer := small_finditer;
     frames := 990;
     has_posonlyargs := true;
     unparse_lines := fun _ => None |}.

End Examples.

(* ================================================================== *)
(** ** Whole trees under the structural analyzer *)

(** The number of nodes on the longest path from the root of a tree to
    a leaf: the stack frames that the recursive nesting check of the
    tree needs. *)
Fixpoint height (n : node) : nat :=
  match n with
  | Node _ _ _ ch => S (fold_right (fun c acc => Nat.max (height c) acc) O ch)
  end.

Definition forest_height (l : list node) : nat :=
  fold_right (fun c acc => Nat.max (height c) acc) O l.

(** The issues of the nesting check of a whole tree, by recursion on the
    tree, in the depth-first order of the check. *)
Fixpoint nesting_issues (func_name : string) (current_depth : Z) (n : node)
  : list Issue :=
  match n with
  | Node c line _ ch =>
      let current_depth :=
        if is_control c then current_depth + 1 else current_depth in
      (if is_control c && (4 <? current_depth)
       then [deep_nesting_issue func_name current_depth line] else [])
      ++ flat_map (nesting_issues func_name current_depth) ch
  end.

(** Appending issues to the code smells of a file, one by one. *)
Definition add_code_smells (file : string) (issues : list Issue)
    (a : Analyzer) : Analyzer :=
  fold_left (fun a i => add_code_smell file i a) issues a.

(** The parameter count of lines 391-395 where [posonlyargs] exists. *)
Definition params_total (a : arguments) : Z :=
  len (args a) + len (posonlyargs a) + len (kwonlyargs a)
  + match vararg a with Some _ => 1 | None => 0 end
  + match kwarg a with Some _ => 1 | None => 0 end.

(** The three threshold smells of lines 419-443. *)
Definition too_many_parameters_issue (func_name : string)
    (params_count line_num : Z) : Issue :=
  {| i_type := "too_many_parameters";
     i_description :=
       ("Function '" ++ func_name ++ "' has " ++ str_int params_count
        ++ " parameters")%string;
     i_severity := "medium";
     i_line := Some line_num;
     i_context := None |}.

Definition long_function_issue (func_name : string)
    (lines_of_code line_num : Z) : Issue :=
  {| i_type := "long_function";
     i_description :=
       ("Function '" ++ func_name ++ "' is approx. "
        ++ str_int lines_of_code ++ " lines long")%string;
     i_severity := "medium";
     i_line := Some line_num;
     i_context := None |}.

Definition high_complexity_issue (func_name : string)
    (complexity line_num : Z) : Issue :=
  {| i_type := "high_complexity";
     i_description :=
       ("Function '" ++ func_name
        ++ "' has high cyclomatic complexity (" ++ str_int complexity
        ++ ")")%string;
     i_severity := "medium";
     i_line := Some line_num;
     i_context := None |}.

(** The attributes of a function definition node. *)
Definition function_def (n : node) : option (string * arguments * Z) :=
  match cls n with
  | FunctionDef name fargs body_len
  | AsyncFunctionDef name fargs body_len => Some (name, fargs, body_len)
  | _ => None
  end.

Definition is_function_def (n : node) : bool :=
  match function_def n with Some _ => true | None => false end.

(** The function definitions of a tree in the order of [ast.walk]. *)
Definition function_defs (tree : node) : list node :=
  filter is_function_def (walk tree).

(** The threshold smells of lines 419-443 for a function definition. *)
Definition threshold_smells `{Runtime} (n : node) : list Issue :=
  match function_def n with
  | Some (name, fargs, body_len) =>
      (if 5 <? params_total fargs
       then [too_many_parameters_issue name (params_total fargs) (lineno n)]
       else [])
      ++ (if 50 <? lines_of_code_of n body_len
          then [long_function_issue name (lines_of_code_of n body_len)
                  (lineno n)]
          else [])
      ++ (if 10 <? complexity_of n
          then [high_complexity_issue name (complexity_of n) (lineno n)]
          else [])
  | None => []
  end.

(** The code smells of one function definition when its analysis
    succeeds: the threshold smells, then those of the nesting check. *)
Definition function_smells `{Runtime} (n : node) : list Issue :=
  match function_def n with
  | Some (name, _, _) => threshold_smells n ++ nesting_issues name 0 n
  | None => []
  end.

(** The key of a function in [self.function_metrics[file_path]]. *)
Definition function_key (n : node) : string :=
  match function_def n with
  | Some (name, _, _) => (name ++ "@" ++ str_int (lineno n))%string
  | None => ""
  end.

(** The issues of one type among the code smells of a file. *)
Definition smells_of_type (type : string) (a : Analyzer) (file : string)
  : list Issue :=
  filter (fun i => String.eqb (i_type i) type)
         (dict_get (code_smells a) file []).

(** The outcome of [_analyze_python_functions], read off the function
    definitions that the walk meets: the first one raises
    [AttributeError] where [posonlyargs] is missing; otherwise the first
    one that is too high for the frames raises [RecursionError]. *)
Definition defs_outcome `{Runtime} (defs : list node) : result unit :=
  match defs with
  | [] => Ok tt
  | _ :: _ =>
      if has_posonlyargs then
        if forallb (fun n => (height n <=? frames)%nat) defs
        then Ok tt
        else Raise RecursionError
      else Raise (AttributeError
                    "'arguments' object has no attribute 'posonlyargs'")
  end.

Definition function_pass_outcome `{Runtime} (tree : node) : result unit :=
  defs_outcome (function_defs tree).

(** The metric that [_analyze_python_functions] stores for a function
    definition. *)
Definition function_metric_of `{Runtime} (n : node) : FunctionMetric :=
  match function_def n with
  | Some (name, fargs, body_len) =>
      {| fm_name := name; fm_params := params_total fargs;
         fm_lines := lines_of_code_of n body_len;
         fm_complexity := complexity_of n; fm_line := lineno n |}
  | None => mkFunctionMetric "" 0 0 0 0
  end.

(** The body of the loop of [_analyze_python_functions]. *)
Definition function_pass_body `{Runtime} (file : string) (n : node) : M unit :=
  match cls n with
  | FunctionDef name fargs body_len
  | AsyncFunctionDef name fargs body_len =>
      analyze_function file n name fargs body_len
  | _ => ret tt
  end.

(** A module name that an import statement gives: [import a, b] gives
    [a] and [b]; [from m import x] gives [m]; a relative
    [from . import x] gives none. *)
Definition node_imports (n : node) (name : string) : Prop :=
  match cls n with
  | Import names => In name names
  | ImportFrom (Some module) => module = name /\ name <> ""
  | _ => False
  end.

Definition imported (tree : node) (name : string) : Prop :=
  exists n, In n (walk tree) /\ node_imports n name.

(** Every [BoolOp] of the tree has an operand, as every parsed tree
    has. *)
Fixpoint boolops_proper (n : node) : bool :=
  match n with
  | Node c _ _ ch =>
      match c with
      | BoolOp _ values_len => 1 <=? values_len
      | _ => true
      end && forallb boolops_proper ch
  end.

(** ** What the generic analyzer leaves for a file *)

(** The style issue of the long-line loop (lines 568-573). *)
Definition long_line_issue (line_number : Z) : Issue :=
  {| i_type := "long_line";
     i_description := "Line exceeds 100 characters";
     i_severity := "low";
     i_line := Some line_number;
     i_context := None |}.

(** The numbers of the lines that are longer than 100 characters once
    stripped, where the first line of [lines] has number [i + 1]. *)
Fixpoint long_line_numbers (lines : list string) (i : Z) : list Z :=
  match lines with
  | [] => []
  | line :: rest =>
      (if 100 <? strlen (strip line) then [i + 1] else [])
      ++ long_line_numbers rest (i + 1)
  end.

(** A file that the loop of [analyze_project] analyses: its language is
    known and it can be read. *)
Definition analysable (f : SourceFile) : bool :=
  negb (String.eqb (language_of (sf_path f)) "Unknown")
  && match sf_content f with Some _ => true | None => false end.

(** ** The findings of a run *)

(** The types of issue that the analyzer adds to each table, each with
    its severity. *)
Definition smell_catalogue : list (string * string) :=
  [ ("too_many_parameters", "medium"); ("long_function", "medium");
    ("high_complexity", "medium"); ("deep_nesting", "high");
    ("bare_except", "high"); ("import_star", "medium");
    ("mutable_default", "medium"); ("eval_usage", "high");
    ("var_usage", "medium"); ("triple_equals", "medium");
    ("with_statement", "high"); ("commented_code", "low");
    ("duplicate_code", "high") ].

Definition security_catalogue : list (string * string) :=
  [ ("sql_injection", "critical"); ("xss", "critical");
    ("eval_input", "critical"); ("hardcoded_credentials", "critical") ].

Definition performance_catalogue : list (string * string) :=
  [ ("inefficient_loop", "medium"); ("multiple_dom_access", "medium") ].

Definition style_catalogue : list (string * string) :=
  [ ("long_line", "low"); ("syntax_error", "warning");
    ("ast_feature_error", "warning"); ("ast_processing_error", "error") ].

Definition listed (catalogue : list (string * string)) (i : Issue) : Prop :=
  In (i_type i, i_severity i) catalogue.

(** The later table holds the lists of the earlier one, each with issues
    appended at its end, and every issue it holds besides those of the
    earlier table is in the catalogue. *)
Definition grows (catalogue : list (string * string))
    (tbl tbl' : issue_table) : Prop :=
  (forall f, exists extra, dict_get tbl' f [] = dict_get tbl f [] ++ extra)
  /\ (forall i, In i (List.concat (dict_values tbl')) ->
        In i (List.concat (dict_values tbl)) \/ listed catalogue i).

Definition findings_grow (a a' : Analyzer) : Prop :=
  grows smell_catalogue (code_smells a) (code_smells a')
  /\ grows security_catalogue (security_issues a) (security_issues a')
  /\ grows performance_catalogue (performance_issues a)
       (performance_issues a')
  /\ grows style_catalogue (style_issues a) (style_issues a').

(** All issues of a table. *)
Definition issues_of (tbl : issue_table) : list Issue :=
  List.concat (dict_values tbl).

(** ** What the duplicate detector reports *)

(** The [duplicate_code] smell of lines 957-965. *)
Definition duplicate_code_issue (lines n_locations line : Z) : Issue :=
  {| i_type := "duplicate_code";
     i_description :=
       ("Part of duplicated code block (" ++ str_int lines
        ++ " lines) found in " ++ str_int n_locations
        ++ " location(s)")%string;
     i_severity := "high";
     i_line := Some line;
     i_context := None |}.

(** The block has a location in the file. *)
Definition block_in_file (file : string) (rb : ReportBlock) : bool :=
  existsb (fun l => String.eqb (file_path l) file) (rb_files rb).

(** The smell that a reported block leaves in a file: one, at the first
    location of the block in that file, when it has a location there. *)
Definition block_smell (file : string) (rb : ReportBlock) : list Issue :=
  match List.find (fun l => String.eqb (file_path l) file) (rb_files rb) with
  | Some l =>
      [duplicate_code_issue (rb_lines rb) (len (rb_files rb)) (start_line l)]
  | None => []
  end.

(** The report block of lines 940-951 for a hash group all of whose
    occurrences are reported. *)
Definition report_of (occurrences : list Occurrence) : ReportBlock :=
  match occurrences with
  | [] => mkReportBlock 0 0 [] ""
  | representative_occurrence :: _ =>
      let content_sample := occ_content representative_occurrence in
      {| rb_lines :=
           occ_end_line representative_occurrence
           - occ_start_line representative_occurrence + 1;
         rb_tokens := count_words false content_sample;
         rb_files := map location_of occurrences;
         rb_code_snippet :=
           String.append (slice_to 300 content_sample)
             (if 300 <? strlen content_sample then "..." else "") |}
  end.

(** ** The metrics of a run and their readers *)

(** The number of lines that [_analyze_generic] counts for a file:
    [len(content.split('\n'))]. *)
Definition file_lines (f : SourceFile) : Z :=
  match sf_content f with
  | Some content => count_newlines content + 1
  | None => 0
  end.

(** The hours of one code smell in the debt loop (line 1075). *)
Definition smell_hours (i : Issue) : Z :=
  dict_get issue_weights (i_severity i) 2.

(** [round(x)]: to the nearest integer, ties to the even one. *)
Definition py_round (x : Q) : Z :=
  let f := Qfloor x in
  let r := (x - inject_Z f)%Q in
  if Qltb r (1 # 2) then f
  else if Qltb (1 # 2) r then f + 1
  else if Z.even f then f else f + 1.

(** The score and the rating that the reporter shows
    ([advanced_reporter.py], [_prepare_template_data], lines 572-580). *)
Definition reporter_score (metrics : option ProjectMetrics) : Z :=
  py_round (metrics_get metrics maintainability_index 0%Q).

Definition reporter_rating (metrics : option ProjectMetrics) : string :=
  let maintainability_score := reporter_score metrics in
  if 80 <=? maintainability_score then "Excellent"
  else if 60 <=? maintainability_score then "Good"
  else if 40 <=? maintainability_score then "Fair"
  else if 20 <=? maintainability_score then "Poor"
  else "Very Poor".

(** [round(metrics.get('technical_debt_days', 0), 1)] of the reporter
    (line 661). *)
Definition reporter_debt_days (metrics : option ProjectMetrics) : Q :=
  round1 (metrics_get metrics technical_debt_days 0%Q).

(** ** The summary: [get_summary] *)

(** The digits of a number in groups of three, as [f"{n:,}"] writes
    them. *)
Fixpoint group_digits (digits : string) : string :=
  match digits with
  | EmptyString => EmptyString
  | String c rest =>
      let k := String.length rest in
      String c (if ((0 <? k) && (k mod 3 =? 0))%nat
                then String.append "," (group_digits rest)
                else group_digits rest)
  end.

Definition format_thousands (n : Z) : string :=
  if n <? 0 then String.append "-" (group_digits (str_int (- n)))
  else group_digits (str_int n).

(** What [get_summary] takes from the formatting of floats:
    [f"{x:.1%}"] and [str(x)]. *)
Class FloatFormat := {
  format_percent : Q -> string;
  str_float : Q -> string
}.

(** The quote for a rating (lines 1126-1137). The last branch calls
    [random.choice], and the module does not import [random]. *)
Definition rick_quote (rating : string) : result string :=
  if String.eqb rating "Excellent" then
    Ok "Holy *burp* crap! This code is cleaner than the Citadel's bathrooms. And those are CLEAN."
  else if String.eqb rating "Good" then
    Ok "Not bad. Your code is like the Microverse battery. Efficient, but still has some dark secrets."
  else if String.eqb rating "Fair" then
    Ok "This code is like Jerry. It works, but nobody's excited about it."
  else if String.eqb rating "Poor" then
    Ok "Your code's a bigger mess than my garage. And I turn people into *burp* insects in there!"
  else if String.eqb rating "Very Poor" then
    Ok "I've seen better code written by Gazorpazorps! And they eat their young!"
  else Raise (OtherException "NameError" "name 'random' is not defined").

(** [get_summary]. [analysis_metadata] is the entry of [self.results]
    that [analyze_project] stores at its end, with the number of files it
    was given; before that the entry is missing. *)
Definition get_summary `{FloatFormat} (analysis_metadata : option Z)
    (a : Analyzer) : result string :=
  let metrics := complexity_metrics a in
  match analysis_metadata with
  | None => Raise (OtherException "KeyError" "'analysis_metadata'")
  | Some files_analyzed =>
      let summary :=
        [ "Project Analysis Summary:";
          String.append "- Total lines of code: "
            (format_thousands (metrics_get metrics total_lines_of_code 0));
          String.append "- Files analyzed: " (str_int files_analyzed);
          String.append "- Comment density: "
            (match metrics with
             | Some pm => format_percent (pm_comment_density pm)
             | None => "0.0%"
             end);
          String.append "- Maintainability rating: "
            (metrics_get metrics maintainability_rating "Unknown");
          String.append
            (String.append "- Technical debt: "
               (match metrics with
                | Some pm => str_float (technical_debt_days pm)
                | None => "0"
                end)) " days";
          "";
          "Issues found:";
          String.append "- Code smells: "
            (str_int (metrics_get metrics code_smell_count 0));
          String.append "- Security issues: "
            (str_int (metrics_get metrics security_issue_count 0));
          String.append "- Performance issues: "
            (str_int (metrics_get metrics performance_issue_count 0));
          String.append "- Style issues: "
            (str_int (metrics_get metrics style_issue_count 0));
          String.append "- Duplicated code blocks: "
            (str_int (metrics_get metrics duplicated_code_blocks 0)) ] in
      quote <- rick_quote (metrics_get metrics maintainability_rating "") ;;;
      Ok (join_lines
            (summary
             ++ [String.append nl
                   (String.append "Rick says: "
                      (String.append dq (String.append quote dq)))]))
  end.

(** ** Blocks of commented-out code *)

(** The smell of one block of commented-out code (lines 647-655). *)
Definition commented_code_issue (start_line end_line : Z) : Issue :=
  {| i_type := "commented_code";
     i_description :=
       ("Commented-out code block (lines " ++ str_int start_line ++ "-"
        ++ str_int end_line ++ ")")%string;
     i_severity := "low";
     i_line := Some start_line;
     i_context := None |}.

(** The blocks that [_analyze_generic] reports: those that the loop over
    the lines has closed, and the one still open at the end of the file
    when it has two lines or more (lines 641-645). *)
Definition commented_blocks `{Runtime} (content language : string)
  : list (list (Z * string)) :=
  let '(_, commented_code_lines, current_block) :=
    commented_code_loop language
      (dict_get comment_markers language ["#"; "//"])
      (split_lines content) 0 false [] [] in
  if 1 <? len current_block
  then commented_code_lines ++ [current_block]
  else commented_code_lines.

(** The first and the last line number of a block. *)
Definition block_span (block : list (Z * string)) : Z * Z :=
  (fst (hd (0, "") block), fst (last block (0, ""))).

(** ** More example inputs *)

Module Samples.

(** [def g(a, b, c, d, e, *rest):] / [    pass]: five positional
    parameters and [*rest]. *)
Definition wide_source : string :=
  join_lines ["def g(a, b, c, d, e, *rest):"; "    pass"].

Definition wide_function : node :=
  Node (FunctionDef "g"
          (mkArguments ["a"; "b"; "c"; "d"; "e"] [] [] (Some "rest") None) 1)
    1 2
    [ Examples.arguments_node 1 ["a"; "b"; "c"; "d"; "e"; "rest"];
      Node (Other "Pass") 2 2 [] ].

Definition wide_module : node := Node Module_ 0 0 [wide_function].

Definition parse_wide (content : string) : parse_result :=
  if String.eqb content wide_source then Parsed wide_module
  else ParseRaises (SyntaxError (Some 1) "invalid syntax").

(** An analyzer holding one file of 280 lines, 400 characters a line on
    average, without comments or functions: its maintainability index is
    176.2 - 92 - 4.536 = 79.664. *)
Definition near_good_project : Analyzer :=
  set_file_metrics [("a.c", mkFileMetrics 280 0 0 400)] init.

(** The project of [Examples.hunter2_project]. *)
Definition hunter2_files : list SourceFile :=
  [mkSourceFile "config.py" (Some Examples.hunter2_source)].

(** A project without a file that can be analysed: the language of
    [notes.txt] is unknown, and [gone.py] cannot be read. *)
Definition unread_files : list SourceFile :=
  [mkSourceFile "notes.txt" (Some "remember"); mkSourceFile "gone.py" None].

(** The decimal text of a number of tenths, for the numbers of the
    examples. *)
Definition str_tenths (x : Q) : string :=
  let n := Qnum (round1 x) in
  String.append (str_int (n / 10))
    (String.append "." (str_int (Z.abs n mod 10))).

Definition decimal_format : FloatFormat :=
  {| format_percent := fun x => String.append (str_tenths (x * 100)) "%";
     str_float := str_tenths |}.

End Samples.

(** ** Conditionals nested in one another *)

(** A tree without any control statement. *)
Fixpoint plain (n : node) : bool :=
  match n with
  | Node c _ _ ch => negb (is_control c) && forallb plain ch
  end.

(** The child nodes [ch] of a node hold conditionals nested in one
    another, on the lines [lines] from the outermost to the innermost,
    and no other control statement: one child is the outermost [if],
    with any [lineno]; the children before and after it are without
    control statements, and so are the test, the other statements of the
    body and the [else] branch of every [if] of the chain. *)
Inductive nested_conditionals : list Z -> list node -> Prop :=
| no_conditional (ch : list node) :
    forallb plain ch = true -> nested_conditionals [] ch
| conditional (before : list node) (line end_line : Z) (ch after : list node)
    (lines : list Z) :
    forallb plain before = true ->
    forallb plain after = true ->
    nested_conditionals lines ch ->
    nested_conditionals (line :: lines)
      (before ++ Node If line end_line ch :: after).

(** The conditionals of such a chain, each with its depth and its line:
    the outermost has depth 1. *)
Definition conditional_depths (lines : list Z) : list (Z * Z) :=
  combine (map Z.of_nat (seq 1 (List.length lines))) lines.

Module Uneven.

(** Six conditionals nested in one another, with comparisons as tests,
    statements between them and an [else] branch; they are on the lines
    2, 4, 5, 6, 8 and 9. *)
Definition uneven_source : string :=
  join_lines
    [ "def g(a, b):";
      "    if a > b:";
      "        total = a";
      "        if a > 1:";
      "            if b:";
      "                if a:";
      "                    total = b";
      "                    if b > 2:";
      "                        if a < b:";
      "                            return a";
      "                        else:";
      "                            return b";
      "    return 0" ].

Definition compare_node (line : Z) (op : string) (right : node) : node :=
  Node (Other "Compare") line line
    [Examples.name_node line; Node (Other op) 0 0 []; right].

Definition constant_node (line : Z) : node :=
  Node (Other "Constant") line line [].

Definition return_node (line : Z) (value : node) : node :=
  Node (Other "Return") line line [value].

Definition uneven_function : node :=
  Node (FunctionDef "g" (mkArguments ["a"; "b"] [] [] None None) 2) 1 13
    [ Examples.arguments_node 1 ["a"; "b"];
      Node If 2 12
        [ compare_node 2 "Gt" (Examples.name_node 2);
          Examples.assign_node 3 (Examples.name_node 3);
          Node If 4 12
            [ compare_node 4 "Gt" (constant_node 4);
              Node If 5 12
                [ Examples.name_node 5;
                  Node If 6 12
                    [ Examples.name_node 6;
                      Examples.assign_node 7 (Examples.name_node 7);
                      Node If 8 12
                        [ compare_node 8 "Gt" (constant_node 8);
                          Node If 9 12
                            [ compare_node 9 "Lt" (Examples.name_node 9);
                              return_node 10 (Examples.name_node 10);
                              return_node 12 (Examples.name_node 12) ] ] ] ] ] ];
      return_node 13 (constant_node 13) ].

Definition uneven_module : node := Node Module_ 0 0 [uneven_function].

Definition parse_uneven (content : string) : parse_result :=
  if String.eqb content uneven_source then Parsed uneven_module
  else ParseRaises (SyntaxError (Some 1) "invalid syntax").

End Uneven.

(** ** A project on which a hash collision shows *)

Module Collision.

(** One Ruby file of six statements: the scanner hashes two windows of
    five lines, lines 1-5 and lines 2-6, and their texts differ. *)
Definition six_statements_source : string :=
  join_lines
    (Examples.five_statements
       ++ ["epsilon_value = delta_value - alpha_value"]).

Definition six_statements : list SourceFile :=
  [mkSourceFile "src/steps.rb" (Some six_statements_source)].

(** A string hash under which all windows collide. *)
Definition constant_hash (block : string) : Z := 0.

End Collision.

(** * Properties *)
(* ================================================================== *)


(** ** Arithmetic helpers *)

Lemma Qltb_lt (a b : Q) : Qltb a b = true <-> (a < b)%Q.
Proof.
  unfold Qltb. rewrite negb_true_iff.
  destruct (Qle_bool b a) eqn:E.
  - apply Qle_bool_iff in E. split; [discriminate | intros; lra].
  - split; [intros _ | reflexivity].
    apply Qnot_le_lt. intros Hle. apply Qle_bool_iff in Hle. congruence.
Qed.

Lemma Qltb_ge (a b : Q) : Qltb a b = false <-> (b <= a)%Q.
Proof.
  unfold Qltb. rewrite negb_false_iff. apply Qle_bool_iff.
Qed.

Lemma truediv_ok (a b : Q) : ~ (b == 0)%Q -> truediv a b = Ok (a / b)%Q.
Proof.
  intros Hb. unfold truediv.
  destruct (Qeq_bool b 0) eqn:E; [|reflexivity].
  apply Qeq_bool_iff in E. contradiction.
Qed.

Lemma inject_Z_nonzero (z : Z) : z <> 0 -> ~ (inject_Z z == 0)%Q.
Proof.
  intros Hz Heq. unfold Qeq in Heq. simpl in Heq. lia.
Qed.

Lemma guarded_div_ok (x : Q) (n : Z) :
  exists q, (if 0 <? n then truediv x (inject_Z n) else Ok 0%Q) = Ok q.
Proof.
  destruct (Z.ltb_spec 0 n).
  - rewrite truediv_ok by (apply inject_Z_nonzero; lia). eauto.
  - eauto.
Qed.

Lemma function_average_ok (proj : FunctionMetric -> Z) (l : list FunctionMetric) :
  exists q, function_average proj l = Ok q /\ (l = [] -> q = 0%Q).
Proof.
  destruct l as [|f l].
  - exists 0%Q. split; reflexivity.
  - unfold function_average.
    rewrite truediv_ok.
    + eexists. split; [reflexivity | discriminate].
    + apply inject_Z_nonzero. unfold len. simpl List.length. lia.
Qed.

(** What [_calculate_project_metrics] stores when at least one file was
    analysed: it always succeeds. *)
Lemma calculate_project_metrics_stores (a : Analyzer) :
  file_metrics a <> [] ->
  exists pm,
    calculate_project_metrics a = Ok (set_complexity_metrics (Some pm) a)
    /\ maintainability_index pm =
         Py.min 100 (Py.max 0
           (171 - (52 # 10) * (avg_function_complexity pm - 1)
            - (23 # 100) * pm_avg_line_length pm
            - (162 # 10) * (inject_Z (total_lines_of_code pm) / 1000)
            + 50 * pm_comment_density pm)%Q)
    /\ technical_debt_hours pm = total_debt_hours a
    /\ technical_debt_days pm = round1 (total_debt_hours a / 8)
    /\ (all_functions a = [] ->
        avg_function_complexity pm = 0%Q /\ avg_function_size pm = 0%Q
        /\ avg_function_params pm = 0%Q).
Proof.
  intros Hfm. unfold calculate_project_metrics.
  destruct (file_metrics a) as [|p rest] eqn:Efm; [congruence|].
  set (fms := dict_values (p :: rest)).
  destruct (guarded_div_ok (inject_Z (sumZ (map comment_lines fms)))
              (sumZ (map loc fms))) as [cd Hcd].
  destruct (guarded_div_ok
              (sumQ (map (fun m => (avg_line_length m * inject_Z (loc m))%Q) fms))
              (sumZ (map loc fms))) as [al Hal].
  destruct (function_average_ok fm_complexity (all_functions a)) as [fc [Hfc Zfc]].
  destruct (function_average_ok fm_lines (all_functions a)) as [fs [Hfs Zfs]].
  destruct (function_average_ok fm_params (all_functions a)) as [fp [Hfp Zfp]].
  rewrite Hcd, Hal. cbn [bind_result].
  rewrite Hfc, Hfs, Hfp. cbn [bind_result].
  unfold maintainability.
  rewrite (truediv_ok _ 1000) by (intros E; discriminate E).
  cbn [bind_result].
  rewrite (truediv_ok _ 8) by (intros E; discriminate E).
  cbn [bind_result].
  eexists. split; [reflexivity|].
  cbn [maintainability_index technical_debt_hours technical_debt_days
       avg_function_complexity avg_function_size avg_function_params
       pm_avg_line_length pm_comment_density total_lines_of_code].
  repeat split; auto.
Qed.

Lemma Qltb_proper (a a' b b' : Q) :
  (a == a')%Q -> (b == b')%Q -> Qltb a b = Qltb a' b'.
Proof.
  intros Ha Hb. unfold Qltb. now rewrite Ha, Hb.
Qed.

Lemma round1_proper (x y : Q) : (x == y)%Q -> round1 x = round1 y.
Proof.
  intros Hxy. unfold round1.
  assert (Hf : Qfloor (x * 10) = Qfloor (y * 10)) by now rewrite Hxy.
  rewrite Hf.
  rewrite (Qltb_proper (x * 10 - inject_Z (Qfloor (y * 10))) 
             (y * 10 - inject_Z (Qfloor (y * 10))) (1 # 2) (1 # 2))
    by (rewrite ?Hxy; reflexivity).
  rewrite (Qltb_proper (1 # 2) (1 # 2)
             (x * 10 - inject_Z (Qfloor (y * 10)))
             (y * 10 - inject_Z (Qfloor (y * 10))))
    by (rewrite ?Hxy; reflexivity).
  reflexivity.
Qed.

(** ** Technical debt (C1) *)

Section DebtSums.
Import Spec.

Lemma Qsum_app (l1 l2 : list Q) :
  (Qsum (l1 ++ l2) == Qsum l1 + Qsum l2)%Q.
Proof.
  induction l1 as [|x l1 IH]; simpl.
  - ring.
  - rewrite IH. ring.
Qed.

Variable g : Issue -> Q.

Lemma fold_issue_hours (issues : list Issue) (t : Q) :
  (fold_left (fun t issue => t + g issue) issues t
   == t + Qsum (map g issues))%Q.
Proof.
  revert t. induction issues as [|i issues IH]; intros t; simpl.
  - ring.
  - rewrite IH. ring.
Qed.

Lemma fold_table_hours (lists : list (list Issue)) (t : Q) :
  (fold_left (fun t issues => fold_left (fun t issue => t + g issue) issues t)
     lists t
   == t + Qsum (map g (List.concat lists)))%Q.
Proof.
  revert t. induction lists as [|l lists IH]; intros t; simpl.
  - ring.
  - rewrite IH, fold_issue_hours, map_app, Qsum_app. ring.
Qed.
End DebtSums.

Lemma counted_hours_in (c : Spec.Category) (tbl : issue_table) :
  map Spec.counted_hours (Spec.findings_in c tbl)
  = map (fun i => Spec.counted_hours (c, i)) (List.concat (dict_values tbl)).
Proof.
  unfold Spec.findings_in. now rewrite map_map.
Qed.

Lemma style_counts_nothing (l : list Issue) :
  (Spec.Qsum (map (fun i => Spec.counted_hours (Spec.Style, i)) l) == 0)%Q.
Proof.
  induction l as [|i l IH]; simpl; [reflexivity|].
  rewrite IH. unfold Spec.counted_hours. simpl. ring.
Qed.

(** The three loops add up the counted hours of all findings. *)
Lemma total_debt_hours_sum (a : Analyzer) :
  (total_debt_hours a
   == Spec.Qsum (map Spec.counted_hours (Spec.all_findings a))
      + 3 * inject_Z (len (duplicated_code a)))%Q.
Proof.
  unfold total_debt_hours, debt_of_smells, debt_of_security,
    debt_of_performance, Spec.all_findings.
  rewrite (fold_table_hours (fun i => Spec.counted_hours (Spec.Performance, i))
             (dict_values (performance_issues a))).
  rewrite (fold_table_hours (fun i => Spec.counted_hours (Spec.Security, i))
             (dict_values (security_issues a))).
  rewrite (fold_table_hours (fun i => Spec.counted_hours (Spec.CodeSmell, i))
             (dict_values (code_smells a))).
  rewrite !map_app, !Qsum_app, !counted_hours_in, style_counts_nothing.
  rewrite inject_Z_mult. ring.
Qed.

(** C1, as the code has it: when at least one file was analysed, the stored
    [technical_debt_hours] is the sum, over the code-smell, security and
    performance Findings, of the weight of the Finding's severity in
    {critical:8, high:4, medium:2, low:1} (a severity outside the table
    counts as medium, as high for a security Finding), times 1.5 for a
    security Finding, plus 3 hours per reported duplicate block; style
    Findings add nothing. A project whose only Finding is one critical
    security Finding gets 12 hours and 1.5 days. *)
Theorem technical_debt_hours_counts (a : Analyzer) :
  file_metrics a <> [] ->
  exists pm,
    calculate_project_metrics a = Ok (set_complexity_metrics (Some pm) a)
    /\ (technical_debt_hours pm
        == Spec.Qsum (map Spec.counted_hours (Spec.all_findings a))
           + 3 * inject_Z (len (duplicated_code a)))%Q
    /\ (forall i,
          Spec.all_findings a = [(Spec.Security, i)] ->
          i_severity i = "critical" ->
          duplicated_code a = [] ->
          (technical_debt_hours pm == 12)%Q
          /\ technical_debt_days pm = (15 # 10)%Q).
Proof.
  intros Hfm.
  destruct (calculate_project_metrics_stores a Hfm)
    as (pm & Hrun & _ & Hhours & Hdays & _).
  exists pm. split; [exact Hrun|].
  assert (Hsum := total_debt_hours_sum a).
  split; [now rewrite Hhours|].
  intros i Hall Hsev Hdup.
  assert (H12 : (total_debt_hours a == 12)%Q).
  { rewrite Hsum, Hall, Hdup. unfold Spec.counted_hours. simpl.
    rewrite Hsev. reflexivity. }
  split; [now rewrite Hhours|].
  rewrite Hdays.
  rewrite (round1_proper (total_debt_hours a / 8) (12 / 8)) by now rewrite H12.
  reflexivity.
Qed.

Lemma technical_debt_hours_counts_witness :
  exists pm,
    calculate_project_metrics Examples.hunter2_project
    = Ok (set_complexity_metrics (Some pm) Examples.hunter2_project)
    /\ (technical_debt_hours pm
        == Spec.Qsum (map Spec.counted_hours
                        (Spec.all_findings Examples.hunter2_project))
           + 3 * inject_Z (len (duplicated_code Examples.hunter2_project)))%Q
    /\ (forall i,
          Spec.all_findings Examples.hunter2_project = [(Spec.Security, i)] ->
          i_severity i = "critical" ->
          duplicated_code Examples.hunter2_project = [] ->
          (technical_debt_hours pm == 12)%Q
          /\ technical_debt_days pm = (15 # 10)%Q).
Proof.
  apply (technical_debt_hours_counts Examples.hunter2_project).
  discriminate.
Defined.

(** The scenario of C1 on the example project: 12 hours, 1.5 days. *)
Example hunter2_debt :
  exists a pm,
    calculate_project_metrics Examples.hunter2_project = Ok a
    /\ complexity_metrics a = Some pm
    /\ (technical_debt_hours pm == 12)%Q
    /\ technical_debt_days pm = (15 # 10)%Q.
Proof.
  eexists; eexists. split; [vm_compute; reflexivity|].
  split; [reflexivity|]. split; reflexivity.
Qed.

(** C1 as the specification words it does not hold: a style Finding is a
    Finding, and the code does not count it. The project is one file
    holding a single over-long comment line; the specification gives it
    1 hour (one low Finding), the code stores 0. *)
Lemma technical_debt_skips_style_findings :
  exists pm,
    calculate_project_metrics Examples.long_comment_project
    = Ok (set_complexity_metrics (Some pm) Examples.long_comment_project)
    /\ Spec.all_findings Examples.long_comment_project
       = [(Spec.Style,
           mkIssue "long_line" "Line exceeds 100 characters" "low"
                   (Some 1) None)]
    /\ (technical_debt_hours pm == 0)%Q
    /\ (Spec.technical_debt_hours Examples.long_comment_project == 1)%Q
    /\ ~ (technical_debt_hours pm
          == Spec.technical_debt_hours Examples.long_comment_project)%Q.
Proof.
  eexists. split; [vm_compute; reflexivity|].
  split; [reflexivity|].
  split; [reflexivity|].
  split; [reflexivity|].
  intros H. vm_compute in H. discriminate H.
Qed.

(** ** Maintainability index (C2) *)

Lemma min_max_is_clamp (x : Q) :
  (Py.min 100 (Py.max 0 x) == Spec.clamp 0 100 x)%Q.
Proof.
  unfold Py.min, Py.max, Spec.clamp.
  destruct (Qltb 0 x) eqn:E0.
  - apply Qltb_lt in E0.
    assert (E1 : Qltb x 0 = false) by (apply Qltb_ge; lra).
    rewrite E1.
    destruct (Qltb x 100) eqn:E2.
    + apply Qltb_lt in E2.
      assert (E3 : Qltb 100 x = false) by (apply Qltb_ge; lra).
      now rewrite E3.
    + apply Qltb_ge in E2.
      destruct (Qltb 100 x) eqn:E3; [reflexivity|].
      apply Qltb_ge in E3. lra.
  - apply Qltb_ge in E0.
    assert (E2 : Qltb 0 100 = true) by reflexivity.
    rewrite E2.
    destruct (Qltb x 0) eqn:E1; [reflexivity|].
    apply Qltb_ge in E1.
    assert (E3 : Qltb 100 x = false) by (apply Qltb_ge; lra).
    rewrite E3. lra.
Qed.

Lemma clamp_bounds (x : Q) : (0 <= Spec.clamp 0 100 x <= 100)%Q.
Proof.
  unfold Spec.clamp.
  destruct (Qltb x 0) eqn:E1; [lra|].
  apply Qltb_ge in E1.
  destruct (Qltb 100 x) eqn:E2; [lra|].
  apply Qltb_ge in E2. lra.
Qed.

(** C2: every record that [_calculate_project_metrics] stores holds, as
    its maintainability index, the formula of the specification clamped
    to [0, 100]; the index is therefore between 0 and 100 whatever the
    averages and totals are. *)
Theorem maintainability_index_clamped (a : Analyzer) :
  file_metrics a <> [] ->
  exists pm,
    calculate_project_metrics a = Ok (set_complexity_metrics (Some pm) a)
    /\ (maintainability_index pm
        == Spec.maintainability_index (avg_function_complexity pm)
             (pm_avg_line_length pm) (total_lines_of_code pm)
             (pm_comment_density pm))%Q
    /\ (0 <= maintainability_index pm <= 100)%Q.
Proof.
  intros Hfm.
  destruct (calculate_project_metrics_stores a Hfm)
    as (pm & Hrun & Hidx & _).
  exists pm. split; [exact Hrun|].
  assert (H : (maintainability_index pm
               == Spec.maintainability_index (avg_function_complexity pm)
                    (pm_avg_line_length pm) (total_lines_of_code pm)
                    (pm_comment_density pm))%Q).
  { rewrite Hidx. unfold Spec.maintainability_index. apply min_max_is_clamp. }
  split; [exact H|].
  rewrite H. apply clamp_bounds.
Qed.

Lemma maintainability_index_clamped_witness :
  exists pm,
    calculate_project_metrics Examples.steep_project
    = Ok (set_complexity_metrics (Some pm) Examples.steep_project)
    /\ (maintainability_index pm
        == Spec.maintainability_index (avg_function_complexity pm)
             (pm_avg_line_length pm) (total_lines_of_code pm)
             (pm_comment_density pm))%Q
    /\ (0 <= maintainability_index pm <= 100)%Q.
Proof.
  apply (maintainability_index_clamped Examples.steep_project).
  discriminate.
Defined.

(** Extreme inputs: an average complexity of 1000 stores index 0; a file
    table whose files have no lines at all stores index 100. *)
Example steep_project_index :
  exists a pm,
    calculate_project_metrics Examples.steep_project = Ok a
    /\ complexity_metrics a = Some pm
    /\ (avg_function_complexity pm == 1000)%Q
    /\ (maintainability_index pm == 0)%Q.
Proof.
  eexists; eexists. split; [vm_compute; reflexivity|].
  split; [reflexivity|]. split; reflexivity.
Qed.

Example empty_lines_project_index :
  exists a pm,
    calculate_project_metrics Examples.empty_lines_project = Ok a
    /\ complexity_metrics a = Some pm
    /\ total_lines_of_code pm = 0
    /\ (maintainability_index pm == 100)%Q.
Proof.
  eexists; eexists. split; [vm_compute; reflexivity|].
  split; [reflexivity|]. split; reflexivity.
Qed.

(** ** The metrics engine never raises *)

Lemma calculate_project_metrics_total (a : Analyzer) :
  exists a', calculate_project_metrics a = Ok a'.
Proof.
  destruct (file_metrics a) as [|p rest] eqn:E.
  - exists a. unfold calculate_project_metrics. now rewrite E.
  - destruct (calculate_project_metrics_stores a) as (pm & H & _).
    + congruence.
    + eauto.
Qed.

(** A project with one file and no function: the averages are 0. *)
Example hunter2_no_function :
  exists a pm,
    calculate_project_metrics Examples.hunter2_project = Ok a
    /\ complexity_metrics a = Some pm
    /\ avg_function_complexity pm = 0%Q
    /\ avg_function_size pm = 0%Q
    /\ avg_function_params pm = 0%Q.
Proof.
  eexists; eexists. split; [vm_compute; reflexivity|].
  repeat split; reflexivity.
Qed.

(** ** The duplicate-block scanner (C10) *)

Lemma dd_append_cons {K A} `{KeyEq K} (k' : K) (v : list A)
    (d : dict K (list A)) (k : K) (x : A) :
  dd_append ((k', v) :: d) k x
  = if keqb k' k then (k', v ++ [x]) :: d else (k', v) :: dd_append d k x.
Proof.
  unfold dd_append, dict_get. simpl.
  destruct (keqb k' k); reflexivity.
Qed.

Lemma dd_append_nil {K A} `{KeyEq K} (k : K) (x : A) :
  dd_append (@nil (K * list A)) k x = [(k, [x])].
Proof. reflexivity. Qed.

Lemma in_dd_append {K A} `{KeyEq K} (d : dict K (list A)) (k : K) (x y : A) :
  In y (List.concat (dict_values (dd_append d k x)))
  <-> In y (List.concat (dict_values d)) \/ y = x.
Proof.
  induction d as [|[k' v] d IH].
  - rewrite dd_append_nil. simpl. intuition.
  - rewrite dd_append_cons. destruct (keqb k' k); simpl.
    + rewrite !in_app_iff. simpl. intuition.
    + unfold dict_values in IH. rewrite !in_app_iff, IH. intuition.
Qed.

Lemma in_range (i : nat) (n : Z) : In i (range n) -> Z.of_nat i < n.
Proof.
  unfold range. rewrite in_seq. lia.
Qed.

Lemma window_loop_records (hash : string -> Z) (file : string)
    (clean_lines : list string) (indices : list nat)
    (blocks : dict Z (list Occurrence)) (o : Occurrence) :
  (forall i, In i indices -> (i + 5 <= List.length clean_lines)%nat) ->
  In o (all_occurrences
          (fold_left (window_step hash file clean_lines) indices blocks)) ->
  In o (all_occurrences blocks) \/ window_recorded file clean_lines o.
Proof.
  revert blocks.
  induction indices as [|i indices IH]; intros blocks Hidx Hin; simpl in Hin.
  - now left.
  - apply IH in Hin; [|intros j Hj; apply Hidx; now right].
    destruct Hin as [Hin | Hin]; [|now right].
    unfold window_step in Hin.
    destruct (too_simple (window clean_lines i)); [now left|].
    apply in_dd_append in Hin. destruct Hin as [Hin | ->]; [now left|].
    right. unfold window_recorded. cbn.
    split; [reflexivity|]. split; [unfold min_block_size; lia|].
    exists i. split; [reflexivity|]. split; [apply Hidx; now left|].
    reflexivity.
Qed.

(** C10: every occurrence that [_check_duplicated_code] adds for a file
    spans exactly 5 lines, and its [start_line] is the 1-based position of
    the window's first line in the file's sequence of stripped, non-blank,
    non-comment lines: the recorded content is the five lines of that
    sequence from that position on. *)
Theorem recorded_window_location (hash : string -> Z)
    (file content language : string) (a : Analyzer) (o : Occurrence) :
  In o (all_occurrences
          (duplicated_blocks (check_duplicated_code hash file content language a))) ->
  In o (all_occurrences (duplicated_blocks a))
  \/ (occ_file o = file
      /\ occ_end_line o - occ_start_line o + 1 = 5
      /\ exists i : nat,
           occ_start_line o = Z.of_nat i + 1
           /\ (i + 5 <= List.length (clean_lines_of content language))%nat
           /\ occ_content o
              = join_lines (firstn 5 (skipn i (clean_lines_of content language)))).
Proof.
  unfold check_duplicated_code. cbn [duplicated_blocks set_duplicated_blocks].
  intros Hin. apply window_loop_records in Hin; [exact Hin|].
  intros i Hi. apply in_range in Hi. unfold len, min_block_size in Hi. lia.
Qed.

Lemma recorded_window_location_witness :
  In (Examples.commented_occurrence "a.py") (all_occurrences (duplicated_blocks init))
  \/ (occ_file (Examples.commented_occurrence "a.py") = "a.py"
      /\ occ_end_line (Examples.commented_occurrence "a.py")
         - occ_start_line (Examples.commented_occurrence "a.py") + 1 = 5
      /\ exists i : nat,
           occ_start_line (Examples.commented_occurrence "a.py")
           = Z.of_nat i + 1
           /\ (i + 5 <= List.length
                 (clean_lines_of Examples.commented_source "Python"))%nat
           /\ occ_content (Examples.commented_occurrence "a.py")
              = join_lines
                  (firstn 5 (skipn i
                     (clean_lines_of Examples.commented_source "Python")))).
Proof.
  apply (recorded_window_location (Examples.digits_hash 257 0) "a.py"
           Examples.commented_source "Python" init).
  vm_compute. left. reflexivity.
Defined.

(** The recorded [start_line] is not a line number of the file: the window
    of the example starts on line 2 of the source (line 1 is a comment)
    and is recorded with [start_line = 1]. *)
Example start_line_counts_clean_lines :
  all_occurrences
    (duplicated_blocks
       (check_duplicated_code (Examples.digits_hash 257 0) "a.py"
          Examples.commented_source "Python" init))
  = [Examples.commented_occurrence "a.py"]
  /\ nth 1 (split_lines Examples.commented_source) ""
     = nth 0 (split_lines (occ_content (Examples.commented_occurrence "a.py"))) ""
  /\ occ_start_line (Examples.commented_occurrence "a.py") = 1.
Proof.
  split; [vm_compute; reflexivity|]. split; reflexivity.
Qed.

(** ** Reported duplicate groups (C7) *)

Lemma existsb_keqb_in {A} `{KeyEq A} (x : A) (l : list A) :
  existsb (keqb x) l = true <-> In x l.
Proof.
  rewrite existsb_exists. split.
  - intros (y & Hy & Heq). destruct (keqb_spec x y); [now subst|discriminate].
  - intros Hin. exists x. split; [exact Hin|].
    destruct (keqb_spec x x); [reflexivity|congruence].
Qed.

Lemma existsb_keqb_not_in {A} `{KeyEq A} (x : A) (l : list A) :
  existsb (keqb x) l = false <-> ~ In x l.
Proof.
  rewrite <- existsb_keqb_in. destruct (existsb (keqb x) l); intuition congruence.
Qed.

Lemma set_add_new {A} `{KeyEq A} (s : list A) (x : A) :
  ~ In x s -> set_add s x = s ++ [x].
Proof.
  intros Hx. unfold set_add.
  apply existsb_keqb_not_in in Hx. now rewrite Hx.
Qed.

Lemma collect_locations_spec (occs : list Occurrence) :
  forall (locs : list Location) (rep : list loc_tuple) locs' rep',
    collect_locations occs locs rep = (locs', rep') ->
    exists new,
      locs' = locs ++ new
      /\ rep' = rep ++ map loc_key new
      /\ NoDup (map loc_key new)
      /\ (forall l, In l new -> ~ In (loc_key l) rep)
      /\ (forall l, In l new -> exists o, In o occs /\ l = location_of o)
      /\ (forall o, In o occs -> In (occ_key o) rep').
Proof.
  induction occs as [|occ occs IH]; intros locs rep locs' rep' Hrun;
    cbn [collect_locations] in Hrun.
  - inversion Hrun; subst. exists []. rewrite !app_nil_r. simpl.
    repeat split; auto; try constructor; intros ? [].
  - destruct (existsb (keqb (occ_file occ, occ_start_line occ)) rep) eqn:E.
    + apply IH in Hrun. destruct Hrun as (new & H1 & H2 & H3 & H4 & H5 & H6).
      exists new. repeat split; auto.
      * intros l Hl. destruct (H5 l Hl) as (o & Ho & ->). exists o. split; [now right|reflexivity].
      * intros o [<- | Ho]; [|now apply H6].
        apply existsb_keqb_in in E. subst rep'. apply in_or_app. now left.
    + apply existsb_keqb_not_in in E.
      rewrite (set_add_new _ _ E) in Hrun.
      apply IH in Hrun. destruct Hrun as (new & H1 & H2 & H3 & H4 & H5 & H6).
      exists (location_of occ :: new).
      split; [now rewrite H1, <- app_assoc|].
      split; [now rewrite H2, <- app_assoc|].
      split.
      { simpl. constructor; [|exact H3].
        intros Hin. apply in_map_iff in Hin. destruct Hin as (l & Hk & Hl).
        apply (H4 l Hl). rewrite Hk. apply in_or_app. right. now left. }
      split.
      { intros l [<- | Hl]; [exact E|].
        intros Hin. apply (H4 l Hl). apply in_or_app. now left. }
      split.
      { intros l [<- | Hl]; [exists occ; split; [now left|reflexivity]|].
        destruct (H5 l Hl) as (o & Ho & ->). exists o. split; [now right|reflexivity]. }
      intros o [<- | Ho]; [|now apply H6].
      rewrite H2. apply in_or_app. left. apply in_or_app. right. now left.
Qed.

Lemma dup_invariant_skip done final reported item :
  dup_invariant done final reported ->
  is_processed item = false ->
  dup_invariant (done ++ [item]) final reported.
Proof.
  intros [I1 I2 I3 I4 I5] Hskip. constructor; auto.
  - intros it Hin Hp o Ho. apply in_app_or in Hin.
    destruct Hin as [Hin | [<- | []]]; [eauto | congruence].
  - intros rb Hrb. destruct (I5 rb Hrb) as (pre & it & post & -> & H1 & H2).
    exists pre, it, (post ++ [item]). rewrite <- app_assoc. simpl. auto.
Qed.

Lemma dup_group_step_invariant done final reported a item final' reported' a' :
  dup_invariant done final reported ->
  dup_group_step (final, reported, a) item = (final', reported', a') ->
  dup_invariant (done ++ [item]) final' reported'.
Proof.
  intros Inv Hstep. unfold dup_group_step in Hstep.
  destruct (1 <? len (snd item)) eqn:Elen.
  2:{ inversion Hstep; subst. apply dup_invariant_skip; auto.
      unfold is_processed. now rewrite Elen. }
  destruct (snd item) as [|rep occs] eqn:Eocc.
  { inversion Hstep; subst. apply dup_invariant_skip; auto.
    unfold is_processed. rewrite Eocc. apply andb_false_r. }
  destruct (occ_end_line rep - occ_start_line rep + 1 <? 5) eqn:Elines.
  { inversion Hstep; subst. apply dup_invariant_skip; auto.
    unfold is_processed. rewrite Eocc, Elines. apply andb_false_r. }
  destruct (collect_locations (rep :: occs) [] reported) as [locs rep'] eqn:Ecol.
  apply collect_locations_spec in Ecol.
  destruct Ecol as (new & Hlocs & Hrep & Hnd & Hfresh & Hfrom & Hall).
  simpl in Hlocs. subst locs.
  destruct Inv as [I1 I2 I3 I4 I5].
  assert (Hclaimed : forall it, In it (done ++ [item]) -> is_processed it = true ->
            forall o, In o (snd it) -> In (occ_key o) rep').
  { intros it Hin Hp o Ho. apply in_app_or in Hin.
    destruct Hin as [Hin | [<- | []]].
    - rewrite Hrep. apply in_or_app. left. eauto.
    - rewrite Eocc in Ho. now apply Hall. }
  assert (Hold : forall rb, In rb final ->
            exists pre it post,
              done ++ [item] = pre ++ it :: post
              /\ (forall l, In l (rb_files rb) ->
                    exists o, In o (snd it) /\ l = location_of o)
              /\ (forall l earlier, In l (rb_files rb) -> In earlier pre ->
                    is_processed earlier = true ->
                    ~ In (loc_key l) (map occ_key (snd earlier)))).
  { intros rb Hrb. destruct (I5 rb Hrb) as (pre & it & post & -> & H1 & H2).
    exists pre, it, (post ++ [item]). rewrite <- app_assoc. simpl. auto. }
  destruct (1 <? len new) eqn:Enew; inversion Hstep; subst; clear Hstep.
  - constructor.
    + apply Forall_app. split; [exact I1|]. constructor; [|constructor].
      cbn. apply Z.ltb_lt in Enew. lia.
    + rewrite map_app, concat_app, map_app. cbn. rewrite app_nil_r.
      apply NoDup_app; auto.
      intros k Hk Hin. apply in_map_iff in Hin. destruct Hin as (l & <- & Hl).
      apply (Hfresh l Hl). auto.
    + intros k Hk. rewrite map_app, concat_app, map_app in Hk. cbn in Hk.
      rewrite app_nil_r in Hk. apply in_app_or in Hk. apply in_or_app.
      destruct Hk; [left; auto | now right].
    + exact Hclaimed.
    + intros rb Hrb. apply in_app_or in Hrb. destruct Hrb as [Hrb | [<- | []]].
      * now apply Hold.
      * exists done, item, []. split; [reflexivity|]. cbn. split.
        { rewrite Eocc. exact Hfrom. }
        intros l earlier Hl Hear Hp Hin.
        apply (Hfresh l Hl). apply in_map_iff in Hin.
        destruct Hin as (o & Hk & Ho). change (loc_key l) with (loc_key l).
        rewrite <- Hk. eapply I4; eauto.
  - constructor; auto.
    intros k Hk. apply in_or_app. left. auto.
Qed.

Lemma dup_loop_invariant (items : list (Z * list Occurrence)) :
  forall done final reported a final' reported' a',
    dup_invariant done final reported ->
    fold_left dup_group_step items (final, reported, a)
    = (final', reported', a') ->
    dup_invariant (done ++ items) final' reported'.
Proof.
  induction items as [|item items IH];
    intros done final reported a final' reported' a' Inv Hrun;
    cbn [fold_left] in Hrun.
  - inversion Hrun; subst. now rewrite app_nil_r.
  - destruct (dup_group_step (final, reported, a) item)
      as [[final1 reported1] a1] eqn:Estep.
    apply (dup_group_step_invariant done) in Estep; [|exact Inv].
    apply (IH (done ++ [item])) in Hrun; [|exact Estep].
    now rewrite <- app_assoc in Hrun.
Qed.

Lemma dup_invariant_init : dup_invariant [] [] [].
Proof.
  constructor; simpl; try constructor; intros; contradiction.
Qed.

Lemma insert_desc_perm (x : ReportBlock) (l : list ReportBlock) :
  Permutation (x :: l) (insert_desc x l).
Proof.
  induction l as [|y l IH]; simpl; [reflexivity|].
  destruct (sort_key_gt y x); [|reflexivity].
  rewrite perm_swap. now constructor.
Qed.

Lemma sort_desc_perm (l : list ReportBlock) : Permutation l (sort_desc l).
Proof.
  induction l as [|x l IH]; simpl; [constructor|].
  rewrite <- insert_desc_perm. now constructor.
Qed.

Lemma concat_map_perm {A B} (f : A -> list B) (l l' : list A) :
  Permutation l l' ->
  Permutation (List.concat (map f l)) (List.concat (map f l')).
Proof.
  induction 1; simpl.
  - constructor.
  - now apply Permutation_app_head.
  - rewrite !app_assoc. apply Permutation_app_tail, Permutation_app_comm.
  - etransitivity; eauto.
Qed.

(** C7: every reported duplicate block has at least two locations; no
    location [(file, start_line)] is in two reported blocks; and a reported
    location belongs to the first processed hash group that holds it: no
    group processed before the one its block comes from contains it. *)
Theorem reported_duplicates_invariant (a : Analyzer) :
  let reported := duplicated_code (analyze_duplicated_code a) in
  Forall (fun rb => 2 <= len (rb_files rb)) reported
  /\ NoDup (map loc_key (List.concat (map rb_files reported)))
  /\ forall rb, In rb reported ->
       exists pre item post,
         duplicated_blocks a = pre ++ item :: post
         /\ (forall l, In l (rb_files rb) ->
               exists o, In o (snd item) /\ l = location_of o)
         /\ (forall l earlier, In l (rb_files rb) -> In earlier pre ->
               is_processed earlier = true ->
               ~ In (loc_key l) (map occ_key (snd earlier))).
Proof.
  unfold analyze_duplicated_code.
  destruct (fold_left dup_group_step (duplicated_blocks a) ([], [], a))
    as [[final reported] a'] eqn:Erun.
  apply (dup_loop_invariant _ []) in Erun; [|apply dup_invariant_init].
  simpl in Erun. destruct Erun as [I1 I2 I3 I4 I5].
  cbn [duplicated_code set_duplicated_code].
  assert (Hperm := sort_desc_perm final).
  split; [|split].
  - eapply Permutation_Forall; eauto.
  - eapply Permutation_NoDup; [|exact I2].
    apply Permutation_map. now apply concat_map_perm.
  - intros rb Hrb. apply I5.
    eapply Permutation_in; [symmetry; exact Hperm|exact Hrb].
Qed.

(** ** Reasoning about methods *)

Section Preserves.
Variable R : Analyzer -> Analyzer -> Prop.
Hypothesis R_refl : forall a, R a a.
Hypothesis R_trans : forall a b c, R a b -> R b c -> R a c.

Lemma preserves_ret {A} (x : A) : preserves R (ret x).
Proof. intros a r a' E. inversion E; subst. apply R_refl. Qed.

Lemma preserves_raise {A} (e : exn) : preserves R (@raise A e).
Proof. intros a r a' E. inversion E; subst. apply R_refl. Qed.

Lemma preserves_modify (f : Analyzer -> Analyzer) :
  (forall a, R a (f a)) -> preserves R (modify f).
Proof. intros Hf a r a' E. inversion E; subst. apply Hf. Qed.

Lemma preserves_bind {A B} (m : M A) (k : A -> M B) :
  preserves R m -> (forall x, preserves R (k x)) -> preserves R (bind m k).
Proof.
  intros Hm Hk a r a' E. unfold bind in E.
  destruct (m a) as [[x | e] a1] eqn:Em.
  - eapply R_trans; [eapply Hm; eauto | eapply Hk; eauto].
  - inversion E; subst. eapply Hm; eauto.
Qed.

Lemma preserves_for_each {A} (l : list A) (body : A -> M unit) :
  (forall x, In x l -> preserves R (body x)) ->
  preserves R (for_each l body).
Proof.
  induction l as [|x l IH]; intros Hbody; cbn [for_each].
  - apply preserves_ret.
  - apply preserves_bind.
    + apply Hbody. now left.
    + intros _. apply IH. intros y Hy. apply Hbody. now right.
Qed.
End Preserves.

(** ** Cyclomatic complexity (C5) *)

Lemma forest_size_app (l1 l2 : list node) :
  forest_size (l1 ++ l2) = (forest_size l1 + forest_size l2)%nat.
Proof.
  induction l1 as [|n l1 IH]; simpl; [reflexivity|].
  unfold forest_size in *. rewrite IH. lia.
Qed.

Lemma forest_sum_app (f : node -> Z) (l1 l2 : list node) :
  forest_sum f (l1 ++ l2) = forest_sum f l1 + forest_sum f l2.
Proof.
  induction l1 as [|n l1 IH]; simpl; [reflexivity|].
  unfold forest_sum in *. rewrite IH. lia.
Qed.

Lemma size_unfold (n : node) : size n = S (forest_size (children n)).
Proof. destruct n; reflexivity. Qed.

Lemma tree_sum_unfold (f : node -> Z) (n : node) :
  tree_sum f n = f n + forest_sum f (children n).
Proof. destruct n; reflexivity. Qed.

(** The breadth-first walk visits every node once: a sum over the walk is
    the sum over the tree. *)
Lemma walk_queue_sum (f : node -> Z) (turns : nat) :
  forall (todo : list node) (acc : Z),
    (forest_size todo <= turns)%nat ->
    fold_left (fun c n => c + f n) (walk_queue turns todo) acc
    = acc + forest_sum f todo.
Proof.
  induction turns as [|turns IH]; intros todo acc Hsize.
  - destruct todo as [|n todo]; simpl; [lia|].
    simpl in Hsize. rewrite size_unfold in Hsize. lia.
  - destruct todo as [|n todo]; simpl; [lia|].
    rewrite IH.
    + rewrite forest_sum_app. fold (forest_sum f todo).
      rewrite (tree_sum_unfold f n). lia.
    + rewrite forest_size_app. simpl in Hsize. fold (forest_size todo) in Hsize.
      rewrite size_unfold in Hsize. lia.
Qed.

Lemma walk_sum (f : node -> Z) (n : node) (acc : Z) :
  fold_left (fun c k => c + f k) (walk n) acc = acc + tree_sum f n.
Proof.
  unfold walk. rewrite walk_queue_sum.
  - simpl. lia.
  - simpl. lia.
Qed.

Lemma fold_sum_split (f g : node -> Z) (l : list node) (x y : Z) :
  fold_left (fun c k => c + (f k + g k)) l (x + y)
  = fold_left (fun c k => c + f k) l x + fold_left (fun c k => c + g k) l y.
Proof.
  revert x y. induction l as [|n l IH]; intros x y; simpl; [reflexivity|].
  rewrite <- IH. f_equal. lia.
Qed.

Lemma fold_sum_ext (f g : node -> Z) (l : list node) (x : Z) :
  (forall k, f k = g k) ->
  fold_left (fun c k => c + f k) l x = fold_left (fun c k => c + g k) l x.
Proof.
  intros Hfg. revert x. induction l as [|n l IH]; intros x; simpl; [reflexivity|].
  now rewrite IH, Hfg.
Qed.

Lemma complexity_step_split (k : node) :
  complexity_step k
  = (if Spec.counted_branching (cls k) then 1 else 0)
    + Spec.extra_and_operands k.
Proof.
  unfold complexity_step, Spec.extra_and_operands.
  destruct (cls k) as [ | | | | | | | | | | | [|] ? | | | ]; reflexivity.
Qed.

(** The complexity loop counts the [if], [while], [for] and [try]
    statements and the extra operands of the [and] chains. *)
Lemma complexity_of_counts (n : node) :
  complexity_of n
  = 1 + tree_sum (fun k => if Spec.counted_branching (cls k) then 1 else 0) n
    + tree_sum Spec.extra_and_operands n.
Proof.
  unfold complexity_of.
  rewrite (fold_sum_ext _ _ _ _ complexity_step_split).
  replace 1 with (1 + 0) at 1 by lia.
  rewrite (fold_sum_split
             (fun k => if Spec.counted_branching (cls k) then 1 else 0)
             Spec.extra_and_operands (walk n) 1 0).
  rewrite !walk_sum. lia.
Qed.

Lemma preserves_weaken {A} (R1 R2 : Analyzer -> Analyzer -> Prop) (m : M A) :
  (forall a a', R1 a a' -> R2 a a') -> preserves R1 m -> preserves R2 m.
Proof. intros H12 H1 a r a' E. eapply H12, H1, E. Qed.

Lemma dict_get_set_same {K V} `{KeyEq K} (d : dict K V) (k : K) (v dflt : V) :
  dict_get (dict_set d k v) k dflt = v.
Proof.
  unfold dict_get. induction d as [|[k' v'] d IH]; simpl.
  - destruct (keqb_spec k k); [reflexivity|congruence].
  - destruct (keqb k' k) eqn:E; simpl; rewrite E; [reflexivity|exact IH].
Qed.

Lemma in_dict_values_set {K V} `{KeyEq K} (d : dict K V) (k : K) (v x : V) :
  In x (dict_values (dict_set d k v)) -> x = v \/ In x (dict_values d).
Proof.
  induction d as [|[k' v'] d IH]; simpl.
  - intuition.
  - destruct (keqb k' k); simpl; intuition.
Qed.

Lemma only_smells_refl (a : Analyzer) : only_smells a a.
Proof. exists (code_smells a). now destruct a. Qed.

Lemma only_smells_trans (a b c : Analyzer) :
  only_smells a b -> only_smells b c -> only_smells a c.
Proof. intros [t1 ->] [t2 ->]. now exists t2. Qed.

Lemma only_smells_add (file : string) (i : Issue) (a : Analyzer) :
  only_smells a (add_code_smell file i a).
Proof. now eexists. Qed.

(** The nesting check writes code smells only. *)
Lemma check_python_nesting_only_smells (fr : nat) :
  forall n func_name file depth,
    preserves only_smells (check_python_nesting fr n func_name file depth).
Proof.
  induction fr as [|fr IH]; intros n func_name file depth;
    cbn [check_python_nesting].
  - apply preserves_raise, only_smells_refl.
  - apply preserves_bind; [apply only_smells_trans | |].
    + destruct (is_control (cls n) && _).
      * apply preserves_modify. intros a. apply only_smells_add.
      * apply preserves_ret, only_smells_refl.
    + intros _. apply preserves_for_each;
        [apply only_smells_refl | apply only_smells_trans |].
      intros child _. apply IH.
Qed.

Section RecordedComplexity.
Context `{Runtime}.
Variable tree : node.
Variable file : string.

Let records := records_of_tree tree file.

Lemma records_refl a : records a a.
Proof. intros m Hm. now left. Qed.

Lemma records_trans a b c :
  records a b -> records b c -> records a c.
Proof.
  intros Hab Hbc m Hm. destruct (Hbc m Hm) as [Hb | Hp]; [|now right].
  now apply Hab.
Qed.

Lemma records_only_smells a a' : only_smells a a' -> records a a'.
Proof. intros [tbl ->] m Hm. now left. Qed.

Lemma analyze_function_records n name fargs body_len :
  In n (walk tree) -> function_name n = Some name ->
  preserves records (analyze_function file n name fargs body_len).
Proof.
  intros Hn Hname. unfold analyze_function.
  apply preserves_bind; [apply records_trans | |].
  { unfold params_count_of. destruct has_posonlyargs.
    - apply preserves_ret, records_refl.
    - apply preserves_raise, records_refl. }
  intros params.
  repeat (apply preserves_bind; [apply records_trans | | intros _]).
  - destruct (5 <? params).
    + apply preserves_modify. intros a.
      apply records_only_smells, only_smells_add.
    + apply preserves_ret, records_refl.
  - destruct (50 <? _).
    + apply preserves_modify. intros a.
      apply records_only_smells, only_smells_add.
    + apply preserves_ret, records_refl.
  - destruct (10 <? _).
    + apply preserves_modify. intros a.
      apply records_only_smells, only_smells_add.
    + apply preserves_ret, records_refl.
  - apply preserves_modify. intros a m Hm.
    unfold recorded_functions, store_function_metric in Hm.
    cbn [function_metrics set_function_metrics] in Hm.
    rewrite dict_get_set_same in Hm.
    apply in_dict_values_set in Hm. destruct Hm as [-> | Hm]; [|now left].
    right. exists n, name. repeat split; auto.
  - eapply preserves_weaken; [apply records_only_smells|].
    apply check_python_nesting_only_smells.
Qed.

Lemma analyze_python_functions_records :
  preserves records (analyze_python_functions tree file).
Proof.
  unfold analyze_python_functions.
  apply preserves_for_each; [apply records_refl | apply records_trans |].
  intros n Hn.
  destruct (cls n) eqn:En; try (apply preserves_ret, records_refl).
  - apply analyze_function_records; [exact Hn|].
    unfold function_name. now rewrite En.
  - apply analyze_function_records; [exact Hn|].
    unfold function_name. now rewrite En.
Qed.
End RecordedComplexity.

(** C5, as the code has it: the cyclomatic complexity recorded for a function is
    1, plus one per [if], [while], [for] (or [async for]) and [try]
    statement in the function, plus one per operand beyond the first of
    every [and] chain; [except] clauses and [or] chains add nothing. *)
Theorem recorded_complexity `{Runtime} (tree : node) (file : string)
    (a a' : Analyzer) (r : result unit) (m : FunctionMetric) :
  analyze_python_functions tree file a = (r, a') ->
  In m (recorded_functions a' file) ->
  In m (recorded_functions a file)
  \/ exists n name,
       In n (walk tree) /\ function_name n = Some name
       /\ fm_name m = name /\ fm_line m = lineno n
       /\ fm_complexity m
          = 1 + tree_sum (fun k => if Spec.counted_branching (cls k)
                                   then 1 else 0) n
            + tree_sum Spec.extra_and_operands n.
Proof.
  intros Hrun Hm.
  destruct (analyze_python_functions_records tree file a r a' Hrun m Hm)
    as [Hold | (n & name & Hn & Hname & H1 & H2 & H3)]; [now left|].
  right. exists n, name. rewrite <- complexity_of_counts. auto.
Qed.

Lemma recorded_complexity_witness :
  In (mkFunctionMetric "f" 2 2 1 1) (recorded_functions init "a.py")
  \/ exists n name,
       In n (walk Examples.or_module) /\ function_name n = Some name
       /\ fm_name (mkFunctionMetric "f" 2 2 1 1) = name
       /\ fm_line (mkFunctionMetric "f" 2 2 1 1) = lineno n
       /\ fm_complexity (mkFunctionMetric "f" 2 2 1 1)
          = 1 + tree_sum (fun k => if Spec.counted_branching (cls k)
                                   then 1 else 0) n
            + tree_sum Spec.extra_and_operands n.
Proof.
  pose (rt := Examples.python3 Examples.parse_or).
  apply (@recorded_complexity rt Examples.or_module "a.py" init
           (snd (analyze_python_functions Examples.or_module "a.py" init))
           (fst (analyze_python_functions Examples.or_module "a.py" init))).
  - apply surjective_pairing.
  - vm_compute. left. reflexivity.
Defined.

(** C5 as the specification words it does not hold on an [or] chain: for
    [def f(a, b): return a or b] the specification counts one extra
    operand, complexity 2; the code records 1. *)
Lemma or_chain_not_counted :
  exists a',
    @analyze_python_functions (Examples.python3 Examples.parse_or)
      Examples.or_module "a.py" init = (Ok tt, a')
    /\ recorded_functions a' "a.py" = [mkFunctionMetric "f" 2 2 1 1]
    /\ Spec.cyclomatic_complexity Examples.or_function = 2
    /\ fm_complexity (mkFunctionMetric "f" 2 2 1 1)
       <> Spec.cyclomatic_complexity Examples.or_function.
Proof.
  eexists. split; [vm_compute; reflexivity|].
  split; [reflexivity|]. split; [reflexivity|].
  vm_compute. discriminate.
Qed.

(** ** Deep nesting (C3) *)

Lemma dict_get_set_other {K V} `{KeyEq K} (d : dict K V) (k k' : K)
    (v dflt : V) :
  k <> k' -> dict_get (dict_set d k v) k' dflt = dict_get d k' dflt.
Proof.
  intros Hne. unfold dict_get. induction d as [|[k0 v0] d IH]; simpl.
  - destruct (keqb_spec k k'); [contradiction|reflexivity].
  - destruct (keqb_spec k0 k); simpl.
    + subst k0. destruct (keqb_spec k k'); [contradiction|reflexivity].
    + destruct (keqb k0 k'); [reflexivity|exact IH].
Qed.

Lemma dict_get_dd_append {K A} `{KeyEq K} (d : dict K (list A)) (k k' : K)
    (x : A) :
  dict_get (dd_append d k x) k' []
  = dict_get d k' [] ++ (if keqb k k' then [x] else []).
Proof.
  unfold dd_append. destruct (keqb_spec k k').
  - subst k'. now rewrite dict_get_set_same.
  - rewrite dict_get_set_other by assumption. now rewrite app_nil_r.
Qed.

Lemma deep_add_code_smell (f file : string) (i : Issue) (a : Analyzer) :
  deep_nesting_issues (add_code_smell f i a) file
  = deep_nesting_issues a file
    ++ (if String.eqb f file && is_deep_nesting i then [i] else []).
Proof.
  unfold deep_nesting_issues, add_code_smell.
  cbn [code_smells set_code_smells].
  rewrite dict_get_dd_append, filter_app.
  change (@keqb string KeyEq_string f file) with (String.eqb f file).
  destruct (String.eqb f file); simpl; [|reflexivity].
  destruct (is_deep_nesting i); reflexivity.
Qed.

Lemma fold_left_keeps {A B C} (proj : A -> C) (f : A -> B -> A)
    (l : list B) (a : A) :
  (forall a x, In x l -> proj (f a x) = proj a) ->
  proj (fold_left f l a) = proj a.
Proof.
  revert a. induction l as [|x l IH]; intros a Hf; simpl; [reflexivity|].
  rewrite IH.
  - apply Hf. now left.
  - intros a0 y Hy. apply Hf. now right.
Qed.

Section Emits.
Variable file : string.

Lemma emits_ret {A} (x : A) : emits file [] (ret x) x.
Proof. intros a. exists a. now rewrite app_nil_r. Qed.

Lemma emits_bind {A B} (e1 e2 : list Issue) (m : M A) (k : A -> M B)
    (x : A) (y : B) :
  emits file e1 m x -> emits file e2 (k x) y ->
  emits file (e1 ++ e2) (bind m k) y.
Proof.
  intros Hm Hk a. destruct (Hm a) as (a1 & E1 & D1).
  destruct (Hk a1) as (a2 & E2 & D2).
  exists a2. unfold bind. rewrite E1. split; [exact E2|].
  now rewrite D2, D1, app_assoc.
Qed.

Lemma emits_modify (f : Analyzer -> Analyzer) (extra : list Issue) :
  (forall a, deep_nesting_issues (f a) file
             = deep_nesting_issues a file ++ extra) ->
  emits file extra (modify f) tt.
Proof. intros Hf a. exists (f a). split; [reflexivity|apply Hf]. Qed.

Lemma emits_skip {A} (l : list A) (body : A -> M unit) :
  (forall x, In x l -> body x = ret tt) ->
  emits file [] (for_each l body) tt.
Proof.
  induction l as [|x l IH]; intros Hbody; cbn [for_each].
  - apply emits_ret.
  - change (@nil Issue) with (@nil Issue ++ []).
    apply (emits_bind _ _ _ _ tt).
    + rewrite Hbody by now left. apply emits_ret.
    + apply IH. intros y Hy. apply Hbody. now right.
Qed.
End Emits.

Lemma check_python_nesting_step (fr : nat) (n : node)
    (func_name file : string) (depth : Z) :
  check_python_nesting (S fr) n func_name file depth
  = ((if is_control (cls n)
         && (4 <? (if is_control (cls n) then depth + 1 else depth))
      then modify (add_code_smell file
             (deep_nesting_issue func_name
                (if is_control (cls n) then depth + 1 else depth)
                (lineno n)))
      else ret tt) ;;
     for_each (children n) (fun child =>
       check_python_nesting fr child func_name file
         (if is_control (cls n) then depth + 1 else depth))).
Proof. reflexivity. Qed.

(** The nesting check on a leaf and on a name. *)
Lemma check_leaf (fr : nat) (c : string) (l e : Z) (name file : string)
    (depth : Z) :
  emits file [] (check_python_nesting (S fr) (Node (Other c) l e [])
                   name file depth) tt.
Proof.
  rewrite check_python_nesting_step.
  cbn [cls is_control andb children for_each].
  change (@nil Issue) with (@nil Issue ++ []).
  apply (emits_bind _ _ _ _ _ tt); apply emits_ret.
Qed.

Lemma check_name (fr : nat) (line : Z) (name file : string) (depth : Z) :
  emits file [] (check_python_nesting (S (S fr)) (Examples.name_node line)
                   name file depth) tt.
Proof.
  unfold Examples.name_node. rewrite check_python_nesting_step.
  cbn [cls is_control andb children for_each].
  change (@nil Issue) with (@nil Issue ++ ([] ++ [])).
  apply (emits_bind _ _ _ _ _ tt); [apply emits_ret|].
  apply (emits_bind _ _ _ _ _ tt); [|apply emits_ret].
  exact (check_leaf fr "Load" 0 0 name file depth).
Qed.

Lemma check_nested_if (levels : nat) :
  forall (fr : nat) (line last depth : Z) (name file : string),
    (levels + 2 <= fr)%nat ->
    emits file (nest_emitted name depth line levels)
      (check_python_nesting fr (Examples.nested_if levels line last)
         name file depth) tt.
Proof.
  induction levels as [|k IH]; intros fr line last depth name file Hfr.
  - destruct fr as [|fr]; [lia|].
    exact (check_leaf fr "Pass" line line name file depth).
  - destruct fr as [|[|[|fr]]]; [lia|lia|lia|].
    cbn [Examples.nested_if nest_emitted].
    rewrite check_python_nesting_step.
    cbn [cls is_control andb children for_each].
    apply (emits_bind _ _ _ _ _ tt).
    + destruct (4 <? depth + 1).
      * apply emits_modify. intros a. rewrite deep_add_code_smell.
        now rewrite String.eqb_refl.
      * apply emits_ret.
    + change (nest_emitted name (depth + 1) (line + 1) k)
        with ([] ++ nest_emitted name (depth + 1) (line + 1) k).
      apply (emits_bind _ _ _ _ _ tt);
        [exact (check_name fr line name file (depth + 1))|].
      rewrite <- (app_nil_r (nest_emitted _ _ _ _)).
      apply (emits_bind _ _ _ _ _ tt); [|apply emits_ret].
      apply IH. lia.
Qed.

Lemma nest_emitted_depths (name : string) (levels : nat) :
  forall depth : Z,
    nest_emitted name depth (depth + 2) levels
    = map (fun d => deep_nesting_issue name d (d + 1))
        (filter (fun d => 4 <? d)
           (map (fun j => depth + Z.of_nat j) (seq 1 levels))).
Proof.
  induction levels as [|k IH]; intros depth; [reflexivity|].
  assert (Hmap : map (fun j => depth + Z.of_nat j) (seq 2 k)
                 = map (fun j => depth + 1 + Z.of_nat j) (seq 1 k)).
  { rewrite <- (seq_shift k 1), map_map. apply map_ext. intros j. lia. }
  cbn [nest_emitted seq map filter].
  replace (depth + 2 + 1) with (depth + 1 + 2) by lia.
  rewrite IH, Hmap.
  replace (depth + Z.of_nat 1) with (depth + 1) by lia.
  destruct (4 <? depth + 1); [|reflexivity].
  cbn [map app]. now replace (depth + 1 + 1) with (depth + 2) by lia.
Qed.

Lemma walk_queue_subnode (turns : nat) :
  forall (todo : list node) (x : node),
    In x (walk_queue turns todo) -> exists r, In r todo /\ subnode x r.
Proof.
  induction turns as [|turns IH]; intros todo x Hx; [destruct Hx|].
  destruct todo as [|n todo]; [destruct Hx|].
  cbn [walk_queue] in Hx. destruct Hx as [<- | Hx].
  - exists n. split; [now left | constructor].
  - apply IH in Hx. destruct Hx as (r & Hr & Hsub).
    apply in_app_or in Hr. destruct Hr as [Hr | Hr].
    + exists r. split; [now right | exact Hsub].
    + exists n. split; [now left|]. eapply subnode_child; eauto.
Qed.

Lemma no_function_in_unfold (n : node) :
  no_function_in n = true ->
  function_name n = None /\ forallb no_function_in (children n) = true.
Proof.
  destruct n as [c l e ch]. cbn [no_function_in children].
  intros Hn. apply andb_prop in Hn. destruct Hn as [Hc Hch].
  split; [|exact Hch].
  unfold function_name. cbn [cls]. destruct c; try reflexivity; discriminate.
Qed.

Lemma no_function_subnode (x n : node) :
  subnode x n -> no_function_in n = true -> function_name x = None.
Proof.
  induction 1 as [|n c Hc Hsub IH]; intros Hn.
  - now apply no_function_in_unfold.
  - apply IH. apply no_function_in_unfold in Hn. destruct Hn as [_ Hch].
    rewrite forallb_forall in Hch. now apply Hch.
Qed.

Lemma nested_if_no_function (levels : nat) :
  forall line last, no_function_in (Examples.nested_if levels line last) = true.
Proof.
  induction levels as [|k IH]; intros line last; [reflexivity|].
  cbn [Examples.nested_if no_function_in forallb Examples.name_node].
  now rewrite IH.
Qed.

Lemma function_body_skipped `{Runtime} (file : string) (n : node) :
  function_name n = None ->
  match cls n with
  | FunctionDef name fargs body_len
  | AsyncFunctionDef name fargs body_len =>
      analyze_function file n name fargs body_len
  | _ => ret tt
  end = ret tt.
Proof.
  unfold function_name. destruct (cls n); intros E; try reflexivity;
    discriminate.
Qed.

Lemma emits_smell_other (file f : string) (i : Issue) :
  is_deep_nesting i = false ->
  emits file [] (modify (add_code_smell f i)) tt.
Proof.
  intros Hi. apply emits_modify. intros a.
  rewrite deep_add_code_smell, Hi. now rewrite andb_false_r.
Qed.

Lemma emits_if_smell (file f : string) (b : bool) (i : Issue) :
  is_deep_nesting i = false ->
  emits file [] (if b then modify (add_code_smell f i) else ret tt) tt.
Proof.
  intros Hi. destruct b; [now apply emits_smell_other | apply emits_ret].
Qed.

Section NestedFunction.
Context `{Runtime}.
Variable file name : string.
Variable levels : nat.
Hypothesis modern : has_posonlyargs = true.
Hypothesis enough_frames : (levels + 3 <= frames)%nat.

Lemma check_nested_function :
  emits file (nest_emitted name 0 2 levels)
    (check_python_nesting frames (Examples.nested_function name levels)
       name file 0) tt.
Proof.
  destruct frames as [|[|[|fr]]] eqn:Efr; [lia|lia|lia|].
  unfold Examples.nested_function. rewrite check_python_nesting_step.
  cbn [cls is_control andb children for_each].
  replace (nest_emitted name 0 2 levels)
    with ([] ++ ([] ++ (nest_emitted name 0 2 levels ++ [])))
    by (cbn [app]; apply app_nil_r).
  apply (emits_bind _ _ _ _ _ tt); [apply emits_ret|].
  apply (emits_bind _ _ _ _ _ tt).
  { unfold Examples.arguments_node. rewrite check_python_nesting_step.
    cbn [cls is_control andb children for_each map].
    change (@nil Issue) with (@nil Issue ++ ([] ++ [])).
    apply (emits_bind _ _ _ _ _ tt); [apply emits_ret|].
    apply (emits_bind _ _ _ _ _ tt); [|apply emits_ret].
    exact (check_leaf fr "arg" 1 1 name file 0). }
  apply (emits_bind _ _ _ _ _ tt); [|apply emits_ret].
  apply check_nested_if. lia.
Qed.

Lemma analyze_nested_function :
  emits file (nest_emitted name 0 2 levels)
    (analyze_function file (Examples.nested_function name levels) name
       (mkArguments ["x"] [] [] None None) 1) tt.
Proof.
  unfold analyze_function, params_count_of. rewrite modern.
  change (nest_emitted name 0 2 levels)
    with ([] ++ ([] ++ ([] ++ ([] ++ ([] ++ nest_emitted name 0 2 levels))))).
  eapply emits_bind; [apply emits_ret|].
  apply (emits_bind _ _ _ _ _ tt); [now apply emits_if_smell|].
  apply (emits_bind _ _ _ _ _ tt); [now apply emits_if_smell|].
  apply (emits_bind _ _ _ _ _ tt); [now apply emits_if_smell|].
  apply (emits_bind _ _ _ _ _ tt).
  { apply emits_modify. intros a. now rewrite app_nil_r. }
  apply check_nested_function.
Qed.

Lemma walk_nested_module :
  exists rest,
    walk (Examples.nested_module name levels)
    = Examples.nested_module name levels
      :: Examples.nested_function name levels :: rest
    /\ forall x, In x rest -> function_name x = None.
Proof.
  unfold walk.
  set (f := Examples.nested_function name levels).
  assert (Hsize : size (Examples.nested_module name levels)
                  = S (S (forest_size (children f)))).
  { unfold Examples.nested_module. cbn [size fold_right].
    fold f. rewrite (size_unfold f). lia. }
  rewrite Hsize. cbn [walk_queue].
  eexists. split; [reflexivity|].
  intros x Hx. apply walk_queue_subnode in Hx.
  destruct Hx as (r & Hr & Hsub).
  apply (no_function_subnode x r Hsub).
  cbn in Hr. destruct Hr as [<- | [<- | []]]; [reflexivity|].
  apply nested_if_no_function.
Qed.

Lemma analyze_nested_module :
  emits file (nest_emitted name 0 2 levels)
    (analyze_python_functions (Examples.nested_module name levels) file) tt.
Proof.
  unfold analyze_python_functions.
  destruct walk_nested_module as (rest & -> & Hrest).
  cbn [for_each].
  replace (nest_emitted name 0 2 levels)
    with ([] ++ (nest_emitted name 0 2 levels ++ []))
    by (cbn [app]; apply app_nil_r).
  apply (emits_bind _ _ _ _ _ tt); [apply emits_ret|].
  apply (emits_bind _ _ _ _ _ tt); [apply analyze_nested_function|].
  apply emits_skip. intros x Hx. apply function_body_skipped. now apply Hrest.
Qed.
End NestedFunction.

Lemma code_smells_record_import (file name : string) (a : Analyzer) :
  code_smells (record_import file name a) = code_smells a.
Proof. reflexivity. Qed.

Lemma code_smells_imports (tree : node) (file : string) (a : Analyzer) :
  code_smells (analyze_python_imports tree file a) = code_smells a.
Proof.
  unfold analyze_python_imports. apply fold_left_keeps.
  intros a0 n _. destruct (cls n); try reflexivity.
  - apply fold_left_keeps. reflexivity.
  - destruct module as [m|]; [|reflexivity].
    destruct (String.eqb m ""); reflexivity.
Qed.

Lemma deep_imports (tree : node) (file f : string) (a : Analyzer) :
  deep_nesting_issues (analyze_python_imports tree file a) f
  = deep_nesting_issues a f.
Proof.
  unfold deep_nesting_issues. now rewrite code_smells_imports.
Qed.

Lemma deep_apply_regex `{Runtime} (file content f : string) (a : Analyzer) :
  deep_nesting_issues
    (apply_regex_patterns PYTHON_ANTI_PATTERNS file content a) f
  = deep_nesting_issues a f.
Proof.
  unfold apply_regex_patterns.
  apply (fold_left_keeps (fun a => deep_nesting_issues a f)).
  intros a0 p Hp.
  apply (fold_left_keeps (fun a => deep_nesting_issues a f)).
  intros a1 m _. rewrite deep_add_code_smell.
  assert (Hname : is_deep_nesting
            {| i_type := p_name p; i_description := p_description p;
               i_severity := p_severity p;
               i_line := Some (line_of_offset content (m_start m));
               i_context :=
                 Some (context_line (split_lines content)
                         (line_of_offset content (m_start m))) |} = false).
  { unfold is_deep_nesting. cbn [i_type].
    destruct Hp as [<- | [<- | [<- | [<- | []]]]]; reflexivity. }
  rewrite Hname, andb_false_r. apply app_nil_r.
Qed.

(** The example modules [Examples.nested_module]: [levels] conditionals
    nested in one another, one per line from line 2 on, give one
    deep-nesting Finding for every level above 4. *)
Lemma nested_module_per_level `{Runtime} (file content name : string)
    (levels : nat) (a : Analyzer) :
  ast_parse content = Parsed (Examples.nested_module name levels) ->
  has_posonlyargs = true ->
  (levels + 3 <= frames)%nat ->
  fst (analyze_python_file file content a) = true
  /\ deep_nesting_issues (snd (analyze_python_file file content a)) file
     = deep_nesting_issues a file
       ++ map (fun depth => deep_nesting_issue name depth (depth + 1))
            (filter (fun depth => 4 <? depth)
               (map Z.of_nat (seq 1 levels))).
Proof.
  intros Hparse Hmodern Hframes. unfold analyze_python_file. rewrite Hparse.
  destruct (analyze_nested_module file name levels Hmodern Hframes
              (analyze_python_imports (Examples.nested_module name levels)
                 file a)) as (a2 & Erun & Edeep).
  rewrite Erun. cbn [fst snd]. split; [reflexivity|].
  rewrite deep_apply_regex, Edeep, deep_imports. f_equal.
  change 2 with (0 + 2). rewrite (nest_emitted_depths name levels 0).
  do 2 f_equal.
Qed.

(** C3 as the specification words it does not hold: six nested
    conditionals in one function give two deep-nesting Findings, one at
    depth 5 and one at depth 6. *)
Lemma six_levels_two_findings :
  deep_nesting_issues
    (snd (@analyze_python_file (Examples.python3 Examples.parse_six_levels)
            "deep.py" Examples.six_levels_source init)) "deep.py"
  = [ deep_nesting_issue "f" 5 6; deep_nesting_issue "f" 6 7 ]
  /\ List.length
       (deep_nesting_issues
          (snd (@analyze_python_file
                  (Examples.python3 Examples.parse_six_levels)
                  "deep.py" Examples.six_levels_source init)) "deep.py")
     <> 1%nat.
Proof.
  split; [vm_compute; reflexivity|].
  vm_compute. discriminate.
Qed.

(** ** Parse failure and fallback (C4) *)

Lemma only_sm_refl (a : Analyzer) : only_smells_and_metrics a a.
Proof. exists (code_smells a), (function_metrics a). now destruct a. Qed.

Lemma only_sm_trans (a b c : Analyzer) :
  only_smells_and_metrics a b -> only_smells_and_metrics b c ->
  only_smells_and_metrics a c.
Proof. intros (t1 & f1 & ->) (t2 & f2 & ->). now exists t2, f2. Qed.

Lemma only_sm_smells (a a' : Analyzer) :
  only_smells a a' -> only_smells_and_metrics a a'.
Proof. intros [tbl ->]. exists tbl, (function_metrics a). now destruct a. Qed.

Lemma only_sm_store (file key : string) (m : FunctionMetric) (a : Analyzer) :
  only_smells_and_metrics a (store_function_metric file key m a).
Proof.
  unfold store_function_metric. eexists (code_smells a), _. now destruct a.
Qed.

Lemma analyze_python_functions_only `{Runtime} (tree : node) (file : string) :
  preserves only_smells_and_metrics (analyze_python_functions tree file).
Proof.
  assert (Hsmell : forall b f i,
            preserves only_smells_and_metrics
              (if b : bool then modify (add_code_smell f i) else ret tt)).
  { intros [|] f i.
    - apply preserves_modify. intros a. apply only_sm_smells, only_smells_add.
    - apply preserves_ret, only_sm_refl. }
  unfold analyze_python_functions.
  apply preserves_for_each; [apply only_sm_refl | apply only_sm_trans |].
  intros n _.
  assert (Hfun : forall name fargs body_len,
            preserves only_smells_and_metrics
              (analyze_function file n name fargs body_len)).
  { intros name fargs body_len. unfold analyze_function.
    apply preserves_bind; [apply only_sm_trans | |].
    { unfold params_count_of. destruct has_posonlyargs.
      - apply preserves_ret, only_sm_refl.
      - apply preserves_raise, only_sm_refl. }
    intros params.
    repeat (apply preserves_bind; [apply only_sm_trans | | intros _]);
      try apply Hsmell.
    - apply preserves_modify. intros a. apply only_sm_store.
    - eapply preserves_weaken; [apply only_sm_smells|].
      apply check_python_nesting_only_smells. }
  destruct (cls n); try (apply preserves_ret, only_sm_refl); apply Hfun.
Qed.

Lemma imports_keep_style (tree : node) (file : string) (a : Analyzer) :
  style_issues (analyze_python_imports tree file a) = style_issues a.
Proof.
  unfold analyze_python_imports. apply fold_left_keeps.
  intros a0 n _. destruct (cls n); try reflexivity.
  - apply fold_left_keeps. reflexivity.
  - destruct module as [m|]; [|reflexivity].
    destruct (String.eqb m ""); reflexivity.
Qed.

Section RegexFallback.
Context `{Runtime}.
Variables file content : string.

Lemma with_regex_keeps {C} (proj : Analyzer -> C) :
  (forall tbl a, proj (set_code_smells tbl a) = proj a) ->
  (forall d a, proj (set_dependencies d a) = proj a) ->
  forall a, proj (analyze_python_with_regex file content a) = proj a.
Proof.
  intros Hs Hd a. unfold analyze_python_with_regex.
  rewrite fold_left_keeps.
  - apply fold_left_keeps. intros a0 p _. apply fold_left_keeps.
    intros a1 m _. apply Hs.
  - intros a0 m _. destruct (String.eqb _ ""); [reflexivity|apply Hd].
Qed.

Lemma fallback_style (e : exn) (a : Analyzer) :
  style_issues (regex_fallback file content e a)
  = dd_append (style_issues a) file (failure_issue e).
Proof.
  unfold regex_fallback. now rewrite with_regex_keeps.
Qed.

Lemma fallback_function_metrics (e : exn) (a : Analyzer) :
  function_metrics (regex_fallback file content e a) = function_metrics a.
Proof.
  unfold regex_fallback. now rewrite with_regex_keeps.
Qed.

Lemma fallback_import_graph (e : exn) (a : Analyzer) :
  import_graph (regex_fallback file content e a) = import_graph a.
Proof.
  unfold regex_fallback. now rewrite with_regex_keeps.
Qed.
End RegexFallback.

Lemma failure_issue_severity (e : exn) :
  i_severity (failure_issue e) = failure_severity e.
Proof. destruct e; reflexivity. Qed.

(** C4, as the code has it: when the structural analysis of a file fails,
    [_analyze_python_file] appends exactly one style Finding for the file,
    of severity "warning" for a syntax error or an attribute error and
    "error" for any other exception, and runs the regex fallback. After a
    failure of the parse itself nothing structural has been recorded;
    after a failure during the tree walk the function metrics and the
    import graph recorded up to the failure are kept. *)
Theorem structural_failure_fallback `{Runtime} (file content : string)
    (a : Analyzer) :
  fst (analyze_python_file file content a) = false ->
  exists e at_failure,
    structural_failure file content a e at_failure
    /\ snd (analyze_python_file file content a)
       = analyze_python_with_regex file content
           (add_style_issue file (failure_issue e) at_failure)
    /\ style_issues (snd (analyze_python_file file content a))
       = dd_append (style_issues a) file (failure_issue e)
    /\ i_severity (failure_issue e) = failure_severity e
    /\ function_metrics (snd (analyze_python_file file content a))
       = function_metrics at_failure
    /\ import_graph (snd (analyze_python_file file content a))
       = import_graph at_failure.
Proof.
  unfold analyze_python_file, structural_failure.
  destruct (ast_parse content) as [tree | e] eqn:Eparse.
  - destruct (analyze_python_functions tree file
                (analyze_python_imports tree file a)) as [[[] | e] a2] eqn:Erun;
      cbn [fst snd]; [discriminate|]. intros _.
    exists e, a2. split; [right; exists tree; auto|].
    split; [reflexivity|].
    rewrite fallback_style, fallback_function_metrics, fallback_import_graph.
    apply analyze_python_functions_only in Erun.
    destruct Erun as (tbl & fm & ->).
    cbn [style_issues set_function_metrics set_code_smells].
    rewrite imports_keep_style, failure_issue_severity. auto.
  - cbn [fst snd]. intros _. exists e, a. split; [left; auto|].
    split; [reflexivity|].
    rewrite fallback_style, fallback_function_metrics, fallback_import_graph.
    rewrite failure_issue_severity. auto.
Qed.

Lemma structural_failure_fallback_witness :
  exists e at_failure,
    @structural_failure (Examples.python3 Examples.parse_long_sum)
      "big.py" Examples.long_sum_source init e at_failure
    /\ snd (@analyze_python_file (Examples.python3 Examples.parse_long_sum)
              "big.py" Examples.long_sum_source init)
       = @analyze_python_with_regex (Examples.python3 Examples.parse_long_sum)
           "big.py" Examples.long_sum_source
           (add_style_issue "big.py" (failure_issue e) at_failure)
    /\ style_issues
         (snd (@analyze_python_file (Examples.python3 Examples.parse_long_sum)
                 "big.py" Examples.long_sum_source init))
       = dd_append (style_issues init) "big.py" (failure_issue e)
    /\ i_severity (failure_issue e) = failure_severity e
    /\ function_metrics
         (snd (@analyze_python_file (Examples.python3 Examples.parse_long_sum)
                 "big.py" Examples.long_sum_source init))
       = function_metrics at_failure
    /\ import_graph
         (snd (@analyze_python_file (Examples.python3 Examples.parse_long_sum)
                 "big.py" Examples.long_sum_source init))
       = import_graph at_failure.
Proof.
  apply (@structural_failure_fallback
           (Examples.python3 Examples.parse_long_sum)
           "big.py" Examples.long_sum_source init).
  vm_compute. reflexivity.
Defined.

(** C4 as the specification words it does not hold for a failure during
    the tree walk. The file
    imports [os] and defines a function that returns a sum of 1000 terms;
    the recursive nesting check runs out of stack frames on the sum. The
    file gets its one style Finding of severity "error", but the import of
    [os] and the metrics of the function, recorded before the failure, are
    still there. *)
Lemma walk_failure_keeps_partial_results :
  let run := @analyze_python_file (Examples.python3 Examples.parse_long_sum)
               "big.py" Examples.long_sum_source init in
  fst run = false
  /\ style_issues (snd run)
     = [("big.py",
         [mkIssue "ast_processing_error"
            "Unexpected AST processing error: RecursionError."
            "error" (Some 1) None])]
  /\ recorded_functions (snd run) "big.py" = [mkFunctionMetric "f" 1 2 1 2]
  /\ dict_get (dependencies (snd run)) "big.py" [] = ["os"]
  /\ dict_get (import_graph (snd run)) "big.py" [] = ["os"].
Proof.
  vm_compute. repeat split; reflexivity.
Qed.

(** On an interpreter without [posonlyargs] the walk fails on the first
    function with an [AttributeError]: the style Finding then has severity
    "warning", and the import recorded before is kept. *)
Example attribute_error_is_a_warning :
  let run := @analyze_python_file (Examples.python37 Examples.parse_or)
               "a.py" Examples.or_source init in
  fst run = false
  /\ map i_severity (dict_get (style_issues (snd run)) "a.py" []) = ["warning"]
  /\ map i_type (dict_get (style_issues (snd run)) "a.py" [])
     = ["ast_feature_error"].
Proof.
  vm_compute. repeat split; reflexivity.
Qed.

(** ** Nested loops (C6) *)

Lemma issue_name_is_last_key : issue_name_after_loop = "multiple_dom_access".
Proof. reflexivity. Qed.

Lemma long_lines_keep {C} (proj : Analyzer -> C) (file : string)
    (lines : list string) :
  (forall tbl a, proj (set_style_issues tbl a) = proj a) ->
  forall i a, proj (long_lines_loop file lines i a) = proj a.
Proof.
  intros Hs. induction lines as [|line lines IH]; intros i a;
    cbn [long_lines_loop]; [reflexivity|].
  rewrite IH. destruct (100 <? _); [apply Hs | reflexivity].
Qed.

Lemma nested_dd_append (tbl : issue_table) (file f : string) (i : Issue) :
  is_nested_loops i = false ->
  filter is_nested_loops (dict_get (dd_append tbl file i) f [])
  = filter is_nested_loops (dict_get tbl f []).
Proof.
  intros Hi. rewrite dict_get_dd_append, filter_app.
  destruct (keqb file f); simpl; [rewrite Hi|]; apply app_nil_r.
Qed.

Lemma performance_loop_nested `{Runtime} (file content language f : string)
    (a : Analyzer) :
  nested_loops_issues (performance_loop file content language a) f
  = nested_loops_issues a f.
Proof.
  unfold performance_loop.
  apply (fold_left_keeps (fun a => nested_loops_issues a f)).
  intros a0 rule Hrule.
  destruct (rule_skipped rule language); [reflexivity|].
  destruct (r_regex rule) as [regex|] eqn:Eregex; [|reflexivity].
  apply (fold_left_keeps (fun a => nested_loops_issues a f)).
  intros a1 m _. unfold nested_loops_issues, add_performance_issue.
  cbn [performance_issues set_performance_issues].
  apply nested_dd_append. unfold is_nested_loops, match_issue. cbn [i_type].
  destruct Hrule as [<- | [<- | [<- | []]]]; try reflexivity.
  discriminate Eregex.
Qed.

(** [_analyze_generic] never raises: the guarded block is not run, and
    the rest only updates the analyzer. *)
Lemma analyze_generic_run `{Runtime} (file content language : string) :
  exists in_block commented,
    forall a,
      analyze_generic file content language a
      = (Ok tt,
         store_file_metrics file language (split_lines content)
           (dict_get comment_markers language ["#"; "//"]) in_block
           (performance_loop file content language
              (security_loop file content language
                 (report_commented_code file commented
                    (long_lines_loop file (split_lines content) 0 a))))).
Proof.
  unfold analyze_generic.
  destruct (commented_code_loop language
              (dict_get comment_markers language ["#"; "//"])
              (split_lines content) 0 false [] [])
    as [[in_block commented] current].
  eexists in_block, _. intros a. reflexivity.
Qed.

(** C6, on the code: [_analyze_generic] never raises and never adds a
    [nested_loops] Finding, whatever the file holds. The block that looks
    for nested loops is guarded by [issue_name == 'nested_loops'] after
    the loop over [PERFORMANCE_ISSUES] has ended, when [issue_name] is the
    last key, [multiple_dom_access]. *)
Theorem nested_loops_never_reported `{Runtime}
    (file content language f : string) (a : Analyzer) :
  fst (analyze_generic file content language a) = Ok tt
  /\ nested_loops_issues (snd (analyze_generic file content language a)) f
     = nested_loops_issues a f.
Proof.
  destruct (analyze_generic_run file content language)
    as (in_block & commented & Hrun).
  rewrite Hrun.
  cbn [fst snd]. split; [reflexivity|].
  transitivity (nested_loops_issues
                  (performance_loop file content language
                     (security_loop file content language
                        (report_commented_code file commented
                           (long_lines_loop file (split_lines content) 0 a))))
                  f); [reflexivity|].
  rewrite performance_loop_nested. unfold nested_loops_issues.
  unfold security_loop.
  rewrite (fold_left_keeps performance_issues).
  - unfold report_commented_code.
    rewrite (fold_left_keeps performance_issues) by reflexivity.
    now rewrite long_lines_keep.
  - intros a0 rule _. destruct (rule_skipped rule language); [reflexivity|].
    destruct (r_regex rule); [|reflexivity].
    apply fold_left_keeps. reflexivity.
Qed.

(** The failing input of C6: a JavaScript file with a [while] loop in the
    block of a [for] loop. The analyzer reports no performance issue; the
    guarded block, had it run, would have reported the pair. *)
Example loops_file_not_reported :
  performance_issues
    (snd (@analyze_generic Examples.javascript_runtime "loops.js"
            Examples.loops_source "JavaScript" init)) = []
  /\ performance_issues
       (snd (@nested_loops_block Examples.javascript_runtime "loops.js"
               Examples.loops_source "JavaScript" init))
     = [("loops.js",
         [mkIssue "nested_loops"
            "Nested loops detected (outer loop at line 1, inner at line 1)"
            "high" (Some 1) None])].
Proof.
  split; vm_compute; reflexivity.
Qed.

(** ** Determinism of a run (C8) *)

(** *** Updates that ignore the table of hashed windows *)

Lemma ignores_fold {B} (f : Analyzer -> B -> Analyzer) (l : list B) :
  (forall x, ignores_blocks (fun a => f a x)) ->
  ignores_blocks (fun a => fold_left f l a).
Proof.
  intros Hf d. induction l as [|x l IH]; intros a; simpl; [reflexivity|].
  rewrite (Hf x d a). apply IH.
Qed.

Lemma ignores_if (b : bool) (f g : Analyzer -> Analyzer) :
  ignores_blocks f -> ignores_blocks g ->
  ignores_blocks (fun a => if b then f a else g a).
Proof. destruct b; auto. Qed.

Lemma ignores_id : ignores_blocks (fun a => a).
Proof. intros d a. reflexivity. Qed.

Lemma ignores_compose (f g : Analyzer -> Analyzer) :
  ignores_blocks f -> ignores_blocks g -> ignores_blocks (fun a => g (f a)).
Proof. intros Hf Hg d a. now rewrite Hf, Hg. Qed.

Lemma ignores_ret {A} (x : A) : ignores_blocks_M (ret x).
Proof. intros d a. reflexivity. Qed.

Lemma ignores_raise {A} (e : exn) : ignores_blocks_M (@raise A e).
Proof. intros d a. reflexivity. Qed.

Lemma ignores_modify (f : Analyzer -> Analyzer) :
  ignores_blocks f -> ignores_blocks_M (modify f).
Proof. intros Hf d a. unfold modify. now rewrite Hf. Qed.

Lemma ignores_bind {A B} (m : M A) (k : A -> M B) :
  ignores_blocks_M m -> (forall x, ignores_blocks_M (k x)) ->
  ignores_blocks_M (bind m k).
Proof.
  intros Hm Hk d a. unfold bind. rewrite Hm.
  destruct (m a) as [[x | e] a1]; cbn [fst snd]; [apply Hk | reflexivity].
Qed.

Lemma ignores_for_each {A} (l : list A) (body : A -> M unit) :
  (forall x, ignores_blocks_M (body x)) -> ignores_blocks_M (for_each l body).
Proof.
  intros Hbody. induction l as [|x l IH]; cbn [for_each].
  - apply ignores_ret.
  - apply ignores_bind; [apply Hbody | intros _; apply IH].
Qed.

Lemma ignores_if_M {A} (b : bool) (m1 m2 : M A) :
  ignores_blocks_M m1 -> ignores_blocks_M m2 ->
  ignores_blocks_M (if b then m1 else m2).
Proof. destruct b; auto. Qed.

Lemma ignores_snd {A} (m : M A) :
  ignores_blocks_M m -> ignores_blocks (fun a => snd (m a)).
Proof. intros Hm d a. now rewrite Hm. Qed.

Lemma ignores_add_code_smell (file : string) (i : Issue) :
  ignores_blocks (add_code_smell file i).
Proof. intros d a. reflexivity. Qed.

Lemma ignores_check_python_nesting (fr : nat) :
  forall n func_name file depth,
    ignores_blocks_M (check_python_nesting fr n func_name file depth).
Proof.
  induction fr as [|fr IH]; intros n func_name file depth.
  - apply ignores_raise.
  - rewrite check_python_nesting_step. apply ignores_bind.
    + apply ignores_if_M; [|apply ignores_ret].
      apply ignores_modify, ignores_add_code_smell.
    + intros _. apply ignores_for_each. intros child. apply IH.
Qed.

Lemma ignores_analyze_python_functions `{Runtime} (tree : node)
    (file : string) :
  ignores_blocks_M (analyze_python_functions tree file).
Proof.
  unfold analyze_python_functions. apply ignores_for_each. intros n.
  assert (Hfun : forall name fargs body_len,
            ignores_blocks_M (analyze_function file n name fargs body_len)).
  { intros name fargs body_len. unfold analyze_function.
    apply ignores_bind.
    { unfold params_count_of. destruct has_posonlyargs;
        [apply ignores_ret | apply ignores_raise]. }
    intros params.
    repeat (apply ignores_bind; [|intros _]);
      try (apply ignores_if_M; [|apply ignores_ret];
           apply ignores_modify, ignores_add_code_smell).
    - apply ignores_modify. intros d a. reflexivity.
    - apply ignores_check_python_nesting. }
  destruct (cls n); try apply ignores_ret; apply Hfun.
Qed.

Lemma ignores_analyze_python_imports (tree : node) (file : string) :
  ignores_blocks (analyze_python_imports tree file).
Proof.
  unfold analyze_python_imports. apply ignores_fold. intros n.
  destruct (cls n); try apply ignores_id.
  - apply ignores_fold. intros name d a. reflexivity.
  - destruct module as [m|]; [|apply ignores_id].
    destruct (String.eqb m ""); [apply ignores_id|].
    intros d a. reflexivity.
Qed.

Lemma ignores_apply_regex_patterns `{Runtime} (patterns : list Pattern)
    (file content : string) :
  ignores_blocks (apply_regex_patterns patterns file content).
Proof.
  unfold apply_regex_patterns. apply ignores_fold. intros p.
  apply ignores_fold. intros m d a. reflexivity.
Qed.

Lemma ignores_regex_fallback `{Runtime} (file content : string) (e : exn) :
  ignores_blocks (regex_fallback file content e).
Proof.
  intros d a. unfold regex_fallback, analyze_python_with_regex.
  change (add_style_issue file (failure_issue e) (set_duplicated_blocks d a))
    with (set_duplicated_blocks d (add_style_issue file (failure_issue e) a)).
  rewrite (ignores_fold _ PYTHON_ANTI_PATTERNS).
  - apply ignores_fold. intros m d0 a0.
    destruct (String.eqb _ ""); reflexivity.
  - intros p. apply ignores_fold. intros m d0 a0. reflexivity.
Qed.

Lemma ignores_analyze_python_file `{Runtime} (file content : string) :
  ignores_blocks (fun a => snd (analyze_python_file file content a)).
Proof.
  intros d a. unfold analyze_python_file.
  destruct (ast_parse content) as [tree | e]; cbn [snd].
  - rewrite ignores_analyze_python_imports.
    rewrite ignores_analyze_python_functions.
    destruct (analyze_python_functions tree file
                (analyze_python_imports tree file a)) as [[[] | e] a2];
      cbn [fst snd].
    + apply ignores_apply_regex_patterns.
    + apply ignores_regex_fallback.
  - apply ignores_regex_fallback.
Qed.

Lemma ignores_analyze_js_file `{Runtime} (file content : string) :
  ignores_blocks (analyze_js_file file content).
Proof.
  intros d a. unfold analyze_js_file.
  rewrite (ignores_fold _ JS_ANTI_PATTERNS).
  - rewrite ignores_fold by (intros m d0 a0; reflexivity).
    apply ignores_fold. intros m d0 a0. reflexivity.
  - intros p. apply ignores_fold. intros m d0 a0. reflexivity.
Qed.

Lemma ignores_long_lines (file : string) (lines : list string) :
  forall i, ignores_blocks (long_lines_loop file lines i).
Proof.
  induction lines as [|line lines IH]; intros i d a; cbn [long_lines_loop];
    [reflexivity|].
  rewrite <- IH. f_equal. destruct (100 <? _); reflexivity.
Qed.

Lemma ignores_rules `{Runtime} (rules : list Rule)
    (add : string -> Issue -> Analyzer -> Analyzer)
    (file content language : string) :
  (forall f i, ignores_blocks (add f i)) ->
  ignores_blocks (fun a =>
    fold_left (fun a rule =>
      if rule_skipped rule language then a
      else match r_regex rule with
           | Some regex =>
               fold_left (fun a m => add file (match_issue rule content m) a)
                 (re_finditer regex content) a
           | None => a
           end) rules a).
Proof.
  intros Hadd. apply ignores_fold. intros rule.
  destruct (rule_skipped rule language); [apply ignores_id|].
  destruct (r_regex rule); [|apply ignores_id].
  apply ignores_fold. intros m. apply Hadd.
Qed.

Lemma ignores_analyze_generic `{Runtime} (file content language : string) :
  ignores_blocks_M (analyze_generic file content language).
Proof.
  destruct (analyze_generic_run file content language)
    as (in_block & commented & Hrun).
  intros d a. rewrite !Hrun. cbn [fst snd]. f_equal.
  rewrite ignores_long_lines.
  unfold report_commented_code.
  rewrite (ignores_fold _ commented) by (intros block d0 a0; reflexivity).
  unfold security_loop.
  rewrite (ignores_rules SECURITY_VULNERABILITIES add_security_issue)
    by (intros f i d0 a0; reflexivity).
  unfold performance_loop.
  rewrite (ignores_rules PERFORMANCE_ISSUES add_performance_issue)
    by (intros f i d0 a0; reflexivity).
  reflexivity.
Qed.

Lemma ignores_analyze_content `{Runtime} (file content language : string) :
  ignores_blocks_M (analyze_content file content language).
Proof.
  intros d a. unfold analyze_content.
  destruct (String.eqb language "Python").
  - rewrite (ignores_analyze_python_file file content d a).
    apply ignores_analyze_generic.
  - destruct (str_in language ["JavaScript"; "TypeScript"]).
    + rewrite ignores_analyze_js_file. apply ignores_analyze_generic.
    + apply ignores_analyze_generic.
Qed.

(** *** The table of hashed windows *)

Lemma fold_left_flat_map {A B C} (f : A -> C -> A) (g : B -> list C)
    (l : list B) (a : A) :
  fold_left f (flat_map g l) a
  = fold_left (fun a x => fold_left f (g x) a) l a.
Proof.
  revert a. induction l as [|x l IH]; intros a; simpl; [reflexivity|].
  now rewrite fold_left_app, IH.
Qed.

Lemma fold_left_same {A B} (f g : A -> B -> A) (l : list B) (a : A) :
  (forall a x, f a x = g a x) -> fold_left f l a = fold_left g l a.
Proof.
  intros Hfg. revert a. induction l as [|x l IH]; intros a; simpl;
    [reflexivity|].
  now rewrite Hfg, IH.
Qed.

Lemma check_duplicated_code_windows (hash : string -> Z)
    (file content language : string) (d : dict Z (list Occurrence))
    (a : Analyzer) :
  check_duplicated_code hash file content language (set_duplicated_blocks d a)
  = set_duplicated_blocks
      (insert_windows hash (windows_of file content language) d) a.
Proof.
  unfold check_duplicated_code, insert_windows, windows_of.
  cbn [duplicated_blocks set_duplicated_blocks].
  rewrite fold_left_flat_map.
  rewrite (fold_left_same
             (window_step hash file (clean_lines_of content language))
             (fun d0 i =>
                fold_left (fun d1 w => dd_append d1 (hash (fst w)) (snd w))
                  (if too_simple (window (clean_lines_of content language) i)
                   then []
                   else [(window (clean_lines_of content language) i,
                          {| occ_file := file;
                             occ_start_line := Z.of_nat i + 1;
                             occ_end_line := Z.of_nat i + min_block_size;
                             occ_content :=
                               window (clean_lines_of content language) i |})])
                  d0)).
  - reflexivity.
  - intros d0 i. unfold window_step.
    destruct (too_simple _); reflexivity.
Qed.

Lemma insert_windows_app (hash : string -> Z)
    (ws1 ws2 : list (string * Occurrence)) (d : dict Z (list Occurrence)) :
  insert_windows hash (ws1 ++ ws2) d
  = insert_windows hash ws2 (insert_windows hash ws1 d).
Proof. unfold insert_windows. apply fold_left_app. Qed.

(** The pass over one file leaves the same analyzer whatever the hash,
    but for the table of hashed windows, which receives the windows of the
    file. *)
Lemma analyze_file_split `{Runtime} (f : SourceFile) (a : Analyzer) :
  exists x,
    forall hash d,
      analyze_file hash f (set_duplicated_blocks d a)
      = set_duplicated_blocks (insert_windows hash (file_windows f) d) x.
Proof.
  unfold analyze_file, file_windows.
  destruct (String.eqb (language_of (sf_path f)) "Unknown").
  { exists a. reflexivity. }
  destruct (sf_content f) as [content|]; [|exists a; reflexivity].
  destruct (analyze_generic_run (sf_path f) content (language_of (sf_path f)))
    as (in_block & commented & Hrun).
  exists (snd (analyze_content (sf_path f) content (language_of (sf_path f)) a)).
  intros hash d. rewrite ignores_analyze_content.
  assert (Hok : fst (analyze_content (sf_path f) content
                       (language_of (sf_path f)) a) = Ok tt).
  { unfold analyze_content. now rewrite Hrun. }
  rewrite Hok. apply check_duplicated_code_windows.
Qed.

Lemma analyze_files_split `{Runtime} (files : list SourceFile) :
  forall a,
    exists x,
      forall hash d,
        fold_left (fun a f => analyze_file hash f a) files
          (set_duplicated_blocks d a)
        = set_duplicated_blocks
            (insert_windows hash (flat_map file_windows files) d) x.
Proof.
  induction files as [|f files IH]; intros a.
  - exists a. reflexivity.
  - destruct (analyze_file_split f a) as (x1 & H1).
    destruct (IH x1) as (x2 & H2).
    exists x2. intros hash d. cbn [fold_left flat_map].
    now rewrite H1, H2, insert_windows_app.
Qed.

(** *** Hash values only name the groups *)

Lemma relabel_dd_append (hash : string -> Z)
    (d : dict string (list Occurrence)) (b : string) (o : Occurrence) :
  (forall k, In k (dict_keys d) -> hash k = hash b -> k = b) ->
  dd_append (relabel hash d) (hash b) o = relabel hash (dd_append d b o).
Proof.
  induction d as [|[k v] d IH]; intros Hinj; [reflexivity|].
  cbn [relabel map fst snd]. rewrite !dd_append_cons.
  change (@keqb Z KeyEq_Z (hash k) (hash b)) with (hash k =? hash b).
  change (@keqb string KeyEq_string k b) with (String.eqb k b).
  destruct (String.eqb_spec k b) as [-> | Hne].
  - now rewrite Z.eqb_refl.
  - destruct (Z.eqb_spec (hash k) (hash b)) as [Heq | _].
    + exfalso. apply Hne. apply Hinj; [now left | exact Heq].
    + unfold relabel in *. cbn [map fst snd]. f_equal. apply IH.
      intros k' Hk'. apply Hinj. now right.
Qed.

Lemma dict_keys_dd_append {A} (d : dict string (list A)) (b : string)
    (o : A) (k : string) :
  In k (dict_keys (dd_append d b o)) -> k = b \/ In k (dict_keys d).
Proof.
  induction d as [|[k' v] d IH]; [simpl; intuition|].
  rewrite dd_append_cons. destruct (keqb k' b); simpl; [intuition|].
  intros [-> | Hk]; [intuition|]. apply IH in Hk. intuition.
Qed.

Lemma insert_windows_relabel (hash : string -> Z)
    (ws : list (string * Occurrence)) :
  forall d : dict string (list Occurrence),
    (forall b1 b2,
       In b1 (dict_keys d ++ map fst ws) ->
       In b2 (dict_keys d ++ map fst ws) ->
       hash b1 = hash b2 -> b1 = b2) ->
    insert_windows hash ws (relabel hash d)
    = relabel hash (insert_by_content ws d).
Proof.
  induction ws as [|[b o] ws IH]; intros d Hinj; [reflexivity|].
  cbn [insert_windows insert_by_content fold_left fst snd].
  rewrite relabel_dd_append.
  - apply IH. intros b1 b2 H1 H2. apply Hinj.
    + apply in_app_or in H1. apply in_or_app.
      destruct H1 as [H1 | H1]; [|right; now right].
      apply dict_keys_dd_append in H1.
      destruct H1 as [-> | H1]; [right; now left | now left].
    + apply in_app_or in H2. apply in_or_app.
      destruct H2 as [H2 | H2]; [|right; now right].
      apply dict_keys_dd_append in H2.
      destruct H2 as [-> | H2]; [right; now left | now left].
  - intros k Hk. apply Hinj; apply in_or_app; [now left | right; now left].
Qed.

Lemma collision_free_injective (hash : string -> Z) (files : list SourceFile) :
  collision_free hash files = true ->
  forall b1 b2,
    In b1 (project_blocks files) -> In b2 (project_blocks files) ->
    hash b1 = hash b2 -> b1 = b2.
Proof.
  unfold collision_free. intros Hfree b1 b2 H1 H2 Heq.
  rewrite forallb_forall in Hfree. specialize (Hfree b1 H1).
  rewrite forallb_forall in Hfree. specialize (Hfree b2 H2).
  rewrite Heq, Z.eqb_refl in Hfree. now apply String.eqb_eq.
Qed.

Lemma relabel_values (hash : string -> Z) (d : dict string (list Occurrence)) :
  map snd (relabel hash d) = map snd d.
Proof. unfold relabel. rewrite map_map. reflexivity. Qed.

(** Without collisions, the groups and their order are those of the
    blocks themselves. *)
Lemma hashed_groups (hash : string -> Z) (files : list SourceFile) :
  collision_free hash files = true ->
  map snd (insert_windows hash (flat_map file_windows files) [])
  = map snd (insert_by_content (flat_map file_windows files) []).
Proof.
  intros Hfree.
  change (@nil (Z * list Occurrence)) with (relabel hash []).
  rewrite insert_windows_relabel, relabel_values; [reflexivity|].
  cbn [dict_keys map app]. now apply collision_free_injective.
Qed.

(** *** The report of the duplicates and the metrics *)

Lemma smell_duplicate_files_ignores (locations : list Location)
    (lines n_locations : Z) :
  forall files_smelled d a,
    smell_duplicate_files locations lines n_locations files_smelled
      (set_duplicated_blocks d a)
    = set_duplicated_blocks d
        (smell_duplicate_files locations lines n_locations files_smelled a).
Proof.
  induction locations as [|l locations IH]; intros files_smelled d a;
    cbn [smell_duplicate_files]; [reflexivity|].
  destruct (str_in (file_path l) files_smelled); [apply IH|].
  rewrite <- IH. reflexivity.
Qed.

Lemma dup_group_step_split (occurrences : list Occurrence)
    (final : list ReportBlock) (reported : list loc_tuple) (a : Analyzer) :
  exists final1 reported1 a1,
    forall k d,
      dup_group_step (final, reported, set_duplicated_blocks d a)
        (k, occurrences)
      = (final1, reported1, set_duplicated_blocks d a1).
Proof.
  unfold dup_group_step. cbn [snd].
  destruct (1 <? len occurrences); [|now exists final, reported, a].
  destruct occurrences as [|rep occs]; [now exists final, reported, a|].
  destruct (occ_end_line rep - occ_start_line rep + 1 <? 5);
    [now exists final, reported, a|].
  destruct (collect_locations (rep :: occs) [] reported) as [locs reported1].
  destruct (1 <? len locs).
  - eexists _, reported1, _. intros k d.
    rewrite smell_duplicate_files_ignores. reflexivity.
  - now exists final, reported1, a.
Qed.

Lemma dup_loop_split (groups : list (list Occurrence)) :
  forall final reported a,
    exists final' reported' a',
      forall items d,
        map snd items = groups ->
        fold_left dup_group_step items
          (final, reported, set_duplicated_blocks d a)
        = (final', reported', set_duplicated_blocks d a').
Proof.
  induction groups as [|occurrences groups IH]; intros final reported a.
  - exists final, reported, a. intros items d Hitems.
    apply map_eq_nil in Hitems. now subst.
  - destruct (dup_group_step_split occurrences final reported a)
      as (final1 & reported1 & a1 & Hstep).
    destruct (IH final1 reported1 a1) as (final' & reported' & a' & Hloop).
    exists final', reported', a'. intros items d Hitems.
    destruct items as [|[k occs] items]; [discriminate|].
    cbn [map snd] in Hitems. inversion Hitems; subst.
    cbn [fold_left]. rewrite Hstep. now apply Hloop.
Qed.

(** The report of the duplicates depends on the groups and their order,
    not on the hash values that name them. *)
Lemma analyze_duplicated_code_split (groups : list (list Occurrence))
    (x : Analyzer) :
  exists y,
    forall d,
      map snd d = groups ->
      analyze_duplicated_code (set_duplicated_blocks d x)
      = set_duplicated_blocks d y.
Proof.
  destruct (dup_loop_split groups [] [] x) as (final & reported & a' & Hloop).
  exists (set_duplicated_code (sort_desc final) a'). intros d Hd.
  unfold analyze_duplicated_code.
  cbn [duplicated_blocks set_duplicated_blocks].
  now rewrite (Hloop d d Hd).
Qed.

Lemma calculate_project_metrics_ignores (d : dict Z (list Occurrence))
    (a : Analyzer) :
  output_of (calculate_project_metrics (set_duplicated_blocks d a))
  = output_of (calculate_project_metrics a).
Proof.
  unfold calculate_project_metrics.
  cbn [file_metrics set_duplicated_blocks].
  destruct (file_metrics a) as [|p rest]; [reflexivity|].
  change (all_functions (set_duplicated_blocks d a)) with (all_functions a).
  change (total_debt_hours (set_duplicated_blocks d a))
    with (total_debt_hours a).
  cbn [code_smells security_issues performance_issues style_issues
       duplicated_code set_duplicated_blocks].
  unfold bind_result.
  repeat match goal with
         | |- context [match ?x with Ok _ => _ | Raise _ => _ end] =>
             destruct x; try reflexivity
         end.
Qed.

(** C8, as the code has it: a run is deterministic up to collisions of
    the string hash. Two runs over the same files give the same analyzer,
    save for the table of hashed windows itself: the same Findings in the
    same order, the same function metrics, the same reported duplicate
    blocks and the same project metrics. The runs may differ in the
    string hash of the interpreter, which is seeded anew for every
    process, as long as neither hash makes two different windows of the
    project collide: the hash values are then only keys of a dictionary
    that is read in insertion order. *)
Theorem run_is_deterministic `{Runtime} (files : list SourceFile)
    (hash1 hash2 : string -> Z) :
  collision_free hash1 files = true ->
  collision_free hash2 files = true ->
  output_of (analyze_project hash1 files)
  = output_of (analyze_project hash2 files).
Proof.
  intros Hfree1 Hfree2. unfold analyze_project.
  destruct (analyze_files_split files init) as (x & Hfiles).
  change init with (set_duplicated_blocks [] init).
  rewrite !Hfiles.
  destruct (analyze_duplicated_code_split
              (map snd (insert_by_content (flat_map file_windows files) []))
              x) as (y & Hdup).
  rewrite (Hdup _ (hashed_groups hash1 files Hfree1)).
  rewrite (Hdup _ (hashed_groups hash2 files Hfree2)).
  now rewrite !calculate_project_metrics_ignores.
Qed.

Lemma run_is_deterministic_witness :
  output_of (@analyze_project (Examples.python3 Examples.parse_statements)
               (Examples.digits_hash 257 0) Examples.two_copies)
  = output_of (@analyze_project (Examples.python3 Examples.parse_statements)
                 (Examples.digits_hash 263 17) Examples.two_copies).
Proof.
  apply (@run_is_deterministic (Examples.python3 Examples.parse_statements)
           Examples.two_copies
           (Examples.digits_hash 257 0) (Examples.digits_hash 263 17)).
  - vm_compute. reflexivity.
  - vm_compute. reflexivity.
Defined.

(** C8 as the specification words it does not hold: [hash(block)] of
    line 895 is the interpreter's string hash, and a run in which it
    gives two different windows the same value reports them as one
    duplicated block. For one file of six statements a run without
    collision reports no block, no smell and a debt of 0 hours; a run in
    which the two windows collide reports one block with the locations
    1-5 and 2-6, one [duplicate_code] smell and a debt of 4 + 3 = 7
    hours. *)
Lemma colliding_hash_changes_report :
  collision_free (Examples.digits_hash 257 0) Collision.six_statements = true
  /\ collision_free Collision.constant_hash Collision.six_statements = false
  /\ (exists a1 pm1 a2 pm2,
        @analyze_project Examples.small_runtime (Examples.digits_hash 257 0)
          Collision.six_statements = Ok a1
        /\ @analyze_project Examples.small_runtime Collision.constant_hash
             Collision.six_statements = Ok a2
        /\ duplicated_code a1 = []
        /\ code_smells a1 = []
        /\ complexity_metrics a1 = Some pm1
        /\ (technical_debt_hours pm1 == 0)%Q
        /\ map rb_files (duplicated_code a2)
           = [[mkLocation "src/steps.rb" 1 5; mkLocation "src/steps.rb" 2 6]]
        /\ map (fun kv => (fst kv, map i_type (snd kv))) (code_smells a2)
           = [("src/steps.rb", ["duplicate_code"])]
        /\ complexity_metrics a2 = Some pm2
        /\ (technical_debt_hours pm2 == 7)%Q)
  /\ output_of (@analyze_project Examples.small_runtime
                  (Examples.digits_hash 257 0) Collision.six_statements)
     <> output_of (@analyze_project Examples.small_runtime
                     Collision.constant_hash Collision.six_statements).
Proof.
  split; [vm_compute; reflexivity|].
  split; [vm_compute; reflexivity|].
  split.
  - eexists; eexists; eexists; eexists.
    split; [vm_compute; reflexivity|].
    split; [vm_compute; reflexivity|].
    repeat split; reflexivity.
  - vm_compute. discriminate.
Qed.

(** The run over the two copies: one reported block of five lines with
    the two locations, one [duplicate_code] smell for each file, and a
    technical debt of 2 * 4 + 3 = 11 hours. *)
Example two_copies_run :
  exists a pm,
    @analyze_project (Examples.python3 Examples.parse_statements)
      (Examples.digits_hash 257 0) Examples.two_copies = Ok a
    /\ map rb_lines (duplicated_code a) = [5]
    /\ map rb_files (duplicated_code a)
       = [[mkLocation "src/a.py" 1 5; mkLocation "src/b.py" 1 5]]
    /\ map (fun kv => (fst kv, map i_type (snd kv))) (code_smells a)
       = [("src/a.py", ["duplicate_code"]); ("src/b.py", ["duplicate_code"])]
    /\ complexity_metrics a = Some pm
    /\ (technical_debt_hours pm == 11)%Q.
Proof.
  eexists; eexists. split; [vm_compute; reflexivity|].
  repeat split; reflexivity.
Qed.

(** ** The example projects are runs *)

(** The analyzers used in the examples of C1 are what the passes over the
    files leave. *)
Example long_comment_project_run :
  fold_left (fun a f => @analyze_file Examples.small_runtime
                          (Examples.digits_hash 257 0) f a)
    [mkSourceFile "a.py" (Some Examples.long_comment_source)] init
  = Examples.long_comment_project.
Proof. vm_compute. reflexivity. Qed.

Example hunter2_project_run :
  fold_left (fun a f => @analyze_file Examples.small_runtime
                          (Examples.digits_hash 257 0) f a)
    [mkSourceFile "config.py" (Some Examples.hunter2_source)] init
  = Examples.hunter2_project.
Proof. vm_compute. reflexivity. Qed.

(** A run over no file at all leaves the metrics dictionary empty. *)
Example empty_project_run :
  @analyze_project Examples.small_runtime (Examples.digits_hash 257 0) []
  = Ok init.
Proof. reflexivity. Qed.

(** ** The nesting check on arbitrary trees *)

Lemma height_unfold (n : node) : height n = S (forest_height (children n)).
Proof. destruct n; reflexivity. Qed.

Lemma nesting_issues_unfold (name : string) (depth : Z) (n : node) :
  nesting_issues name depth n
  = (if is_control (cls n)
        && (4 <? (if is_control (cls n) then depth + 1 else depth))
     then [deep_nesting_issue name
             (if is_control (cls n) then depth + 1 else depth) (lineno n)]
     else [])
    ++ flat_map (nesting_issues name
                   (if is_control (cls n) then depth + 1 else depth))
         (children n).
Proof. destruct n; reflexivity. Qed.

Lemma add_code_smells_app (file : string) (l1 l2 : list Issue) (a : Analyzer) :
  add_code_smells file (l1 ++ l2) a
  = add_code_smells file l2 (add_code_smells file l1 a).
Proof. unfold add_code_smells. apply fold_left_app. Qed.

Lemma for_each_check_run (fr : nat) (name file : string) (depth : Z)
    (ch : list node) :
  (forall c a, In c ch -> (height c <= fr)%nat ->
     check_python_nesting fr c name file depth a
     = (Ok tt, add_code_smells file (nesting_issues name depth c) a)) ->
  forall a,
    (forest_height ch <= fr)%nat ->
    for_each ch (fun child => check_python_nesting fr child name file depth) a
    = (Ok tt,
       add_code_smells file (flat_map (nesting_issues name depth) ch) a).
Proof.
  induction ch as [|c ch IH]; intros Hc a Hh; [reflexivity|].
  cbn [forest_height fold_right] in Hh.
  cbn [for_each flat_map]. unfold bind.
  rewrite Hc; [|now left|lia].
  rewrite add_code_smells_app. apply IH.
  - intros c' a' Hin. apply Hc. now right.
  - unfold forest_height. lia.
Qed.

(** With frames enough for the height of the tree the nesting check
    returns, and adds the issues of the tree in depth-first order. *)
Lemma check_python_nesting_run (fr : nat) :
  forall (n : node) (name file : string) (depth : Z) (a : Analyzer),
    (height n <= fr)%nat ->
    check_python_nesting fr n name file depth a
    = (Ok tt, add_code_smells file (nesting_issues name depth n) a).
Proof.
  induction fr as [|fr IH]; intros n name file depth a Hh.
  - rewrite height_unfold in Hh. lia.
  - rewrite check_python_nesting_step, nesting_issues_unfold.
    rewrite height_unfold in Hh.
    rewrite add_code_smells_app. unfold bind at 1.
    destruct (is_control (cls n) && _).
    + cbn [modify]. apply for_each_check_run; [|lia].
      intros c a' _ Hc. now apply IH.
    + cbn [ret]. apply for_each_check_run; [|lia].
      intros c a' _ Hc. now apply IH.
Qed.

Lemma for_each_check_overflow (fr : nat) (name file : string) (depth : Z)
    (ch : list node) :
  (forall c a, In c ch -> (fr < height c)%nat ->
     fst (check_python_nesting fr c name file depth a) = Raise RecursionError) ->
  forall a,
    (fr < forest_height ch)%nat ->
    fst (for_each ch
           (fun child => check_python_nesting fr child name file depth) a)
    = Raise RecursionError.
Proof.
  induction ch as [|c ch IH]; intros Hbad a Hh.
  - cbn in Hh. lia.
  - cbn [forest_height fold_right] in Hh. cbn [for_each]. unfold bind.
    destruct (le_lt_dec (height c) fr) as [Hc | Hc].
    + rewrite check_python_nesting_run by exact Hc.
      apply IH.
      * intros c' a' Hin. apply Hbad. now right.
      * unfold forest_height. lia.
    + pose proof (Hbad c a (or_introl eq_refl) Hc) as Hc1.
      destruct (check_python_nesting fr c name file depth a) as [[[]|e] a1];
        cbn [fst] in Hc1; [discriminate|exact Hc1].
Qed.

(** With fewer frames than the height of the tree the nesting check
    raises [RecursionError]. *)
Lemma check_python_nesting_overflow (fr : nat) :
  forall (n : node) (name file : string) (depth : Z) (a : Analyzer),
    (fr < height n)%nat ->
    fst (check_python_nesting fr n name file depth a) = Raise RecursionError.
Proof.
  induction fr as [|fr IH]; intros n name file depth a Hh; [reflexivity|].
  rewrite check_python_nesting_step. rewrite height_unfold in Hh.
  unfold bind at 1.
  destruct (is_control (cls n) && _); cbn [modify ret];
    (apply for_each_check_overflow; [|lia]);
    intros c a' _ Hc; now apply IH.
Qed.

Lemma code_smells_add_code_smells (file f : string) (issues : list Issue) :
  forall a,
    dict_get (code_smells (add_code_smells file issues a)) f []
    = dict_get (code_smells a) f []
      ++ (if String.eqb file f then issues else []).
Proof.
  induction issues as [|i issues IH]; intros a.
  - cbn. destruct (String.eqb file f); now rewrite app_nil_r.
  - unfold add_code_smells in *. cbn [fold_left]. rewrite IH.
    unfold add_code_smell. destruct a; cbn [code_smells set_code_smells].
    rewrite dict_get_dd_append. cbn [keqb KeyEq_string].
    destruct (String.eqb file f); rewrite <- app_assoc; reflexivity.
Qed.

Lemma only_smells_add_code_smells (file : string) (issues : list Issue) :
  forall a, only_smells a (add_code_smells file issues a).
Proof.
  induction issues as [|i issues IH]; intros a.
  - apply only_smells_refl.
  - unfold add_code_smells in *. cbn [fold_left].
    eapply only_smells_trans; [apply only_smells_add | apply IH].
Qed.

(** X1: with at least as many frames as the tree is high,
    [_check_python_nesting] returns. It writes code smells only: it
    appends to those of the file the deep-nesting issues of the tree in
    depth-first order, one for every control statement whose nesting
    level, counted from the given depth, is above 4, and leaves the
    smells of every other file as they are. *)
Theorem nesting_check_of_tree (fr : nat) (n : node) (name file : string)
    (depth : Z) (a : Analyzer) :
  (height n <= fr)%nat ->
  exists a',
    check_python_nesting fr n name file depth a = (Ok tt, a')
    /\ only_smells a a'
    /\ dict_get (code_smells a') file []
       = dict_get (code_smells a) file [] ++ nesting_issues name depth n
    /\ forall f, f <> file ->
         dict_get (code_smells a') f [] = dict_get (code_smells a) f [].
Proof.
  intros Hh. eexists. split; [now apply check_python_nesting_run|].
  split; [apply only_smells_add_code_smells|].
  split.
  - rewrite code_smells_add_code_smells. now rewrite String.eqb_refl.
  - intros f Hf. rewrite code_smells_add_code_smells.
    destruct (String.eqb_spec file f); [congruence|apply app_nil_r].
Qed.

Lemma nesting_check_of_tree_witness :
  exists a',
    check_python_nesting 990 (Examples.nested_function "f" 6) "f" "deep.py" 0
      init = (Ok tt, a')
    /\ only_smells init a'
    /\ dict_get (code_smells a') "deep.py" []
       = dict_get (code_smells init) "deep.py" []
         ++ nesting_issues "f" 0 (Examples.nested_function "f" 6)
    /\ forall f, f <> "deep.py" ->
         dict_get (code_smells a') f [] = dict_get (code_smells init) f [].
Proof.
  apply (nesting_check_of_tree 990 (Examples.nested_function "f" 6) "f"
           "deep.py" 0 init).
  apply Nat.leb_le. vm_compute. reflexivity.
Defined.

(** X2: [_check_python_nesting] returns when the frames left suffice for
    the height of the tree and raises [RecursionError] when they do not;
    it raises nothing else. *)
Theorem nesting_check_outcome (fr : nat) (n : node) (name file : string)
    (depth : Z) (a : Analyzer) :
  fst (check_python_nesting fr n name file depth a)
  = if (height n <=? fr)%nat then Ok tt else Raise RecursionError.
Proof.
  destruct (Nat.leb_spec (height n) fr) as [Hh | Hh].
  - now rewrite check_python_nesting_run.
  - now apply check_python_nesting_overflow.
Qed.

(** ** The function pass on arbitrary trees *)

Section FunctionPass.
Context `{Runtime}.
Variable file : string.

(** The analyzer after the analysis of one function definition. *)
Lemma analyze_function_run (n : node) (name : string) (fargs : arguments)
    (body_len : Z) (a : Analyzer) :
  function_def n = Some (name, fargs, body_len) ->
  has_posonlyargs = true ->
  (height n <= frames)%nat ->
  analyze_function file n name fargs body_len a
  = (Ok tt,
     add_code_smells file (nesting_issues name 0 n)
       (store_function_metric file (function_key n) (function_metric_of n)
          (add_code_smells file (threshold_smells n) a))).
Proof.
  intros Hdef Hpos Hh.
  unfold analyze_function, params_count_of, threshold_smells, function_key,
    function_metric_of.
  rewrite Hdef, Hpos. fold (params_total fargs).
  unfold bind at 1. cbn [ret].
  unfold too_many_parameters_issue, long_function_issue,
    high_complexity_issue.
  destruct (5 <? params_total fargs), (50 <? lines_of_code_of n body_len),
    (10 <? complexity_of n);
    unfold bind, modify, ret; cbn [app add_code_smells fold_left];
    now rewrite check_python_nesting_run.
Qed.

Lemma analyze_function_old_python (n : node) (name : string)
    (fargs : arguments) (body_len : Z) (a : Analyzer) :
  has_posonlyargs = false ->
  analyze_function file n name fargs body_len a
  = (Raise (AttributeError
              "'arguments' object has no attribute 'posonlyargs'"), a).
Proof.
  intros Hpos. unfold analyze_function, params_count_of. now rewrite Hpos.
Qed.

Lemma analyze_function_overflow (n : node) (name : string)
    (fargs : arguments) (body_len : Z) (a : Analyzer) :
  has_posonlyargs = true ->
  (frames < height n)%nat ->
  fst (analyze_function file n name fargs body_len a) = Raise RecursionError.
Proof.
  intros Hpos Hh. unfold analyze_function, params_count_of. rewrite Hpos.
  unfold bind at 1. cbn [ret].
  destruct (5 <? _), (50 <? lines_of_code_of n body_len),
    (10 <? complexity_of n);
    unfold bind, modify, ret;
    now apply check_python_nesting_overflow.
Qed.

Lemma function_pass_body_other (n : node) :
  function_def n = None -> function_pass_body file n = ret tt.
Proof.
  unfold function_def, function_pass_body. now destruct (cls n).
Qed.

Lemma function_pass_body_def (n : node) (name : string) (fargs : arguments)
    (body_len : Z) :
  function_def n = Some (name, fargs, body_len) ->
  function_pass_body file n = analyze_function file n name fargs body_len.
Proof.
  unfold function_def, function_pass_body.
  destruct (cls n); intros E; inversion E; subst; reflexivity.
Qed.

(** Whether the loop over the nodes returns or raises, and what. *)
Lemma for_each_outcome (l : list node) :
  forall a,
    fst (for_each l (function_pass_body file) a)
    = defs_outcome (filter is_function_def l).
Proof.
  induction l as [|n l IH]; intros a; [reflexivity|].
  cbn [for_each filter]. unfold bind, is_function_def at 1.
  destruct (function_def n) as [[[name fargs] body_len]|] eqn:Hdef.
  - rewrite (function_pass_body_def _ _ _ _ Hdef).
    unfold defs_outcome. cbn [forallb].
    destruct has_posonlyargs eqn:Hpos.
    + destruct (Nat.leb_spec (height n) frames) as [Hh | Hh].
      * rewrite (analyze_function_run _ _ _ _ _ Hdef Hpos Hh).
        rewrite IH. unfold defs_outcome. rewrite Hpos. cbn [andb].
        now destruct (filter is_function_def l).
      * pose proof (analyze_function_overflow n name fargs body_len a Hpos Hh)
          as E.
        destruct (analyze_function file n name fargs body_len a)
          as [[[]|e] a1]; cbn [fst] in E; [discriminate|].
        cbn [andb fst]. exact E.
    + now rewrite analyze_function_old_python.
  - rewrite (function_pass_body_other _ Hdef). cbn [ret]. apply IH.
Qed.

(** The code smells after a loop over the nodes that returns. *)
Lemma for_each_smells (l : list node) :
  forall a a',
    for_each l (function_pass_body file) a = (Ok tt, a') ->
    forall f,
      dict_get (code_smells a') f []
      = dict_get (code_smells a) f []
        ++ (if String.eqb file f then flat_map function_smells l else []).
Proof.
  induction l as [|n l IH]; intros a a' E f.
  - inversion E; subst. destruct (String.eqb file f); now rewrite app_nil_r.
  - cbn [for_each flat_map] in *. unfold bind in E.
    unfold function_smells at 1.
    destruct (function_def n) as [[[name fargs] body_len]|] eqn:Hdef.
    + rewrite (function_pass_body_def _ _ _ _ Hdef) in E.
      destruct has_posonlyargs eqn:Hpos;
        [|now rewrite analyze_function_old_python in E].
      destruct (Nat.leb_spec (height n) frames) as [Hh | Hh].
      * rewrite (analyze_function_run _ _ _ _ _ Hdef Hpos Hh) in E.
        rewrite (IH _ _ E f).
        rewrite code_smells_add_code_smells.
        unfold store_function_metric at 1.
        match goal with
        | |- context [code_smells (set_function_metrics ?x ?y)] =>
            change (code_smells (set_function_metrics x y))
              with (code_smells y)
        end.
        rewrite code_smells_add_code_smells.
        destruct (String.eqb file f);
          rewrite <- ?app_assoc, ?app_nil_r; reflexivity.
      * pose proof (analyze_function_overflow n name fargs body_len a Hpos Hh)
          as E1.
        destruct (analyze_function file n name fargs body_len a)
          as [[[]|e] a1]; cbn [fst] in E1; discriminate.
    + rewrite (function_pass_body_other _ Hdef) in E. cbn [ret] in E.
      rewrite (IH _ _ E f). reflexivity.
Qed.
End FunctionPass.

Lemma analyze_python_functions_body `{Runtime} (tree : node) (file : string) :
  analyze_python_functions tree file
  = for_each (walk tree) (function_pass_body file).
Proof. reflexivity. Qed.

(** X3: whether [_analyze_python_functions] returns or raises depends on
    the function definitions of the tree only. It returns on a tree
    without any. Where [ast.arguments] has no [posonlyargs] the first
    definition raises [AttributeError]. Otherwise the pass raises
    [RecursionError] when a definition is higher than the frames left,
    and returns when none is. *)
Theorem function_pass_returns_or_raises `{Runtime} (tree : node)
    (file : string) (a : Analyzer) :
  fst (analyze_python_functions tree file a) = function_pass_outcome tree.
Proof. rewrite analyze_python_functions_body. apply for_each_outcome. Qed.

(** X4: when [_analyze_python_functions] returns, the code smells that it
    has appended for the file are those of the function definitions in
    the order of [ast.walk]: for each definition its threshold smells,
    then the smells of its nesting check. *)
Theorem function_pass_smells `{Runtime} (tree : node) (file : string)
    (a a' : Analyzer) :
  analyze_python_functions tree file a = (Ok tt, a') ->
  dict_get (code_smells a') file []
  = dict_get (code_smells a) file [] ++ flat_map function_smells (walk tree).
Proof.
  intros E. rewrite analyze_python_functions_body in E.
  rewrite (for_each_smells file _ _ _ E file). now rewrite String.eqb_refl.
Qed.

Lemma function_pass_smells_witness :
  dict_get (code_smells
              (snd (@analyze_python_functions
                      (Examples.python3 Samples.parse_wide)
                      Samples.wide_module "wide.py" init))) "wide.py" []
  = dict_get (code_smells init) "wide.py" []
    ++ flat_map (@function_smells (Examples.python3 Samples.parse_wide))
         (walk Samples.wide_module).
Proof.
  apply (@function_pass_smells (Examples.python3 Samples.parse_wide)
           Samples.wide_module "wide.py" init).
  vm_compute. reflexivity.
Defined.

(** ** Thresholds of the function smells *)

Lemma node_children_ind (P : node -> Prop) :
  (forall c l e ch, Forall P ch -> P (Node c l e ch)) -> forall n, P n.
Proof.
  intros Hnode. fix IH 1. intros [c l e ch]. apply Hnode.
  induction ch as [|x ch IHch]; constructor; [apply IH | exact IHch].
Qed.

Lemma nesting_issues_type (name : string) (n : node) :
  forall depth,
    Forall (fun i => i_type i = "deep_nesting") (nesting_issues name depth n).
Proof.
  induction n as [c l e ch IH] using node_children_ind. intros depth.
  cbn [nesting_issues]. apply Forall_app. split.
  - destruct (is_control c && _); repeat constructor.
  - induction IH as [|x ch Hx _ IHch]; cbn [flat_map]; [constructor|].
    apply Forall_app. split; [apply Hx | exact IHch].
Qed.

Lemma filter_flat_map {A B} (p : B -> bool) (f : A -> list B) (l : list A) :
  filter p (flat_map f l) = flat_map (fun x => filter p (f x)) l.
Proof.
  induction l as [|x l IH]; [reflexivity|].
  cbn [flat_map]. now rewrite filter_app, IH.
Qed.

Lemma flat_map_same {A B} (f g : A -> list B) (l : list A) :
  (forall x, f x = g x) -> flat_map f l = flat_map g l.
Proof.
  intros E. induction l as [|x l IH]; [reflexivity|].
  cbn [flat_map]. now rewrite E, IH.
Qed.

Lemma filter_type_none (type : string) (l : list Issue) (other : string) :
  Forall (fun i => i_type i = other) l -> String.eqb other type = false ->
  filter (fun i => String.eqb (i_type i) type) l = [].
Proof.
  intros Hl Hne. induction Hl as [|i l Hi _ IH]; [reflexivity|].
  cbn [filter]. now rewrite Hi, Hne.
Qed.

Lemma filter_type_all (type : string) (l : list Issue) :
  Forall (fun i => i_type i = type) l ->
  filter (fun i => String.eqb (i_type i) type) l = l.
Proof.
  intros Hl. induction Hl as [|i l Hi _ IH]; [reflexivity|].
  cbn [filter]. now rewrite Hi, String.eqb_refl, IH.
Qed.

Lemma smells_of_type_pass `{Runtime} (type : string) (tree : node)
    (file : string) (a a' : Analyzer) :
  analyze_python_functions tree file a = (Ok tt, a') ->
  smells_of_type type a' file
  = smells_of_type type a file
    ++ flat_map (fun n => filter (fun i => String.eqb (i_type i) type)
                            (function_smells n)) (walk tree).
Proof.
  intros E. rewrite analyze_python_functions_body in E.
  unfold smells_of_type.
  rewrite (for_each_smells file _ _ _ E file), String.eqb_refl.
  now rewrite filter_app, filter_flat_map.
Qed.

(** X5: when the function pass returns, it has added one
    [too_many_parameters] smell for each function definition with more
    than 5 parameters (positional, positional-only and keyword-only
    ones, [*args] and [**kwargs] all counted), one [long_function] smell
    for each with more than 50 lines, and one [high_complexity] smell for
    each with a complexity above 10, in the order of [ast.walk]; a
    definition at a threshold gets none. *)
Theorem function_smell_thresholds `{Runtime} (tree : node) (file : string)
    (a a' : Analyzer) :
  analyze_python_functions tree file a = (Ok tt, a') ->
  smells_of_type "too_many_parameters" a' file
  = smells_of_type "too_many_parameters" a file
    ++ flat_map (fun n =>
         match function_def n with
         | Some (name, fargs, _) =>
             if 5 <? params_total fargs
             then [too_many_parameters_issue name (params_total fargs)
                     (lineno n)]
             else []
         | None => []
         end) (walk tree)
  /\ smells_of_type "long_function" a' file
     = smells_of_type "long_function" a file
       ++ flat_map (fun n =>
            match function_def n with
            | Some (name, _, body_len) =>
                if 50 <? lines_of_code_of n body_len
                then [long_function_issue name (lines_of_code_of n body_len)
                        (lineno n)]
                else []
            | None => []
            end) (walk tree)
  /\ smells_of_type "high_complexity" a' file
     = smells_of_type "high_complexity" a file
       ++ flat_map (fun n =>
            match function_def n with
            | Some (name, _, _) =>
                if 10 <? complexity_of n
                then [high_complexity_issue name (complexity_of n) (lineno n)]
                else []
            | None => []
            end) (walk tree).
Proof.
  intros E. repeat split; rewrite (smells_of_type_pass _ _ _ _ _ E);
    f_equal; apply flat_map_same; intros n;
    unfold function_smells, threshold_smells;
    destruct (function_def n) as [[[name fargs] body_len]|]; try reflexivity;
    rewrite filter_app,
      (filter_type_none _ (nesting_issues name 0 n) "deep_nesting")
      by (apply nesting_issues_type || reflexivity);
    rewrite app_nil_r;
    destruct (5 <? params_total fargs),
      (50 <? lines_of_code_of n body_len), (10 <? complexity_of n);
    reflexivity.
Qed.

Lemma function_smell_thresholds_witness :
  exists a',
    @analyze_python_functions (Examples.python3 Samples.parse_wide)
      Samples.wide_module "wide.py" init = (Ok tt, a')
    /\ smells_of_type "too_many_parameters" a' "wide.py"
       = [too_many_parameters_issue "g" 6 1]
    /\ smells_of_type "long_function" a' "wide.py" = []
    /\ smells_of_type "high_complexity" a' "wide.py" = [].
Proof.
  pose (rt := Examples.python3 Samples.parse_wide).
  exists (snd (@analyze_python_functions rt Samples.wide_module "wide.py" init)).
  assert (E : @analyze_python_functions rt Samples.wide_module "wide.py" init
              = (Ok tt,
                 snd (@analyze_python_functions rt Samples.wide_module
                        "wide.py" init)))
    by (vm_compute; reflexivity).
  split; [exact E|].
  destruct (@function_smell_thresholds rt Samples.wide_module "wide.py" init
              _ E) as (H1 & H2 & H3).
  rewrite H1, H2, H3. vm_compute. repeat split.
Defined.

(** X6: when the function pass returns, the deep-nesting smells that it
    has added are those of the nesting checks of all function
    definitions in the order of [ast.walk]. Each definition, also one
    nested in another, is checked on its own from depth 0, and the check
    of a definition goes through the definitions nested in it. *)
Theorem function_pass_deep_nesting `{Runtime} (tree : node) (file : string)
    (a a' : Analyzer) :
  analyze_python_functions tree file a = (Ok tt, a') ->
  smells_of_type "deep_nesting" a' file
  = smells_of_type "deep_nesting" a file
    ++ flat_map (fun n =>
         match function_def n with
         | Some (name, _, _) => nesting_issues name 0 n
         | None => []
         end) (walk tree).
Proof.
  intros E. rewrite (smells_of_type_pass _ _ _ _ _ E).
  f_equal. apply flat_map_same. intros n.
  unfold function_smells, threshold_smells.
  destruct (function_def n) as [[[name fargs] body_len]|]; [|reflexivity].
  rewrite filter_app, (filter_type_all _ (nesting_issues name 0 n))
    by apply nesting_issues_type.
  destruct (5 <? params_total fargs),
    (50 <? lines_of_code_of n body_len), (10 <? complexity_of n);
    reflexivity.
Qed.

Lemma function_pass_deep_nesting_witness :
  smells_of_type "deep_nesting"
    (snd (@analyze_python_functions
            (Examples.python3 Examples.parse_six_levels)
            (Examples.nested_module "f" 6) "deep.py" init)) "deep.py"
  = smells_of_type "deep_nesting" init "deep.py"
    ++ flat_map (fun n =>
         match function_def n with
         | Some (name, _, _) => nesting_issues name 0 n
         | None => []
         end) (walk (Examples.nested_module "f" 6)).
Proof.
  apply (@function_pass_deep_nesting
           (Examples.python3 Examples.parse_six_levels)
           (Examples.nested_module "f" 6) "deep.py" init).
  vm_compute. reflexivity.
Defined.

(** ** Every function definition is recorded *)

Lemma forest_size_in (r : node) (todo : list node) :
  In r todo -> (size r <= forest_size todo)%nat.
Proof.
  induction todo as [|n todo IH]; intros Hin; [destruct Hin|].
  cbn [forest_size fold_right]. destruct Hin as [-> | Hin].
  - lia.
  - specialize (IH Hin). unfold forest_size in IH. lia.
Qed.

(** [ast.walk] yields every node of the trees in the queue. *)
Lemma subnode_walk_queue (turns : nat) :
  forall (todo : list node) (x r : node),
    (forest_size todo <= turns)%nat ->
    In r todo -> subnode x r -> In x (walk_queue turns todo).
Proof.
  induction turns as [|turns IH]; intros todo x r Hsize Hr Hsub.
  - apply forest_size_in in Hr. destruct r; cbn [size] in Hr. lia.
  - destruct todo as [|n todo]; [destruct Hr|].
    cbn [walk_queue].
    assert (Hq : (forest_size (todo ++ children n) <= turns)%nat).
    { rewrite forest_size_app. cbn [forest_size fold_right] in Hsize.
      rewrite size_unfold in Hsize. unfold forest_size in *. lia. }
    destruct Hr as [-> | Hr].
    + inversion Hsub as [| n' c Hc Hsub']; subst.
      * now left.
      * right. apply (IH _ _ c Hq); [|exact Hsub'].
        apply in_or_app. now right.
    + right. apply (IH _ _ r Hq); [|exact Hsub].
      apply in_or_app. now left.
Qed.

Lemma walk_nodes (x n : node) : In x (walk n) <-> subnode x n.
Proof.
  split; intros Hx.
  - apply walk_queue_subnode in Hx. destruct Hx as (r & [<- | []] & Hsub).
    exact Hsub.
  - apply (subnode_walk_queue _ _ _ n); [|now left|exact Hx].
    cbn [forest_size fold_right]. lia.
Qed.

Lemma dict_find_set_same {K V} `{KeyEq K} (d : dict K V) (k : K) (v : V) :
  dict_find (dict_set d k v) k = Some v.
Proof.
  induction d as [|[k' v'] d IH]; cbn [dict_set dict_find].
  - destruct (keqb_spec k k); [reflexivity|congruence].
  - destruct (keqb_spec k' k) as [E | E]; cbn [dict_find].
    + destruct (keqb_spec k' k); [reflexivity|congruence].
    + destruct (keqb_spec k' k); [congruence|exact IH].
Qed.

Lemma dict_find_set_other {K V} `{KeyEq K} (d : dict K V) (k k' : K) (v : V) :
  k <> k' -> dict_find (dict_set d k v) k' = dict_find d k'.
Proof.
  intros Hne. induction d as [|[k0 v0] d IH]; cbn [dict_set dict_find].
  - destruct (keqb_spec k k'); [congruence|reflexivity].
  - destruct (keqb_spec k0 k) as [E | E]; cbn [dict_find].
    + subst. destruct (keqb_spec k k'); [congruence|reflexivity].
    + destruct (keqb_spec k0 k'); [reflexivity|exact IH].
Qed.

Section FunctionMetrics.
Context `{Runtime}.
Variable file : string.

(** The metrics of a file after a loop over the nodes that returns. *)
Lemma for_each_metrics (l : list node) :
  forall a a',
    for_each l (function_pass_body file) a = (Ok tt, a') ->
    dict_get (function_metrics a') file []
    = fold_left (fun d n => dict_set d (function_key n) (function_metric_of n))
        (filter is_function_def l) (dict_get (function_metrics a) file []).
Proof.
  induction l as [|n l IH]; intros a a' E.
  - now inversion E.
  - cbn [for_each filter] in *. unfold bind in E. unfold is_function_def at 1.
    destruct (function_def n) as [[[name fargs] body_len]|] eqn:Hdef.
    + rewrite (function_pass_body_def _ _ _ _ _ Hdef) in E.
      destruct has_posonlyargs eqn:Hpos;
        [|now rewrite analyze_function_old_python in E].
      destruct (Nat.leb_spec (height n) frames) as [Hh | Hh].
      * rewrite (analyze_function_run _ _ _ _ _ _ Hdef Hpos Hh) in E.
        rewrite (IH _ _ E). cbn [fold_left]. f_equal.
        destruct (only_smells_add_code_smells file (nesting_issues name 0 n)
                    (store_function_metric file (function_key n)
                       (function_metric_of n)
                       (add_code_smells file (threshold_smells n) a)))
          as [tbl ->].
        destruct (only_smells_add_code_smells file (threshold_smells n) a)
          as [tbl' ->].
        unfold store_function_metric.
        cbn [function_metrics set_code_smells set_function_metrics].
        now rewrite dict_get_set_same.
      * pose proof (analyze_function_overflow file n name fargs body_len a
                      Hpos Hh) as E1.
        destruct (analyze_function file n name fargs body_len a)
          as [[[]|e] a1]; cbn [fst] in E1; discriminate.
    + rewrite (function_pass_body_other _ _ Hdef) in E. cbn [ret] in E.
      exact (IH _ _ E).
Qed.
End FunctionMetrics.

Lemma fold_set_other {A} (key : A -> string) (val : A -> FunctionMetric)
    (l : list A) (k : string) :
  forall d,
    (forall y, In y l -> key y <> k) ->
    dict_find (fold_left (fun d n => dict_set d (key n) (val n)) l d) k
    = dict_find d k.
Proof.
  induction l as [|x l IH]; intros d Hl; [reflexivity|].
  cbn [fold_left]. rewrite IH by (intros y Hy; apply Hl; now right).
  apply dict_find_set_other. apply Hl. now left.
Qed.

Lemma fold_set_last {A} (key : A -> string) (val : A -> FunctionMetric)
    (l : list A) (k : string) :
  forall d,
    (exists x, In x l /\ key x = k) ->
    exists y, In y l /\ key y = k
      /\ dict_find (fold_left (fun d n => dict_set d (key n) (val n)) l d) k
         = Some (val y).
Proof.
  induction l as [|x l IH]; intros d (x0 & Hin & Hk); [destruct Hin|].
  cbn [fold_left].
  destruct (existsb (fun y => String.eqb (key y) k) l) eqn:Hlater.
  - apply existsb_exists in Hlater. destruct Hlater as (y & Hy & Ey).
    apply String.eqb_eq in Ey.
    destruct (IH (dict_set d (key x) (val x)) (ex_intro _ y (conj Hy Ey)))
      as (z & Hz & Ez & Hfind).
    exists z. split; [now right|]. now split.
  - assert (Hnone : forall y, In y l -> key y <> k).
    { intros y Hy Ey.
      assert (existsb (fun y => String.eqb (key y) k) l = true); [|congruence].
      apply existsb_exists. exists y. split; [exact Hy|].
      now apply String.eqb_eq. }
    destruct Hin as [-> | Hin]; [|now apply Hnone in Hin].
    exists x0. split; [now left|]. split; [exact Hk|].
    rewrite fold_set_other by exact Hnone.
    rewrite <- Hk. apply dict_find_set_same.
Qed.

(** X7: after a function pass that returns, every function definition of
    the tree, at any depth, has a metric under its key [name@line]: the
    metric of the last definition with that key in the order of
    [ast.walk]. *)
Theorem every_function_recorded `{Runtime} (tree : node) (file : string)
    (a a' : Analyzer) (x : node) :
  analyze_python_functions tree file a = (Ok tt, a') ->
  subnode x tree ->
  is_function_def x = true ->
  exists y,
    subnode y tree /\ is_function_def y = true
    /\ function_key y = function_key x
    /\ dict_find (dict_get (function_metrics a') file []) (function_key x)
       = Some (function_metric_of y).
Proof.
  intros E Hsub Hdef. rewrite analyze_python_functions_body in E.
  rewrite (for_each_metrics file _ _ _ E).
  destruct (fold_set_last function_key function_metric_of
              (filter is_function_def (walk tree)) (function_key x)
              (dict_get (function_metrics a) file []))
    as (y & Hy & Ey & Hfind).
  - exists x. split; [|reflexivity].
    apply filter_In. split; [now apply walk_nodes | exact Hdef].
  - apply filter_In in Hy. destruct Hy as [Hy Hydef].
    exists y. repeat split; try assumption. now apply walk_nodes.
Qed.

Lemma every_function_recorded_witness :
  exists y,
    subnode y Samples.wide_module /\ is_function_def y = true
    /\ function_key y = function_key Samples.wide_function
    /\ dict_find
         (dict_get
            (function_metrics
               (snd (@analyze_python_functions
                       (Examples.python3 Samples.parse_wide)
                       Samples.wide_module "wide.py" init))) "wide.py" [])
         (function_key Samples.wide_function)
       = Some (@function_metric_of (Examples.python3 Samples.parse_wide) y).
Proof.
  apply (@every_function_recorded (Examples.python3 Samples.parse_wide)
           Samples.wide_module "wide.py" init).
  - vm_compute. reflexivity.
  - apply (subnode_child _ Samples.wide_module Samples.wide_function);
      [now left | apply subnode_here].
  - reflexivity.
Defined.

(** ** Complexity is at least one *)

Lemma complexity_step_nonneg (n : node) :
  boolops_proper n = true -> 0 <= tree_sum complexity_step n.
Proof.
  induction n as [c l e ch IH] using node_children_ind. intros Hp.
  cbn [boolops_proper] in Hp. apply andb_prop in Hp. destruct Hp as [Hc Hch].
  cbn [tree_sum].
  assert (Hstep : 0 <= complexity_step (Node c l e ch)).
  { unfold complexity_step. cbn [cls]. destruct c; try lia.
    destruct op; [|lia]. apply Z.leb_le in Hc. lia. }
  assert (Hrest : 0 <= fold_right (fun c acc => tree_sum complexity_step c + acc)
                         0 ch).
  { clear Hc Hstep. induction IH as [|x ch Hx _ IHch]; cbn [fold_right]; [lia|].
    cbn [forallb] in Hch. apply andb_prop in Hch. destruct Hch as [Hx1 Hch].
    specialize (Hx Hx1). specialize (IHch Hch). lia. }
  lia.
Qed.

(** X8: the cyclomatic complexity stored for a function is at least 1,
    on every tree whose [BoolOp] nodes have an operand. *)
Theorem complexity_at_least_one (n : node) :
  boolops_proper n = true -> 1 <= complexity_of n.
Proof.
  intros Hp. unfold complexity_of. rewrite walk_sum.
  apply complexity_step_nonneg in Hp. lia.
Qed.

Lemma complexity_at_least_one_witness : 1 <= complexity_of Examples.or_function.
Proof. apply (complexity_at_least_one Examples.or_function). reflexivity. Defined.

(** ** The imports of a tree *)

Lemma in_set_add {A} `{KeyEq A} (s : list A) (x y : A) :
  In y (set_add s x) <-> In y s \/ y = x.
Proof.
  unfold set_add. destruct (existsb (keqb x) s) eqn:E.
  - apply existsb_keqb_in in E. split; [now left|].
    intros [Hy | ->]; assumption.
  - rewrite in_app_iff. cbn [In]. intuition.
Qed.

Lemma dict_get_dd_add {K A} `{KeyEq K} `{KeyEq A} (d : dict K (list A))
    (k : K) (x : A) :
  dict_get (dd_add d k x) k [] = set_add (dict_get d k []) x.
Proof. unfold dd_add. apply dict_get_set_same. Qed.

Lemma record_import_names (file name : string) (a : Analyzer) (x : string) :
  (In x (dict_get (import_graph (record_import file name a)) file [])
   <-> In x (dict_get (import_graph a) file []) \/ x = name)
  /\ (In x (dict_get (dependencies (record_import file name a)) file [])
      <-> In x (dict_get (dependencies a) file []) \/ x = name).
Proof.
  unfold record_import. destruct a;
    cbn [import_graph dependencies set_dependencies set_import_graph].
  rewrite !dict_get_dd_add. split; apply in_set_add.
Qed.

Lemma record_imports_names (file : string) (names : list string) (x : string) :
  forall a,
    (In x (dict_get (import_graph
                       (fold_left (fun a name => record_import file name a)
                          names a)) file [])
     <-> In x (dict_get (import_graph a) file []) \/ In x names)
    /\ (In x (dict_get (dependencies
                          (fold_left (fun a name => record_import file name a)
                             names a)) file [])
        <-> In x (dict_get (dependencies a) file []) \/ In x names).
Proof.
  induction names as [|name names IH]; intros a; cbn [fold_left In].
  - tauto.
  - destruct (IH (record_import file name a)) as [IH1 IH2].
    destruct (record_import_names file name a x) as [R1 R2].
    rewrite IH1, IH2, R1, R2. split; intuition.
Qed.

Lemma imports_step (file : string) (n : node) (a : Analyzer) (x : string) :
  let a' :=
    match cls n with
    | Import names => fold_left (fun a name => record_import file name a) names a
    | ImportFrom (Some module) =>
        if String.eqb module "" then a else record_import file module a
    | _ => a
    end in
  (In x (dict_get (import_graph a') file [])
   <-> In x (dict_get (import_graph a) file []) \/ node_imports n x)
  /\ (In x (dict_get (dependencies a') file [])
      <-> In x (dict_get (dependencies a) file []) \/ node_imports n x).
Proof.
  unfold node_imports. destruct (cls n) as [| | | | | | | | | | | |names|m|];
    cbn zeta; try tauto.
  - apply record_imports_names.
  - destruct m as [module|]; [|tauto].
    destruct (String.eqb_spec module "") as [-> | Hne].
    + split; split; try tauto; intros [Hx | [<- Hx]]; congruence.
    + destruct (record_import_names file module a x) as [R1 R2].
      rewrite R1, R2. split; split; intros [Hx | Hx]; try tauto.
      * subst. tauto.
      * destruct Hx as [-> _]. tauto.
      * subst. tauto.
      * destruct Hx as [-> _]. tauto.
Qed.

Lemma imports_fold (file : string) (l : list node) (x : string) :
  forall a,
    let a' :=
      fold_left (fun a n =>
        match cls n with
        | Import names =>
            fold_left (fun a name => record_import file name a) names a
        | ImportFrom (Some module) =>
            if String.eqb module "" then a else record_import file module a
        | _ => a
        end) l a in
    (In x (dict_get (import_graph a') file [])
     <-> In x (dict_get (import_graph a) file [])
         \/ exists n, In n l /\ node_imports n x)
    /\ (In x (dict_get (dependencies a') file [])
        <-> In x (dict_get (dependencies a) file [])
            \/ exists n, In n l /\ node_imports n x).
Proof.
  induction l as [|n l IH]; intros a; cbn [fold_left].
  - cbn zeta. split; split; try tauto; intros [Hx | (n & [] & _)]; exact Hx.
  - cbn zeta in *. destruct (IH (match cls n with
        | Import names =>
            fold_left (fun a name => record_import file name a) names a
        | ImportFrom (Some module) =>
            if String.eqb module "" then a else record_import file module a
        | _ => a
        end)) as [IH1 IH2].
    destruct (imports_step file n a x) as [S1 S2]. cbn zeta in S1, S2.
    rewrite IH1, IH2, S1, S2.
    split; split.
    + intros [[Hx | Hx] | (y & Hy & Hyx)]; [now left | | ].
      * right. exists n. split; [now left | exact Hx].
      * right. exists y. split; [now right | exact Hyx].
    + intros [Hx | (y & [<- | Hy] & Hyx)]; [tauto | tauto |].
      right. now exists y.
    + intros [[Hx | Hx] | (y & Hy & Hyx)]; [now left | | ].
      * right. exists n. split; [now left | exact Hx].
      * right. exists y. split; [now right | exact Hyx].
    + intros [Hx | (y & [<- | Hy] & Hyx)]; [tauto | tauto |].
      right. now exists y.
Qed.

(** X9: after [_analyze_python_imports] the import graph and the
    dependencies of the file hold the names they held before and the
    module names of the import statements of the tree, nothing else:
    [import a, b] gives [a] and [b], [from m import x] gives [m] and not
    [x], and a relative [from . import x] gives nothing. *)
Theorem imports_recorded (tree : node) (file : string) (a : Analyzer)
    (x : string) :
  (In x (dict_get (import_graph (analyze_python_imports tree file a)) file [])
   <-> In x (dict_get (import_graph a) file []) \/ imported tree x)
  /\ (In x (dict_get (dependencies (analyze_python_imports tree file a))
              file [])
      <-> In x (dict_get (dependencies a) file []) \/ imported tree x).
Proof. apply (imports_fold file (walk tree) x a). Qed.

(** ** Long lines *)

Lemma long_lines_loop_style (file : string) (lines : list string) :
  forall i a f,
    dict_get (style_issues (long_lines_loop file lines i a)) f []
    = dict_get (style_issues a) f []
      ++ (if String.eqb file f
          then map long_line_issue (long_line_numbers lines i) else []).
Proof.
  induction lines as [|line lines IH]; intros i a f;
    cbn [long_lines_loop long_line_numbers].
  - destruct (String.eqb file f); now rewrite app_nil_r.
  - rewrite IH. destruct (100 <? strlen (strip line)).
    + unfold add_style_issue. cbn [style_issues set_style_issues].
      rewrite dict_get_dd_append. cbn [keqb KeyEq_string].
      destruct (String.eqb file f); rewrite <- app_assoc; reflexivity.
    + reflexivity.
Qed.

Lemma rules_keep `{Runtime} {C} (proj : Analyzer -> C) (rules : list Rule)
    (add : string -> Issue -> Analyzer -> Analyzer)
    (file content language : string) :
  (forall f i a, proj (add f i a) = proj a) ->
  forall a,
    proj (fold_left (fun a rule =>
            if rule_skipped rule language then a
            else match r_regex rule with
                 | Some regex =>
                     fold_left (fun a m =>
                                  add file (match_issue rule content m) a)
                       (re_finditer regex content) a
                 | None => a
                 end) rules a)
    = proj a.
Proof.
  intros Hadd a. apply (fold_left_keeps proj). intros a0 rule _.
  destruct (rule_skipped rule language); [reflexivity|].
  destruct (r_regex rule); [|reflexivity].
  apply (fold_left_keeps proj). intros a1 m _. apply Hadd.
Qed.

Lemma report_commented_code_keep {C} (proj : Analyzer -> C) (file : string)
    (blocks : list (list (Z * string))) :
  (forall tbl a, proj (set_code_smells tbl a) = proj a) ->
  forall a, proj (report_commented_code file blocks a) = proj a.
Proof.
  intros Hs a. apply (fold_left_keeps proj). intros a0 b _. apply Hs.
Qed.

Lemma long_line_numbers_above (lines : list string) :
  forall i, Forall (fun k => i < k) (long_line_numbers lines i).
Proof.
  induction lines as [|line lines IH]; intros i; cbn [long_line_numbers];
    [constructor|].
  apply Forall_app. split.
  - destruct (100 <? _); repeat constructor. lia.
  - eapply Forall_impl; [|apply IH]. cbn. intros k Hk. lia.
Qed.

Lemma long_line_numbers_sorted (lines : list string) :
  forall i, StronglySorted Z.lt (long_line_numbers lines i).
Proof.
  induction lines as [|line lines IH]; intros i; cbn [long_line_numbers];
    [constructor|].
  destruct (100 <? _); cbn [app]; [|apply IH].
  constructor; [apply IH | apply long_line_numbers_above].
Qed.

Lemma long_line_numbers_in (lines : list string) :
  forall i k,
    In k (long_line_numbers lines i)
    <-> i < k <= i + len lines
        /\ 100 < strlen (strip (nth (Z.to_nat (k - i - 1)) lines "")).
Proof.
  induction lines as [|line lines IH]; intros i k; cbn [long_line_numbers].
  - unfold len. cbn. split; [tauto | lia].
  - rewrite in_app_iff, IH. unfold len. cbn [List.length].
    rewrite Nat2Z.inj_succ.
    destruct (Z.eq_dec k (i + 1)) as [-> | Hne].
    + replace (i + 1 - i - 1) with 0 by lia. cbn [Z.to_nat nth].
      destruct (Z.ltb_spec 100 (strlen (strip line))); cbn [In]; split.
      * intros _. split; [unfold len; lia | assumption].
      * intros _. left. now left.
      * intros [[] | [Hk _]]; lia.
      * intros [_ Hk]. lia.
    + split.
      * intros [Hk | [Hk Hlen]].
        -- destruct (100 <? strlen (strip line)); cbn [In] in Hk;
             [destruct Hk as [Hk | []]; congruence | destruct Hk].
        -- split; [unfold len in *; lia|].
           replace (Z.to_nat (k - i - 1)) with (S (Z.to_nat (k - (i + 1) - 1)))
             by lia.
           exact Hlen.
      * intros [Hk Hlen]. right. split; [unfold len; lia|].
        replace (Z.to_nat (k - i - 1)) with (S (Z.to_nat (k - (i + 1) - 1)))
          in Hlen by lia.
        exact Hlen.
Qed.

(** X10: the style issues that [_analyze_generic] appends for the file
    are one [long_line] issue for each line whose text without leading
    and trailing white space is longer than 100 characters, in the order
    of the lines, each with the 1-based number of its line; a line of
    exactly 100 characters gets none. *)
Theorem long_lines_reported `{Runtime} (file content language : string)
    (a : Analyzer) :
  exists numbers,
    dict_get (style_issues (snd (analyze_generic file content language a)))
      file []
    = dict_get (style_issues a) file [] ++ map long_line_issue numbers
    /\ StronglySorted Z.lt numbers
    /\ forall k,
         In k numbers
         <-> 1 <= k <= len (split_lines content)
             /\ 100 < strlen (strip (nth (Z.to_nat (k - 1))
                                       (split_lines content) "")).
Proof.
  exists (long_line_numbers (split_lines content) 0).
  split; [|split].
  - destruct (analyze_generic_run file content language)
      as (in_block & commented & ->).
    cbn [snd]. unfold store_file_metrics.
    cbn [style_issues set_file_metrics].
    unfold performance_loop, security_loop.
    rewrite (rules_keep style_issues) by reflexivity.
    rewrite (rules_keep style_issues) by reflexivity.
    rewrite (report_commented_code_keep style_issues) by reflexivity.
    rewrite long_lines_loop_style. now rewrite String.eqb_refl.
  - apply long_line_numbers_sorted.
  - intros k. rewrite long_line_numbers_in.
    replace (k - 0 - 1) with (k - 1) by lia.
    split; intros [Hk Hlen]; (split; [lia | exact Hlen]).
Qed.

(** ** File metrics *)

Lemma split_lines_nonempty (s : string) : split_lines s <> [].
Proof.
  destruct s as [|c r]; cbn [split_lines]; [discriminate|].
  destruct (Ascii.eqb c newline); [discriminate|].
  destruct (split_lines r); discriminate.
Qed.

(** [len(content.split('\n'))] is one more than the number of
    newlines. *)
Lemma split_lines_len (s : string) :
  len (split_lines s) = count_newlines s + 1.
Proof.
  unfold len. induction s as [|c r IH]; cbn [split_lines count_newlines];
    [reflexivity|].
  destruct (Ascii.eqb c newline).
  - cbn [List.length]. lia.
  - pose proof (split_lines_nonempty r) as Hne.
    destruct (split_lines r) as [|l ls]; [congruence|].
    cbn [List.length] in *. lia.
Qed.

Lemma comment_lines_loop_bounds (language : string) (markers : list string)
    (lines : list string) :
  forall in_block acc,
    acc <= comment_lines_loop language markers lines in_block acc
        <= acc + len lines.
Proof.
  unfold len. induction lines as [|line lines IH]; intros in_block acc;
    cbn [comment_lines_loop List.length]; [lia|].
  match goal with
  | |- _ <= comment_lines_loop _ _ _ ?b ?c <= _ => specialize (IH b c)
  end.
  destruct (existsb _ markers || in_block); lia.
Qed.

Lemma sumZ_from (l : list Z) (acc : Z) :
  fold_left Z.add l acc = acc + sumZ l.
Proof.
  unfold sumZ. revert acc. induction l as [|x l IH]; intros acc;
    cbn [fold_left]; [lia|].
  rewrite IH, (IH (0 + x)). lia.
Qed.

Lemma sumZ_nonneg (l : list Z) : Forall (fun x => 0 <= x) l -> 0 <= sumZ l.
Proof.
  intros Hl. induction Hl as [|x l Hx _ IH]; [unfold sumZ; cbn; lia|].
  unfold sumZ. cbn [fold_left]. rewrite sumZ_from. lia.
Qed.

Lemma inject_Z_pos (l : Z) : 0 < l -> (0 < inject_Z l)%Q.
Proof.
  intros Hl. change (inject_Z 0 < inject_Z l)%Q. now rewrite <- Zlt_Qlt.
Qed.

Lemma inject_Z_nonneg (c : Z) : 0 <= c -> (0 <= inject_Z c)%Q.
Proof.
  intros Hc. change (inject_Z 0 <= inject_Z c)%Q. now rewrite <- Zle_Qle.
Qed.

Lemma ratio_bounds (c l : Z) :
  0 <= c <= l -> 0 < l ->
  (0 <= inject_Z c / inject_Z l <= 1)%Q.
Proof.
  intros Hc Hl. pose proof (inject_Z_pos l Hl) as Hl'.
  split.
  - apply Qle_shift_div_l; [exact Hl'|]. rewrite Qmult_0_l.
    apply inject_Z_nonneg. lia.
  - apply Qle_shift_div_r; [exact Hl'|]. rewrite Qmult_1_l.
    rewrite <- Zle_Qle. lia.
Qed.

Lemma store_file_metrics_entry (file language : string) (lines : list string)
    (markers : list string) (in_block : bool) (a : Analyzer) :
  0 < len lines ->
  exists fm,
    dict_find (file_metrics
                 (store_file_metrics file language lines markers in_block a))
      file = Some fm
    /\ loc fm = len lines
    /\ 0 <= comment_lines fm <= loc fm
    /\ (comment_density fm
        == inject_Z (comment_lines fm) / inject_Z (loc fm))%Q
    /\ (0 <= comment_density fm <= 1)%Q
    /\ (0 <= avg_line_length fm)%Q.
Proof.
  intros Hlen. unfold store_file_metrics.
  cbn [file_metrics set_file_metrics]. rewrite dict_find_set_same.
  eexists. split; [reflexivity|]. cbn [loc comment_lines comment_density
                                        avg_line_length].
  pose proof (comment_lines_loop_bounds language markers lines in_block 0)
    as Hc.
  assert (E : (0 <? len lines) = true) by now apply Z.ltb_lt.
  rewrite E.
  split; [reflexivity|]. split; [lia|]. split; [reflexivity|].
  split; [apply ratio_bounds; lia|].
  destruct (map strlen _) as [|x l] eqn:El; [apply Qle_refl|].
  apply Qle_shift_div_l.
  - apply inject_Z_pos. unfold len. cbn [List.length]. lia.
  - rewrite Qmult_0_l. apply inject_Z_nonneg. apply sumZ_nonneg.
    rewrite <- El. apply Forall_forall. intros y Hy.
    apply in_map_iff in Hy. destruct Hy as (s & <- & _). unfold strlen. lia.
Qed.

Lemma generic_file_metrics `{Runtime} (file content language : string) :
  exists in_block,
    forall a,
      file_metrics (snd (analyze_generic file content language a))
      = file_metrics
          (store_file_metrics file language (split_lines content)
             (dict_get comment_markers language ["#"; "//"]) in_block a).
Proof.
  destruct (analyze_generic_run file content language)
    as (in_block & commented & Hrun).
  exists in_block. intros a. rewrite Hrun. cbn [snd].
  unfold store_file_metrics. cbn [file_metrics set_file_metrics].
  unfold performance_loop, security_loop.
  rewrite (rules_keep file_metrics) by reflexivity.
  rewrite (rules_keep file_metrics) by reflexivity.
  rewrite (report_commented_code_keep file_metrics) by reflexivity.
  rewrite (long_lines_keep file_metrics) by reflexivity.
  reflexivity.
Qed.

(** X11: [_analyze_generic] stores metrics for the file and leaves
    those of every other file as they are. [loc] is the number of
    newlines of the content plus one, so an empty file has one line; the
    comment lines are between 0 and [loc]; the comment density is their
    quotient, between 0 and 1; the average line length is not
    negative. *)
Theorem file_metrics_stored `{Runtime} (file content language : string)
    (a : Analyzer) :
  let a' := snd (analyze_generic file content language a) in
  (exists fm,
     dict_find (file_metrics a') file = Some fm
     /\ loc fm = count_newlines content + 1
     /\ 0 <= comment_lines fm <= loc fm
     /\ (comment_density fm
         == inject_Z (comment_lines fm) / inject_Z (loc fm))%Q
     /\ (0 <= comment_density fm <= 1)%Q
     /\ (0 <= avg_line_length fm)%Q)
  /\ forall f, f <> file ->
       dict_find (file_metrics a') f = dict_find (file_metrics a) f.
Proof.
  cbn zeta. destruct (generic_file_metrics file content language)
    as (in_block & ->).
  split.
  - destruct (store_file_metrics_entry file language (split_lines content)
                (dict_get comment_markers language ["#"; "//"]) in_block a)
      as (fm & Hfind & Hloc & Hrest).
    + rewrite split_lines_len.
      assert (0 <= count_newlines content); [|lia].
      induction content as [|c r IH]; cbn [count_newlines]; [lia|].
      destruct (Ascii.eqb c newline); lia.
    + exists fm. split; [exact Hfind|]. split; [|exact Hrest].
      now rewrite Hloc, split_lines_len.
  - intros f Hf. unfold store_file_metrics.
    cbn [file_metrics set_file_metrics].
    apply dict_find_set_other. congruence.
Qed.

(** ** Findings are appended, and come from a closed catalogue *)

Lemma grows_refl (c : list (string * string)) (tbl : issue_table) :
  grows c tbl tbl.
Proof.
  split; [intros f; exists []; now rewrite app_nil_r | intros i Hi; now left].
Qed.

Lemma grows_trans (c : list (string * string)) (t1 t2 t3 : issue_table) :
  grows c t1 t2 -> grows c t2 t3 -> grows c t1 t3.
Proof.
  intros [A1 B1] [A2 B2]. split.
  - intros f. destruct (A1 f) as (e1 & E1). destruct (A2 f) as (e2 & E2).
    exists (e1 ++ e2). now rewrite E2, E1, app_assoc.
  - intros i Hi. apply B2 in Hi. destruct Hi as [Hi | Hi]; [|now right].
    now apply B1.
Qed.

Lemma grows_dd_append (c : list (string * string)) (tbl : issue_table)
    (file : string) (i : Issue) :
  listed c i -> grows c tbl (dd_append tbl file i).
Proof.
  intros Hi. split.
  - intros f. rewrite dict_get_dd_append. eexists. reflexivity.
  - intros j Hj. apply in_dd_append in Hj. destruct Hj as [Hj | ->];
      [now left | now right].
Qed.

Lemma findings_grow_refl (a : Analyzer) : findings_grow a a.
Proof. split; [|split; [|split]]; apply grows_refl. Qed.

Lemma findings_grow_trans (a b c : Analyzer) :
  findings_grow a b -> findings_grow b c -> findings_grow a c.
Proof.
  intros (A1 & A2 & A3 & A4) (B1 & B2 & B3 & B4).
  split; [|split; [|split]]; eapply grows_trans; eauto.
Qed.

Lemma findings_grow_same (a a' : Analyzer) :
  code_smells a' = code_smells a ->
  security_issues a' = security_issues a ->
  performance_issues a' = performance_issues a ->
  style_issues a' = style_issues a ->
  findings_grow a a'.
Proof.
  intros E1 E2 E3 E4. unfold findings_grow. rewrite E1, E2, E3, E4.
  split; [|split; [|split]]; apply grows_refl.
Qed.

Lemma findings_grow_smell (file : string) (i : Issue) (a : Analyzer) :
  listed smell_catalogue i -> findings_grow a (add_code_smell file i a).
Proof.
  intros Hi. unfold findings_grow, add_code_smell.
  cbn [code_smells security_issues performance_issues style_issues
       set_code_smells].
  split; [|split; [|split]]; try apply grows_refl; now apply grows_dd_append.
Qed.

Lemma findings_grow_security (file : string) (i : Issue) (a : Analyzer) :
  listed security_catalogue i -> findings_grow a (add_security_issue file i a).
Proof.
  intros Hi. unfold findings_grow, add_security_issue.
  cbn [code_smells security_issues performance_issues style_issues
       set_security_issues].
  split; [|split; [|split]]; try apply grows_refl; now apply grows_dd_append.
Qed.

Lemma findings_grow_performance (file : string) (i : Issue) (a : Analyzer) :
  listed performance_catalogue i ->
  findings_grow a (add_performance_issue file i a).
Proof.
  intros Hi. unfold findings_grow, add_performance_issue.
  cbn [code_smells security_issues performance_issues style_issues
       set_performance_issues].
  split; [|split; [|split]]; try apply grows_refl; now apply grows_dd_append.
Qed.

Lemma findings_grow_style (file : string) (i : Issue) (a : Analyzer) :
  listed style_catalogue i -> findings_grow a (add_style_issue file i a).
Proof.
  intros Hi. unfold findings_grow, add_style_issue.
  cbn [code_smells security_issues performance_issues style_issues
       set_style_issues].
  split; [|split; [|split]]; try apply grows_refl; now apply grows_dd_append.
Qed.

Lemma fold_left_grow {B} (f : Analyzer -> B -> Analyzer) (l : list B) :
  (forall a x, In x l -> findings_grow a (f a x)) ->
  forall a, findings_grow a (fold_left f l a).
Proof.
  induction l as [|x l IH]; intros Hf a; cbn [fold_left].
  - apply findings_grow_refl.
  - eapply findings_grow_trans; [apply Hf; now left|].
    apply IH. intros a0 y Hy. apply Hf. now right.
Qed.

Ltac in_catalogue :=
  try unfold listed; cbn; repeat first [left; reflexivity | right].

Lemma patterns_grow `{Runtime} (patterns : list Pattern)
    (line_of : Match -> option Z) (context_of : Match -> option string)
    (file content : string) :
  Forall (fun p => In (p_name p, p_severity p) smell_catalogue) patterns ->
  forall a,
    findings_grow a
      (fold_left (fun a p =>
         fold_left (fun a m =>
           add_code_smell file
             {| i_type := p_name p; i_description := p_description p;
                i_severity := p_severity p; i_line := line_of m;
                i_context := context_of m |} a)
           (re_finditer (p_regex p) content) a) patterns a).
Proof.
  intros Hp. apply fold_left_grow. intros a p Hin.
  apply fold_left_grow. intros a0 m _. apply findings_grow_smell.
  rewrite Forall_forall in Hp. apply (Hp p Hin).
Qed.

Lemma python_patterns_listed :
  Forall (fun p => In (p_name p, p_severity p) smell_catalogue)
    PYTHON_ANTI_PATTERNS.
Proof. repeat (apply Forall_cons; [in_catalogue|]). apply Forall_nil. Qed.

Lemma js_patterns_listed :
  Forall (fun p => In (p_name p, p_severity p) smell_catalogue)
    JS_ANTI_PATTERNS.
Proof. repeat (apply Forall_cons; [in_catalogue|]). apply Forall_nil. Qed.

Lemma imports_grow (tree : node) (file : string) (a : Analyzer) :
  findings_grow a (analyze_python_imports tree file a).
Proof.
  unfold analyze_python_imports. apply fold_left_grow. intros a0 n _.
  destruct (cls n); try apply findings_grow_refl.
  - apply fold_left_grow. intros a1 name _.
    now apply findings_grow_same.
  - destruct module as [m|]; [|apply findings_grow_refl].
    destruct (String.eqb m ""); [apply findings_grow_refl|].
    now apply findings_grow_same.
Qed.

Lemma check_python_nesting_grow (fr : nat) :
  forall n func_name file depth,
    preserves findings_grow (check_python_nesting fr n func_name file depth).
Proof.
  induction fr as [|fr IH]; intros n func_name file depth;
    cbn [check_python_nesting].
  - apply preserves_raise, findings_grow_refl.
  - apply preserves_bind; [apply findings_grow_trans | |].
    + destruct (is_control (cls n) && _).
      * apply preserves_modify. intros a. apply findings_grow_smell.
        in_catalogue.
      * apply preserves_ret, findings_grow_refl.
    + intros _. apply preserves_for_each;
        [apply findings_grow_refl | apply findings_grow_trans |].
      intros child _. apply IH.
Qed.

Lemma analyze_python_functions_grow `{Runtime} (tree : node) (file : string) :
  preserves findings_grow (analyze_python_functions tree file).
Proof.
  assert (Hsmell : forall b f i,
            listed smell_catalogue i ->
            preserves findings_grow
              (if b : bool then modify (add_code_smell f i) else ret tt)).
  { intros [|] f i Hi.
    - apply preserves_modify. intros a. now apply findings_grow_smell.
    - apply preserves_ret, findings_grow_refl. }
  unfold analyze_python_functions.
  apply preserves_for_each;
    [apply findings_grow_refl | apply findings_grow_trans |].
  intros n _.
  assert (Hfun : forall name fargs body_len,
            preserves findings_grow
              (analyze_function file n name fargs body_len)).
  { intros name fargs body_len. unfold analyze_function.
    apply preserves_bind; [apply findings_grow_trans | |].
    { unfold params_count_of. destruct has_posonlyargs.
      - apply preserves_ret, findings_grow_refl.
      - apply preserves_raise, findings_grow_refl. }
    intros params.
    repeat (apply preserves_bind; [apply findings_grow_trans | | intros _]);
      try (apply Hsmell; in_catalogue).
    - apply preserves_modify. intros a. now apply findings_grow_same.
    - apply check_python_nesting_grow. }
  destruct (cls n); try (apply preserves_ret, findings_grow_refl); apply Hfun.
Qed.

Lemma apply_regex_patterns_grow `{Runtime} (file content : string)
    (a : Analyzer) :
  findings_grow a (apply_regex_patterns PYTHON_ANTI_PATTERNS file content a).
Proof.
  unfold apply_regex_patterns.
  apply (patterns_grow PYTHON_ANTI_PATTERNS
           (fun m => Some (line_of_offset content (m_start m)))
           (fun m => Some (context_line (split_lines content)
                             (line_of_offset content (m_start m))))).
  apply python_patterns_listed.
Qed.

Lemma failure_issue_listed (e : exn) : listed style_catalogue (failure_issue e).
Proof. destruct e; in_catalogue. Qed.

Lemma regex_fallback_grow `{Runtime} (file content : string) (e : exn)
    (a : Analyzer) :
  findings_grow a (regex_fallback file content e a).
Proof.
  unfold regex_fallback, analyze_python_with_regex.
  eapply findings_grow_trans;
    [apply findings_grow_style, failure_issue_listed|].
  eapply findings_grow_trans.
  - apply (patterns_grow PYTHON_ANTI_PATTERNS
             (fun m => Some (line_of_offset content (m_start m)))
             (fun _ => None)).
    apply python_patterns_listed.
  - apply fold_left_grow. intros a0 m _.
    destruct (String.eqb _ ""); [apply findings_grow_refl|].
    now apply findings_grow_same.
Qed.

Lemma analyze_python_file_grow `{Runtime} (file content : string)
    (a : Analyzer) :
  findings_grow a (snd (analyze_python_file file content a)).
Proof.
  unfold analyze_python_file.
  destruct (ast_parse content) as [tree | e]; cbn [snd];
    [|apply regex_fallback_grow].
  destruct (analyze_python_functions tree file
              (analyze_python_imports tree file a)) as [[[] | e] a2] eqn:E;
    cbn [snd];
    (eapply findings_grow_trans; [apply imports_grow|]);
    (eapply findings_grow_trans;
     [eapply analyze_python_functions_grow; exact E|]).
  - apply apply_regex_patterns_grow.
  - apply regex_fallback_grow.
Qed.

Lemma analyze_js_file_grow `{Runtime} (file content : string) (a : Analyzer) :
  findings_grow a (analyze_js_file file content a).
Proof.
  unfold analyze_js_file. cbn zeta.
  eapply findings_grow_trans;
    [|apply fold_left_grow; intros a0 m _; now apply findings_grow_same].
  eapply findings_grow_trans;
    [|apply fold_left_grow; intros a0 m _; now apply findings_grow_same].
  apply (patterns_grow JS_ANTI_PATTERNS
           (fun m => Some (count_newlines (slice_to (m_start m) content) + 1))
           (fun _ => None)).
  apply js_patterns_listed.
Qed.

Lemma long_lines_grow (file : string) (lines : list string) :
  forall i a, findings_grow a (long_lines_loop file lines i a).
Proof.
  induction lines as [|line lines IH]; intros i a; cbn [long_lines_loop].
  - apply findings_grow_refl.
  - eapply findings_grow_trans; [|apply IH].
    destruct (100 <? _); [|apply findings_grow_refl].
    apply findings_grow_style. in_catalogue.
Qed.

Lemma rules_grow `{Runtime} (rules : list Rule)
    (add : string -> Issue -> Analyzer -> Analyzer)
    (catalogue : list (string * string)) (file content language : string) :
  (forall f i a, listed catalogue i -> findings_grow a (add f i a)) ->
  Forall (fun rule => r_regex rule = None
                      \/ In (r_name rule, r_severity rule) catalogue) rules ->
  forall a,
    findings_grow a
      (fold_left (fun a rule =>
         if rule_skipped rule language then a
         else match r_regex rule with
              | Some regex =>
                  fold_left (fun a m =>
                               add file (match_issue rule content m) a)
                    (re_finditer regex content) a
              | None => a
              end) rules a).
Proof.
  intros Hadd Hrules. apply fold_left_grow. intros a rule Hin.
  destruct (rule_skipped rule language); [apply findings_grow_refl|].
  destruct (r_regex rule) as [regex|] eqn:E; [|apply findings_grow_refl].
  apply fold_left_grow. intros a0 m _. apply Hadd.
  rewrite Forall_forall in Hrules. destruct (Hrules rule Hin) as [Hn | Hl];
    [congruence | exact Hl].
Qed.

Lemma report_commented_code_grow (file : string)
    (blocks : list (list (Z * string))) (a : Analyzer) :
  findings_grow a (report_commented_code file blocks a).
Proof.
  unfold report_commented_code. apply fold_left_grow. intros a0 b _.
  apply findings_grow_smell. in_catalogue.
Qed.

Lemma security_loop_grow `{Runtime} (file content language : string)
    (a : Analyzer) :
  findings_grow a (security_loop file content language a).
Proof.
  unfold security_loop.
  apply (rules_grow SECURITY_VULNERABILITIES add_security_issue
           security_catalogue).
  - intros f i a0. apply findings_grow_security.
  - repeat (apply Forall_cons; [right; in_catalogue|]). apply Forall_nil.
Qed.

Lemma performance_loop_grow `{Runtime} (file content language : string)
    (a : Analyzer) :
  findings_grow a (performance_loop file content language a).
Proof.
  unfold performance_loop.
  apply (rules_grow PERFORMANCE_ISSUES add_performance_issue
           performance_catalogue).
  - intros f i a0. apply findings_grow_performance.
  - repeat (apply Forall_cons;
            [first [left; reflexivity | right; in_catalogue]|]).
    apply Forall_nil.
Qed.

Lemma store_file_metrics_grow (file language : string) (lines : list string)
    (markers : list string) (in_block : bool) (a : Analyzer) :
  findings_grow a (store_file_metrics file language lines markers in_block a).
Proof. now apply findings_grow_same. Qed.

Lemma analyze_generic_grow `{Runtime} (file content language : string)
    (a : Analyzer) :
  findings_grow a (snd (analyze_generic file content language a)).
Proof.
  destruct (analyze_generic_run file content language)
    as (in_block & commented & ->).
  cbn [snd].
  eapply findings_grow_trans; [|apply store_file_metrics_grow].
  eapply findings_grow_trans; [|apply performance_loop_grow].
  eapply findings_grow_trans; [|apply security_loop_grow].
  eapply findings_grow_trans; [|apply report_commented_code_grow].
  apply long_lines_grow.
Qed.

Lemma analyze_file_grow `{Runtime} (hash : string -> Z) (f : SourceFile)
    (a : Analyzer) :
  findings_grow a (analyze_file hash f a).
Proof.
  unfold analyze_file.
  destruct (String.eqb _ "Unknown"); [apply findings_grow_refl|].
  destruct (sf_content f) as [content|]; [|apply findings_grow_refl].
  assert (Hcontent :
    findings_grow a
      (snd (analyze_content (sf_path f) content (language_of (sf_path f)) a))).
  { unfold analyze_content.
    destruct (String.eqb _ "Python").
    - eapply findings_grow_trans; [apply analyze_python_file_grow|].
      apply analyze_generic_grow.
    - destruct (str_in _ _).
      + eapply findings_grow_trans; [apply analyze_js_file_grow|].
        apply analyze_generic_grow.
      + apply analyze_generic_grow. }
  destruct (analyze_content _ _ _ a) as [[[]|e] a1]; cbn [snd] in Hcontent;
    [|exact Hcontent].
  eapply findings_grow_trans; [exact Hcontent|].
  now apply findings_grow_same.
Qed.

Lemma smell_duplicate_files_grow (locations : list Location)
    (lines n_locations : Z) :
  forall files_smelled a,
    findings_grow a
      (smell_duplicate_files locations lines n_locations files_smelled a).
Proof.
  induction locations as [|l rest IH]; intros files_smelled a;
    cbn [smell_duplicate_files].
  - apply findings_grow_refl.
  - destruct (str_in _ files_smelled); [apply IH|].
    eapply findings_grow_trans; [|apply IH].
    apply findings_grow_smell. in_catalogue.
Qed.

Lemma dup_group_step_grow (final : list ReportBlock)
    (reported : list (string * Z)) (a : Analyzer)
    (item : Z * list Occurrence) :
  findings_grow a (snd (dup_group_step (final, reported, a) item)).
Proof.
  unfold dup_group_step.
  destruct (1 <? len (snd item)); [|apply findings_grow_refl].
  destruct (snd item) as [|o occs]; [apply findings_grow_refl|].
  destruct (_ <? 5); [apply findings_grow_refl|].
  destruct (collect_locations (o :: occs) [] reported) as [locs reported'].
  destruct (1 <? len locs); [|apply findings_grow_refl].
  cbn [snd]. apply smell_duplicate_files_grow.
Qed.

Lemma dup_loop_grow (items : list (Z * list Occurrence)) :
  forall st, findings_grow (snd st) (snd (fold_left dup_group_step items st)).
Proof.
  induction items as [|item items IH]; intros st; cbn [fold_left].
  - apply findings_grow_refl.
  - eapply findings_grow_trans; [|apply IH].
    destruct st as [[final reported] a]. apply dup_group_step_grow.
Qed.

Lemma analyze_duplicated_code_grow (a : Analyzer) :
  findings_grow a (analyze_duplicated_code a).
Proof.
  unfold analyze_duplicated_code.
  pose proof (dup_loop_grow (duplicated_blocks a) ([], [], a)) as Hloop.
  destruct (fold_left dup_group_step (duplicated_blocks a) ([], [], a))
    as [[final reported] a'].
  cbn [snd] in Hloop. eapply findings_grow_trans; [exact Hloop|].
  now apply findings_grow_same.
Qed.

Lemma calculate_project_metrics_grow (a a' : Analyzer) :
  calculate_project_metrics a = Ok a' -> findings_grow a a'.
Proof.
  intros E. destruct (file_metrics a) as [|kv rest] eqn:Efm.
  - unfold calculate_project_metrics in E. rewrite Efm in E.
    inversion E; subst. apply findings_grow_refl.
  - destruct (calculate_project_metrics_stores a) as (pm & Epm & _).
    { rewrite Efm. discriminate. }
    rewrite Epm in E. inversion E; subst. now apply findings_grow_same.
Qed.

Lemma analyze_files_grow `{Runtime} (hash : string -> Z)
    (files : list SourceFile) (a : Analyzer) :
  findings_grow a (fold_left (fun a f => analyze_file hash f a) files a).
Proof.
  apply fold_left_grow. intros a0 f _. apply analyze_file_grow.
Qed.

(** X12: every finding of a run has one of the types that the analyzer
    knows, with the severity that goes with the type: thirteen types of
    code smell with severity low, medium or high, four types of security
    issue, all critical, two types of performance issue, both medium,
    and four types of style issue. *)
Theorem run_findings_catalogue `{Runtime} (hash : string -> Z)
    (files : list SourceFile) (a : Analyzer) :
  analyze_project hash files = Ok a ->
  Forall (listed smell_catalogue) (issues_of (code_smells a))
  /\ Forall (listed security_catalogue) (issues_of (security_issues a))
  /\ Forall (listed performance_catalogue) (issues_of (performance_issues a))
  /\ Forall (listed style_catalogue) (issues_of (style_issues a)).
Proof.
  intros E. unfold analyze_project in E.
  assert (Hgrow : findings_grow init a).
  { eapply findings_grow_trans; [apply (analyze_files_grow hash files)|].
    eapply findings_grow_trans; [apply analyze_duplicated_code_grow|].
    apply calculate_project_metrics_grow. exact E. }
  destruct Hgrow as ([_ H1] & [_ H2] & [_ H3] & [_ H4]).
  unfold issues_of.
  split; [|split; [|split]]; apply Forall_forall; intros i Hi;
    [apply H1 in Hi | apply H2 in Hi | apply H3 in Hi | apply H4 in Hi];
    destruct Hi as [[] | Hi]; exact Hi.
Qed.

Lemma run_findings_catalogue_witness :
  exists a,
    @analyze_project Examples.small_runtime (Examples.digits_hash 257 0)
      Samples.hunter2_files = Ok a
    /\ Forall (listed smell_catalogue) (issues_of (code_smells a))
    /\ Forall (listed security_catalogue) (issues_of (security_issues a))
    /\ Forall (listed performance_catalogue)
         (issues_of (performance_issues a))
    /\ Forall (listed style_catalogue) (issues_of (style_issues a)).
Proof.
  destruct (@analyze_project Examples.small_runtime
              (Examples.digits_hash 257 0) Samples.hunter2_files)
    as [a | e] eqn:E; [|vm_compute in E; discriminate E].
  exists a. split; [reflexivity|].
  exact (@run_findings_catalogue Examples.small_runtime
           (Examples.digits_hash 257 0) Samples.hunter2_files a E).
Defined.

(** X13: the analysis of one file of the project only appends: for
    every file and each of the four tables, the issues held before are
    still there afterwards, in the same order, before the new ones. *)
Theorem analyze_file_appends `{Runtime} (hash : string -> Z) (f : SourceFile)
    (a : Analyzer) (file : string) :
  let a' := analyze_file hash f a in
  (exists extra,
     dict_get (code_smells a') file []
     = dict_get (code_smells a) file [] ++ extra)
  /\ (exists extra,
        dict_get (security_issues a') file []
        = dict_get (security_issues a) file [] ++ extra)
  /\ (exists extra,
        dict_get (performance_issues a') file []
        = dict_get (performance_issues a) file [] ++ extra)
  /\ (exists extra,
        dict_get (style_issues a') file []
        = dict_get (style_issues a) file [] ++ extra).
Proof.
  destruct (analyze_file_grow hash f a) as ([H1 _] & [H2 _] & [H3 _] & [H4 _]).
  cbn zeta. split; [|split; [|split]];
    [apply H1 | apply H2 | apply H3 | apply H4].
Qed.

(** ** What the analysis of a file leaves alone *)

Section Frame.
Context `{Runtime} {C : Type}.
Variable proj : Analyzer -> C.
Hypothesis proj_code_smells : forall v a, proj (set_code_smells v a) = proj a.
Hypothesis proj_security_issues :
  forall v a, proj (set_security_issues v a) = proj a.
Hypothesis proj_performance_issues :
  forall v a, proj (set_performance_issues v a) = proj a.
Hypothesis proj_style_issues : forall v a, proj (set_style_issues v a) = proj a.
Hypothesis proj_dependencies : forall v a, proj (set_dependencies v a) = proj a.
Hypothesis proj_import_graph : forall v a, proj (set_import_graph v a) = proj a.
Hypothesis proj_function_metrics :
  forall v a, proj (set_function_metrics v a) = proj a.

Lemma frame_imports (tree : node) (file : string) (a : Analyzer) :
  proj (analyze_python_imports tree file a) = proj a.
Proof.
  unfold analyze_python_imports. apply fold_left_keeps. intros a0 n _.
  assert (Hrec : forall name a1, proj (record_import file name a1) = proj a1).
  { intros name a1. unfold record_import.
    now rewrite proj_dependencies, proj_import_graph. }
  destruct (cls n); try reflexivity.
  - apply fold_left_keeps. intros a1 name _. apply Hrec.
  - destruct module as [m|]; [|reflexivity].
    destruct (String.eqb m ""); [reflexivity|apply Hrec].
Qed.

Lemma frame_functions (tree : node) (file : string) (a a' : Analyzer)
    (r : result unit) :
  analyze_python_functions tree file a = (r, a') -> proj a' = proj a.
Proof.
  intros E. apply analyze_python_functions_only in E.
  destruct E as (tbl & fm & ->).
  now rewrite proj_function_metrics, proj_code_smells.
Qed.

Lemma frame_patterns (patterns : list Pattern)
    (issue_of : Pattern -> Match -> Issue) (file content : string)
    (a : Analyzer) :
  proj (fold_left (fun a p =>
          fold_left (fun a m => add_code_smell file (issue_of p m) a)
            (re_finditer (p_regex p) content) a) patterns a)
  = proj a.
Proof.
  apply fold_left_keeps. intros a0 p _. apply fold_left_keeps.
  intros a1 m _. apply proj_code_smells.
Qed.

Lemma frame_fallback (file content : string) (e : exn) (a : Analyzer) :
  proj (regex_fallback file content e a) = proj a.
Proof.
  unfold regex_fallback.
  rewrite (with_regex_keeps file content proj)
    by (assumption || apply proj_dependencies).
  apply proj_style_issues.
Qed.

Lemma frame_python_file (file content : string) (a : Analyzer) :
  proj (snd (analyze_python_file file content a)) = proj a.
Proof.
  unfold analyze_python_file.
  destruct (ast_parse content) as [tree | e]; cbn [snd];
    [|apply frame_fallback].
  destruct (analyze_python_functions tree file
              (analyze_python_imports tree file a)) as [[[] | e] a2] eqn:E;
    cbn [snd]; apply frame_functions in E.
  - unfold apply_regex_patterns.
    rewrite (frame_patterns PYTHON_ANTI_PATTERNS
               (fun p m =>
                  {| i_type := p_name p; i_description := p_description p;
                     i_severity := p_severity p;
                     i_line := Some (line_of_offset content (m_start m));
                     i_context :=
                       Some (context_line (split_lines content)
                               (line_of_offset content (m_start m))) |})).
    rewrite E. apply frame_imports.
  - rewrite frame_fallback, E. apply frame_imports.
Qed.

Lemma frame_js_file (file content : string) (a : Analyzer) :
  proj (analyze_js_file file content a) = proj a.
Proof.
  unfold analyze_js_file. cbn zeta.
  rewrite fold_left_keeps by (intros a0 m _; apply proj_dependencies).
  rewrite fold_left_keeps by (intros a0 m _; apply proj_dependencies).
  apply (frame_patterns JS_ANTI_PATTERNS
           (fun p m =>
              {| i_type := p_name p; i_description := p_description p;
                 i_severity := p_severity p;
                 i_line :=
                   Some (count_newlines (slice_to (m_start m) content) + 1);
                 i_context := None |})).
Qed.

Lemma frame_generic_findings (file content language : string)
    (lines : list string) (blocks : list (list (Z * string))) (a : Analyzer) :
  proj (performance_loop file content language
          (security_loop file content language
             (report_commented_code file blocks
                (long_lines_loop file lines 0 a))))
  = proj a.
Proof.
  unfold performance_loop, security_loop.
  rewrite (rules_keep proj) by (intros; apply proj_performance_issues).
  rewrite (rules_keep proj) by (intros; apply proj_security_issues).
  rewrite (report_commented_code_keep proj) by assumption.
  now apply long_lines_keep.
Qed.
End Frame.

Section FrameFile.
Context `{Runtime} {C : Type}.
Variable proj : Analyzer -> C.
Hypothesis proj_code_smells : forall v a, proj (set_code_smells v a) = proj a.
Hypothesis proj_security_issues :
  forall v a, proj (set_security_issues v a) = proj a.
Hypothesis proj_performance_issues :
  forall v a, proj (set_performance_issues v a) = proj a.
Hypothesis proj_style_issues : forall v a, proj (set_style_issues v a) = proj a.
Hypothesis proj_dependencies : forall v a, proj (set_dependencies v a) = proj a.
Hypothesis proj_import_graph : forall v a, proj (set_import_graph v a) = proj a.
Hypothesis proj_function_metrics :
  forall v a, proj (set_function_metrics v a) = proj a.

(** The analysis that comes before the generic one. *)
Lemma frame_language_specific (file content language : string)
    (a : Analyzer) :
  proj (if String.eqb language "Python"
        then snd (analyze_python_file file content a)
        else if str_in language ["JavaScript"; "TypeScript"]
        then analyze_js_file file content a
        else a)
  = proj a.
Proof.
  destruct (String.eqb language "Python"); [now apply frame_python_file|].
  destruct (str_in language _); [now apply frame_js_file|reflexivity].
Qed.

Hypothesis proj_file_metrics : forall v a, proj (set_file_metrics v a) = proj a.
Hypothesis proj_duplicated_blocks :
  forall v a, proj (set_duplicated_blocks v a) = proj a.

Lemma frame_analyze_file (hash : string -> Z) (f : SourceFile) (a : Analyzer) :
  proj (analyze_file hash f a) = proj a.
Proof.
  unfold analyze_file.
  destruct (String.eqb _ "Unknown"); [reflexivity|].
  destruct (sf_content f) as [content|]; [|reflexivity].
  unfold analyze_content.
  destruct (analyze_generic_run (sf_path f) content (language_of (sf_path f)))
    as (in_block & commented & ->).
  unfold check_duplicated_code, store_file_metrics.
  rewrite proj_duplicated_blocks, proj_file_metrics.
  rewrite frame_generic_findings by assumption.
  now apply frame_language_specific.
Qed.

Lemma frame_analyze_files (hash : string -> Z) (files : list SourceFile)
    (a : Analyzer) :
  proj (fold_left (fun a f => analyze_file hash f a) files a) = proj a.
Proof.
  apply fold_left_keeps. intros a0 f _. apply frame_analyze_file.
Qed.
End FrameFile.

Section FrameDuplicates.
Context {C : Type}.
Variable proj : Analyzer -> C.
Hypothesis proj_code_smells : forall v a, proj (set_code_smells v a) = proj a.
Hypothesis proj_duplicated_code :
  forall v a, proj (set_duplicated_code v a) = proj a.

Lemma frame_smell_duplicate_files (locations : list Location)
    (lines n_locations : Z) :
  forall files_smelled a,
    proj (smell_duplicate_files locations lines n_locations files_smelled a)
    = proj a.
Proof.
  induction locations as [|l rest IH]; intros files_smelled a;
    cbn [smell_duplicate_files]; [reflexivity|].
  destruct (str_in _ files_smelled); [apply IH|].
  rewrite IH. apply proj_code_smells.
Qed.

Lemma frame_dup_group_step (st : dup_loop_state)
    (item : Z * list Occurrence) :
  proj (snd (dup_group_step st item)) = proj (snd st).
Proof.
  destruct st as [[final reported] a]. unfold dup_group_step.
  destruct (1 <? len (snd item)); [|reflexivity].
  destruct (snd item) as [|o occs]; [reflexivity|].
  destruct (_ <? 5); [reflexivity|].
  destruct (collect_locations (o :: occs) [] reported) as [locs reported'].
  destruct (1 <? len locs); [|reflexivity].
  cbn [snd]. apply frame_smell_duplicate_files.
Qed.

Lemma frame_dup_loop (items : list (Z * list Occurrence)) :
  forall st, proj (snd (fold_left dup_group_step items st)) = proj (snd st).
Proof.
  induction items as [|item items IH]; intros st; cbn [fold_left];
    [reflexivity|].
  rewrite IH. apply frame_dup_group_step.
Qed.

Lemma frame_analyze_duplicated_code (a : Analyzer) :
  proj (analyze_duplicated_code a) = proj a.
Proof.
  unfold analyze_duplicated_code.
  pose proof (frame_dup_loop (duplicated_blocks a) ([], [], a)) as Hloop.
  destruct (fold_left dup_group_step (duplicated_blocks a) ([], [], a))
    as [[final reported] a'].
  cbn [snd] in Hloop. rewrite proj_duplicated_code. exact Hloop.
Qed.
End FrameDuplicates.

(** ** Which files get metrics *)

Lemma dict_keys_set {K V} `{KeyEq K} (d : dict K V) (k : K) (v : V) (p : K) :
  In p (dict_keys (dict_set d k v)) <-> p = k \/ In p (dict_keys d).
Proof.
  unfold dict_keys. induction d as [|[k' v'] d IH]; cbn [dict_set map fst In].
  - intuition.
  - destruct (keqb_spec k' k) as [-> | Hne]; cbn [map fst In].
    + intuition.
    + rewrite IH. intuition.
Qed.

Lemma analyze_file_file_metrics `{Runtime} (f : SourceFile) :
  exists fm,
    forall hash a,
      file_metrics (analyze_file hash f a)
      = if analysable f then dict_set (file_metrics a) (sf_path f) fm
        else file_metrics a.
Proof.
  unfold analyze_file, analysable.
  destruct (String.eqb _ "Unknown");
    [exists (mkFileMetrics 0 0 0 0); reflexivity|].
  destruct (sf_content f) as [content|];
    [|exists (mkFileMetrics 0 0 0 0); reflexivity].
  cbn [negb andb]. unfold analyze_content.
  destruct (analyze_generic_run (sf_path f) content (language_of (sf_path f)))
    as (in_block & commented & Hrun).
  eexists. intros hash a. rewrite Hrun.
  unfold check_duplicated_code, store_file_metrics.
  cbn [file_metrics set_duplicated_blocks set_file_metrics].
  rewrite (frame_generic_findings file_metrics) by reflexivity.
  rewrite (frame_language_specific file_metrics) by reflexivity.
  reflexivity.
Qed.

Lemma analyze_files_keys `{Runtime} (hash : string -> Z)
    (files : list SourceFile) (p : string) :
  forall a,
    In p (dict_keys (file_metrics
                       (fold_left (fun a f => analyze_file hash f a) files a)))
    <-> In p (dict_keys (file_metrics a))
        \/ exists f, In f files /\ analysable f = true /\ sf_path f = p.
Proof.
  induction files as [|f files IH]; intros a; cbn [fold_left].
  - split; [now left | intros [Hp | (f & [] & _)]; exact Hp].
  - rewrite IH. destruct (analyze_file_file_metrics f) as (fm & ->).
    destruct (analysable f) eqn:Ef.
    + rewrite dict_keys_set. split.
      * intros [[-> | Hp] | (g & Hg & Hga & Hgp)].
        -- right. exists f. repeat split; [now left | exact Ef].
        -- now left.
        -- right. exists g. repeat split; [now right | exact Hga | exact Hgp].
      * intros [Hp | (g & [<- | Hg] & Hga & Hgp)].
        -- left. now right.
        -- left. now left.
        -- right. now exists g.
    + split.
      * intros [Hp | (g & Hg & Hga & Hgp)]; [now left|].
        right. exists g. repeat split; [now right | exact Hga | exact Hgp].
      * intros [Hp | (g & [<- | Hg] & Hga & Hgp)]; [now left | congruence |].
        right. now exists g.
Qed.

(** X14: after a run the files with metrics are the files of the
    project that have a known language and can be read, and the project
    metrics are missing exactly when the project has no such file. *)
Theorem run_metrics_presence `{Runtime} (hash : string -> Z)
    (files : list SourceFile) (a : Analyzer) :
  analyze_project hash files = Ok a ->
  (forall p,
     In p (dict_keys (file_metrics a))
     <-> exists f, In f files /\ analysable f = true /\ sf_path f = p)
  /\ (complexity_metrics a = None
      <-> forall f, In f files -> analysable f = false).
Proof.
  unfold analyze_project. intros E.
  set (a1 := fold_left (fun a f => analyze_file hash f a) files init) in *.
  set (a2 := analyze_duplicated_code a1) in *.
  assert (Hfm2 : file_metrics a2 = file_metrics a1)
    by (apply (frame_analyze_duplicated_code file_metrics); reflexivity).
  assert (Hcm2 : complexity_metrics a2 = None).
  { unfold a2.
    rewrite (frame_analyze_duplicated_code complexity_metrics) by reflexivity.
    unfold a1.
    now rewrite (frame_analyze_files complexity_metrics) by reflexivity. }
  assert (Hkeys : forall p,
            In p (dict_keys (file_metrics a1))
            <-> exists f, In f files /\ analysable f = true /\ sf_path f = p).
  { intros p. unfold a1. rewrite analyze_files_keys. cbn [init file_metrics
      dict_keys map In]. split; [intros [[] | Hp]; exact Hp | now right]. }
  rewrite <- Hfm2 in Hkeys. clear Hfm2.
  destruct (file_metrics a2) as [|[k v] rest] eqn:Efm.
  - unfold calculate_project_metrics in E. rewrite Efm in E.
    inversion E; subst a. rewrite Efm, Hcm2.
    split; [exact Hkeys|].
    split; [|reflexivity]. intros _ f Hf.
    destruct (analysable f) eqn:Ef; [|reflexivity].
    destruct (proj2 (Hkeys (sf_path f))) as [].
    exists f. now repeat split.
  - destruct (calculate_project_metrics_stores a2) as (pm & Epm & _).
    { rewrite Efm. discriminate. }
    rewrite Epm in E. inversion E; subst a.
    cbn [file_metrics complexity_metrics set_complexity_metrics].
    rewrite Efm. split; [exact Hkeys|].
    split; [discriminate|]. intros Hnone.
    destruct (proj1 (Hkeys k)) as (f & Hf & Hfa & _); [now left|].
    rewrite (Hnone f Hf) in Hfa. discriminate.
Qed.

Lemma run_metrics_presence_witness :
  exists a,
    @analyze_project Examples.small_runtime (Examples.digits_hash 257 0)
      Samples.unread_files = Ok a
    /\ (forall p,
          In p (dict_keys (file_metrics a))
          <-> exists f, In f Samples.unread_files /\ analysable f = true
                        /\ sf_path f = p)
    /\ (complexity_metrics a = None
        <-> forall f, In f Samples.unread_files -> analysable f = false).
Proof.
  destruct (@analyze_project Examples.small_runtime
              (Examples.digits_hash 257 0) Samples.unread_files)
    as [a | e] eqn:E; [|vm_compute in E; discriminate E].
  exists a. split; [reflexivity|].
  exact (@run_metrics_presence Examples.small_runtime
           (Examples.digits_hash 257 0) Samples.unread_files a E).
Defined.

(** ** The scanner records substantial blocks only *)

Lemma window_loop_substantial (hash : string -> Z) (file : string)
    (clean_lines : list string) (indices : list nat) (o : Occurrence) :
  forall blocks,
    In o (all_occurrences
            (fold_left (window_step hash file clean_lines) indices blocks)) ->
    In o (all_occurrences blocks) \/ too_simple (occ_content o) = false.
Proof.
  induction indices as [|i indices IH]; intros blocks Hin; cbn [fold_left] in Hin.
  - now left.
  - apply IH in Hin. destruct Hin as [Hin | Hin]; [|now right].
    unfold window_step in Hin.
    destruct (too_simple (window clean_lines i)) eqn:E; [now left|].
    apply in_dd_append in Hin. destruct Hin as [Hin | ->]; [now left|].
    right. exact E.
Qed.

(** X15: every block that [_check_duplicated_code] records for a file
    has 100 characters or more and a run of three letters, and a file
    with fewer than five lines of code records nothing. *)
Theorem recorded_blocks_substantial (hash : string -> Z)
    (file content language : string) (a : Analyzer) :
  (forall o,
     In o (all_occurrences
             (duplicated_blocks
                (check_duplicated_code hash file content language a))) ->
     In o (all_occurrences (duplicated_blocks a))
     \/ (100 <= strlen (occ_content o)
         /\ has_letter_run (occ_content o) = true))
  /\ (len (clean_lines_of content language) < 5 ->
      check_duplicated_code hash file content language a = a).
Proof.
  split.
  - intros o Hin. unfold check_duplicated_code in Hin.
    cbn [duplicated_blocks set_duplicated_blocks] in Hin.
    apply window_loop_substantial in Hin.
    destruct Hin as [Hin | Hin]; [now left|]. right.
    unfold too_simple in Hin. apply orb_false_elim in Hin.
    destruct Hin as [Hlen Hrun]. split.
    + apply Z.ltb_ge in Hlen. exact Hlen.
    + now apply negb_false_iff in Hrun.
  - intros Hshort. unfold check_duplicated_code, range, min_block_size.
    replace (Z.to_nat (len (clean_lines_of content language) - 5 + 1))
      with O by lia.
    cbn [seq fold_left]. now destruct a.
Qed.

(** ** The lines that the scanner compares *)

Lemma clean_lines_loop_keeps (P : string -> Prop) (language : string)
    (markers : list string) (lines : list string) :
  (forall line,
     In line lines -> strip line <> "" ->
     existsb (startswith (strip line)) markers = false ->
     P (strip line)) ->
  forall in_block clean,
    Forall P clean ->
    Forall P (clean_lines_loop language markers lines in_block clean).
Proof.
  induction lines as [|line lines IH]; intros Hline in_block clean Hclean;
    cbn [clean_lines_loop]; [exact Hclean|].
  assert (Hrest : forall l, In l lines -> strip l <> "" ->
            existsb (startswith (strip l)) markers = false -> P (strip l))
    by (intros l Hl; apply Hline; now right).
  destruct (String.eqb_spec (strip line) "") as [E | E]; [now apply IH|].
  destruct (str_in language dup_block_comment_languages
            && contains (strip line) "*/" && _); [now apply IH|].
  destruct (existsb (startswith (strip line)) markers) eqn:Em;
    cbn [orb]; [now apply IH|].
  destruct (if str_in language dup_block_comment_languages
               && opens_block_comment (strip line)
            then true else in_block); [now apply IH|].
  apply IH; [exact Hrest|]. apply Forall_app. split; [exact Hclean|].
  constructor; [|constructor]. apply Hline; [now left | exact E | exact Em].
Qed.

(** X16: the lines that [_check_duplicated_code] compares are lines of
    the file without their leading and trailing white space; none is
    empty, and none starts with a comment marker of the language. *)
Theorem clean_lines_are_code (content language : string) :
  Forall (fun clean =>
            clean <> ""
            /\ (exists line, In line (split_lines content)
                             /\ clean = strip line)
            /\ forall marker,
                 In marker (dict_get dup_comment_markers language ["#"; "//"]) ->
                 startswith clean marker = false)
    (clean_lines_of content language).
Proof.
  unfold clean_lines_of. apply clean_lines_loop_keeps; [|constructor].
  intros line Hin Hne Hmark. split; [exact Hne|]. split; [now exists line|].
  intros marker Hm.
  destruct (startswith (strip line) marker) eqn:E; [|reflexivity].
  assert (existsb (startswith (strip line))
            (dict_get dup_comment_markers language ["#"; "//"]) = true);
    [|congruence].
  apply existsb_exists. now exists marker.
Qed.

(** ** One smell per file of a reported block *)

Lemma str_in_app (x : string) (l1 l2 : list string) :
  str_in x (l1 ++ l2) = str_in x l1 || str_in x l2.
Proof. unfold str_in. apply existsb_app. Qed.

Lemma str_in_set_add (x y : string) (s : list string) :
  str_in x (set_add s y) = str_in x s || String.eqb x y.
Proof.
  unfold set_add. change (existsb (keqb y) s) with (str_in y s).
  destruct (str_in y s) eqn:E.
  - destruct (String.eqb_spec x y) as [-> | Hne]; [|now rewrite orb_false_r].
    now rewrite E.
  - rewrite str_in_app. cbn. now rewrite orb_false_r.
Qed.

Lemma smell_duplicate_files_get (locations : list Location)
    (lines n_locations : Z) (f : string) :
  forall files_smelled a,
    dict_get (code_smells
                (smell_duplicate_files locations lines n_locations
                   files_smelled a)) f []
    = dict_get (code_smells a) f []
      ++ (if str_in f files_smelled then []
          else match List.find (fun l => String.eqb (file_path l) f)
                       locations with
               | Some l =>
                   [duplicate_code_issue lines n_locations (start_line l)]
               | None => []
               end).
Proof.
  induction locations as [|l rest IH]; intros files_smelled a;
    cbn [smell_duplicate_files List.find].
  - destruct (str_in f files_smelled); now rewrite app_nil_r.
  - destruct (str_in (file_path l) files_smelled) eqn:El.
    + rewrite IH. destruct (str_in f files_smelled) eqn:Ef; [reflexivity|].
      destruct (String.eqb_spec (file_path l) f) as [E | E];
        [congruence|reflexivity].
    + rewrite IH, str_in_set_add.
      unfold add_code_smell. cbn [code_smells set_code_smells].
      rewrite dict_get_dd_append. cbn [keqb KeyEq_string].
      rewrite (String.eqb_sym f).
      destruct (String.eqb_spec (file_path l) f) as [E | E].
      * rewrite orb_true_r, app_nil_r. rewrite <- E, El. reflexivity.
      * rewrite orb_false_r, app_nil_r. reflexivity.
Qed.

(** One turn of the loop over the hash groups adds no block or one; a
    block that it adds has five lines or more and leaves its smell in
    each of its files. *)
Lemma dup_group_step_block (final : list ReportBlock)
    (reported : list (string * Z)) (a : Analyzer)
    (item : Z * list Occurrence) (f : string) :
  exists new,
    fst (fst (dup_group_step (final, reported, a) item)) = final ++ new
    /\ Forall (fun rb => 5 <= rb_lines rb) new
    /\ dict_get (code_smells (snd (dup_group_step (final, reported, a) item)))
         f []
       = dict_get (code_smells a) f [] ++ flat_map (block_smell f) new.
Proof.
  assert (Hnone : exists new : list ReportBlock,
            final = final ++ new
            /\ Forall (fun rb => 5 <= rb_lines rb) new
            /\ dict_get (code_smells a) f []
               = dict_get (code_smells a) f [] ++ flat_map (block_smell f) new).
  { exists []. now rewrite !app_nil_r. }
  unfold dup_group_step.
  destruct (1 <? len (snd item)); [|exact Hnone].
  destruct (snd item) as [|o occs]; [exact Hnone|].
  destruct (Z.ltb_spec (occ_end_line o - occ_start_line o + 1) 5);
    [exact Hnone|].
  destruct (collect_locations (o :: occs) [] reported) as [locs reported'].
  destruct (1 <? len locs); [|exact Hnone].
  cbn [fst snd]. eexists [_]. split; [reflexivity|].
  split; [constructor; [exact H|constructor]|].
  rewrite smell_duplicate_files_get. cbn [flat_map str_in existsb].
  unfold block_smell. cbn [rb_files rb_lines]. now rewrite app_nil_r.
Qed.

Lemma dup_loop_blocks (items : list (Z * list Occurrence)) (f : string) :
  forall final reported a,
    exists new,
      fst (fst (fold_left dup_group_step items (final, reported, a)))
      = final ++ new
      /\ Forall (fun rb => 5 <= rb_lines rb) new
      /\ dict_get (code_smells
                     (snd (fold_left dup_group_step items
                             (final, reported, a)))) f []
         = dict_get (code_smells a) f [] ++ flat_map (block_smell f) new.
Proof.
  induction items as [|item items IH]; intros final reported a;
    cbn [fold_left].
  - exists []. now rewrite !app_nil_r.
  - destruct (dup_group_step_block final reported a item f)
      as (new1 & E1 & P1 & S1).
    destruct (dup_group_step (final, reported, a) item)
      as [[final1 reported1] a1].
    cbn [fst snd] in E1, S1.
    destruct (IH final1 reported1 a1) as (new2 & E2 & P2 & S2).
    exists (new1 ++ new2). rewrite E2, S2, E1, S1.
    rewrite flat_map_app, <- !app_assoc.
    repeat split. apply Forall_app. now split.
Qed.

(** X17: [_analyze_duplicated_code] appends to the code smells of a
    file one [duplicate_code] smell for each reported block with a
    location in the file, at the block's first location there, with the
    line count and the number of locations of the block; a file without
    a location in any block gets none. *)
Theorem duplicate_smell_per_file (a : Analyzer) (f : string) :
  exists blocks,
    Permutation blocks (duplicated_code (analyze_duplicated_code a))
    /\ dict_get (code_smells (analyze_duplicated_code a)) f []
       = dict_get (code_smells a) f [] ++ flat_map (block_smell f) blocks.
Proof.
  unfold analyze_duplicated_code.
  destruct (dup_loop_blocks (duplicated_blocks a) f [] [] a)
    as (new & E & _ & S).
  destruct (fold_left dup_group_step (duplicated_blocks a) ([], [], a))
    as [[final reported] a'].
  cbn [fst snd app] in E, S. subst final.
  exists new. cbn [duplicated_code code_smells set_duplicated_code].
  split; [apply sort_desc_perm | exact S].
Qed.

(** ** The order of the report *)

Lemma sort_key_gt_total (x y z : ReportBlock) :
  sort_key_gt y x = false -> sort_key_gt z y = false ->
  sort_key_gt z x = false.
Proof.
  unfold sort_key_gt. intros H1 H2.
  apply orb_false_elim in H1. destruct H1 as [A1 B1].
  apply orb_false_elim in H2. destruct H2 as [A2 B2].
  apply Z.ltb_ge in A1, A2.
  apply orb_false_intro.
  - apply Z.ltb_ge.
    lia.
  - destruct (Z.eqb_spec (rb_lines x) (rb_lines z)) as [E | E];
      [|reflexivity].
    cbn [andb]. apply Z.ltb_ge.
    assert (rb_lines x = rb_lines y) by lia.
    assert (rb_lines y = rb_lines z) by lia.
    destruct (Z.eqb_spec (rb_lines x) (rb_lines y)); [|contradiction].
    destruct (Z.eqb_spec (rb_lines y) (rb_lines z)); [|contradiction].
    cbn [andb] in B1, B2. apply Z.ltb_ge in B1, B2. lia.
Qed.

Lemma sort_key_gt_asym (x y : ReportBlock) :
  sort_key_gt y x = true -> sort_key_gt x y = false.
Proof.
  unfold sort_key_gt. intros H.
  apply orb_true_iff in H. apply orb_false_intro.
  - apply Z.ltb_ge. destruct H as [H | H].
    + apply Z.ltb_lt in H. lia.
    + apply andb_true_iff in H. destruct H as [H _].
      apply Z.eqb_eq in H. lia.
  - destruct H as [H | H].
    + apply Z.ltb_lt in H.
      destruct (Z.eqb_spec (rb_lines y) (rb_lines x)); [lia|reflexivity].
    + apply andb_true_iff in H. destruct H as [H1 H2].
      apply Z.ltb_lt in H2. apply andb_false_intro2. apply Z.ltb_ge. lia.
Qed.

Lemma insert_desc_sorted (x : ReportBlock) (l : list ReportBlock) :
  StronglySorted (fun u v => sort_key_gt v u = false) l ->
  StronglySorted (fun u v => sort_key_gt v u = false) (insert_desc x l).
Proof.
  intros Hl. induction Hl as [|y r Hr IH Hy]; cbn [insert_desc].
  - repeat constructor.
  - destruct (sort_key_gt y x) eqn:E.
    + constructor; [exact IH|].
      apply Forall_forall. intros z Hz.
      apply (Permutation_in _ (Permutation_sym (insert_desc_perm x r))) in Hz.
      destruct Hz as [<- | Hz].
      * now apply sort_key_gt_asym.
      * rewrite Forall_forall in Hy. now apply Hy.
    + constructor; [now constructor|].
      constructor; [exact E|].
      apply Forall_forall. intros z Hz. rewrite Forall_forall in Hy.
      apply (sort_key_gt_total x y z); [exact E | now apply Hy].
Qed.

Lemma sort_desc_sorted (l : list ReportBlock) :
  StronglySorted (fun u v => sort_key_gt v u = false) (sort_desc l).
Proof.
  unfold sort_desc. induction l as [|x l IH]; cbn [fold_right].
  - constructor.
  - now apply insert_desc_sorted.
Qed.

(** X18: the reported blocks are in descending order of their pair
    (lines, tokens), and each has five lines or more. *)
Theorem duplicates_report_sorted (a : Analyzer) :
  let reported := duplicated_code (analyze_duplicated_code a) in
  StronglySorted (fun earlier later => sort_key_gt later earlier = false)
    reported
  /\ Forall (fun rb => 5 <= rb_lines rb) reported.
Proof.
  unfold analyze_duplicated_code.
  destruct (dup_loop_blocks (duplicated_blocks a) "" [] [] a)
    as (new & E & P & _).
  destruct (fold_left dup_group_step (duplicated_blocks a) ([], [], a))
    as [[final reported] a'].
  cbn [fst snd app] in E. subst final.
  cbn [duplicated_code set_duplicated_code]. cbn zeta.
  split; [apply sort_desc_sorted|].
  apply Forall_forall. intros rb Hrb. rewrite Forall_forall in P. apply P.
  apply (Permutation_in _ (Permutation_sym (sort_desc_perm new))). exact Hrb.
Qed.

(** ** Hash groups with distinct locations *)

Lemma collect_locations_fresh (occs : list Occurrence) :
  forall (locs : list Location) (rep : list (string * Z)),
    NoDup (map occ_key occs) ->
    (forall o, In o occs -> ~ In (occ_key o) rep) ->
    collect_locations occs locs rep
    = (locs ++ map location_of occs, rep ++ map occ_key occs).
Proof.
  induction occs as [|occ occs IH]; intros locs rep Hnd Hrep;
    cbn [collect_locations map].
  - now rewrite !app_nil_r.
  - assert (E : existsb (keqb (occ_file occ, occ_start_line occ)) rep = false).
    { apply existsb_keqb_not_in. apply (Hrep occ). now left. }
    rewrite E. apply existsb_keqb_not_in in E.
    rewrite (set_add_new _ _ E).
    inversion Hnd as [|k ks Hk Hks]; subst.
    rewrite IH.
    + unfold location_of at 2, occ_key at 2. now rewrite <- !app_assoc.
    + exact Hks.
    + intros o Ho Hin. apply in_app_or in Hin. destruct Hin as [Hin | [Hin | []]].
      * apply (Hrep o); [now right | exact Hin].
      * apply Hk. apply in_map_iff. exists o. split; [|exact Ho].
        symmetry. exact Hin.
Qed.

Lemma dup_group_step_fresh (final : list ReportBlock)
    (reported : list (string * Z)) (a : Analyzer)
    (item : Z * list Occurrence) :
  NoDup (map occ_key (snd item)) ->
  (forall o, In o (snd item) -> ~ In (occ_key o) reported) ->
  fst (dup_group_step (final, reported, a) item)
  = if is_processed item
    then (final ++ [report_of (snd item)],
          reported ++ map occ_key (snd item))
    else (final, reported).
Proof.
  intros Hnd Hrep. unfold dup_group_step, is_processed.
  destruct (Z.ltb_spec 1 (len (snd item))) as [Hlen | Hlen];
    [|reflexivity].
  destruct (snd item) as [|o occs] eqn:Eocc; [reflexivity|].
  cbn [andb]. destruct (_ <? 5); [reflexivity|]. cbn [negb].
  rewrite (collect_locations_fresh _ _ _ Hnd Hrep). cbn [app].
  assert (E : (1 <? len (map location_of (o :: occs))) = true).
  { apply Z.ltb_lt. unfold len in *. now rewrite length_map. }
  rewrite E. reflexivity.
Qed.

Lemma NoDup_app_l {A} (l1 l2 : list A) : NoDup (l1 ++ l2) -> NoDup l1.
Proof.
  induction l1 as [|x l1 IH]; intros H; [constructor|].
  inversion H as [|y ys Hx Hnd]; subst. constructor.
  - intros Hin. apply Hx. apply in_or_app. now left.
  - now apply IH.
Qed.

Lemma NoDup_app_r {A} (l1 l2 : list A) : NoDup (l1 ++ l2) -> NoDup l2.
Proof.
  induction l1 as [|x l1 IH]; intros H; [exact H|].
  inversion H; subst. now apply IH.
Qed.

Lemma NoDup_app_disjoint {A} (l1 l2 : list A) (x : A) :
  NoDup (l1 ++ l2) -> In x l1 -> In x l2 -> False.
Proof.
  induction l1 as [|y l1 IH]; intros H H1 H2; [destruct H1|].
  inversion H as [|z zs Hy Hnd]; subst. destruct H1 as [-> | H1].
  - apply Hy. apply in_or_app. now right.
  - now apply IH.
Qed.

Lemma dup_loop_fresh (items : list (Z * list Occurrence)) :
  forall final reported a,
    NoDup (map occ_key (List.concat (map snd items))) ->
    (forall o, In o (List.concat (map snd items)) ->
       ~ In (occ_key o) reported) ->
    fst (fst (fold_left dup_group_step items (final, reported, a)))
    = final ++ map (fun item => report_of (snd item))
                 (filter is_processed items).
Proof.
  induction items as [|item items IH]; intros final reported a Hnd Hrep;
    cbn [fold_left filter map].
  - now rewrite app_nil_r.
  - cbn [map List.concat] in Hnd, Hrep. rewrite map_app in Hnd.
    pose proof (dup_group_step_fresh final reported a item
                  (NoDup_app_l _ _ Hnd)
                  (fun o Ho => Hrep o (in_or_app _ _ _ (or_introl Ho))))
      as Estep.
    destruct (dup_group_step (final, reported, a) item)
      as [[final1 reported1] a1].
    cbn [fst] in Estep.
    destruct (is_processed item); inversion Estep; subst final1 reported1.
    + rewrite IH.
      * cbn [map]. now rewrite <- app_assoc.
      * exact (NoDup_app_r _ _ Hnd).
      * intros o Ho Hin. apply in_app_or in Hin. destruct Hin as [Hin | Hin].
        -- apply (Hrep o); [|exact Hin]. apply in_or_app. now right.
        -- apply (NoDup_app_disjoint _ _ (occ_key o) Hnd); [exact Hin|].
           now apply in_map.
    + apply IH.
      * exact (NoDup_app_r _ _ Hnd).
      * intros o Ho. apply Hrep. apply in_or_app. now right.
Qed.

Lemma analyze_duplicated_code_fresh (a : Analyzer) :
  NoDup (map occ_key (all_occurrences (duplicated_blocks a))) ->
  duplicated_code (analyze_duplicated_code a)
  = sort_desc (map (fun item => report_of (snd item))
                 (filter is_processed (duplicated_blocks a))).
Proof.
  intros Hnd. unfold analyze_duplicated_code.
  pose proof (dup_loop_fresh (duplicated_blocks a) [] [] a Hnd
                (fun o _ Hin => Hin)) as E.
  destruct (fold_left dup_group_step (duplicated_blocks a) ([], [], a))
    as [[final reported] a'].
  cbn [fst app] in E. subst final. reflexivity.
Qed.

(** X19: when no two recorded windows share a file and a start line,
    [_analyze_duplicated_code] reports exactly the hash groups with two
    windows or more of five lines or more, each with all its windows as
    locations, with the line count, the token count and the snippet of
    its first window. *)
Theorem distinct_windows_all_reported (a : Analyzer) :
  NoDup (map occ_key (all_occurrences (duplicated_blocks a))) ->
  duplicated_code (analyze_duplicated_code a)
  = sort_desc (map (fun item => report_of (snd item))
                 (filter is_processed (duplicated_blocks a))).
Proof.
  intros Hnd. unfold analyze_duplicated_code.
  pose proof (dup_loop_fresh (duplicated_blocks a) [] [] a Hnd
                (fun o _ Hin => Hin)) as E.
  destruct (fold_left dup_group_step (duplicated_blocks a) ([], [], a))
    as [[final reported] a'].
  cbn [fst app] in E. subst final. reflexivity.
Qed.

Lemma distinct_windows_all_reported_witness :
  let a :=
    fold_left (fun a f =>
                 @analyze_file (Examples.python3 Examples.parse_statements)
                   (Examples.digits_hash 257 0) f a)
      Examples.two_copies init in
  duplicated_code (analyze_duplicated_code a)
  = sort_desc (map (fun item => report_of (snd item))
                 (filter is_processed (duplicated_blocks a))).
Proof.
  cbn zeta. apply distinct_windows_all_reported.
  vm_compute.
  repeat (constructor; [intros Hin; cbn in Hin; intuition discriminate|]).
  constructor.
Defined.

(** ** The windows of a run over distinct paths *)

Lemma all_occurrences_dd_append (d : dict Z (list Occurrence)) (k : Z)
    (x : Occurrence) :
  Permutation (all_occurrences (dd_append d k x)) (all_occurrences d ++ [x]).
Proof.
  unfold all_occurrences, dict_values.
  induction d as [|[k' v] d IH].
  - rewrite dd_append_nil. cbn. apply Permutation_refl.
  - rewrite dd_append_cons. destruct (keqb k' k); cbn [map snd List.concat].
    + rewrite <- !app_assoc. apply Permutation_app_head.
      apply Permutation_app_comm.
    + rewrite <- app_assoc. now apply Permutation_app_head.
Qed.

Lemma all_occurrences_insert_windows (hash : string -> Z)
    (ws : list (string * Occurrence)) :
  forall d,
    Permutation (all_occurrences (insert_windows hash ws d))
      (all_occurrences d ++ map snd ws).
Proof.
  unfold insert_windows.
  induction ws as [|w ws IH]; intros d; cbn [fold_left map].
  - rewrite app_nil_r. apply Permutation_refl.
  - eapply Permutation_trans; [apply IH|].
    eapply Permutation_trans;
      [apply Permutation_app_tail, all_occurrences_dd_append|].
    rewrite <- app_assoc. apply Permutation_refl.
Qed.

Lemma windows_of_keys (file content language : string) (indices : list nat) :
  let ws :=
    flat_map (fun i =>
      let block := window (clean_lines_of content language) i in
      if too_simple block then []
      else [(block,
             {| occ_file := file;
                occ_start_line := Z.of_nat i + 1;
                occ_end_line := Z.of_nat i + min_block_size;
                occ_content := block |})]) indices in
  NoDup indices ->
  NoDup (map occ_key (map snd ws))
  /\ forall o, In o (map snd ws) ->
       occ_file o = file
       /\ occ_end_line o - occ_start_line o + 1 = 5
       /\ exists i, In i indices /\ occ_start_line o = Z.of_nat i + 1.
Proof.
  cbn zeta. induction indices as [|i indices IH]; intros Hnd.
  - split; [constructor | intros o []].
  - inversion Hnd as [|j js Hi Hrest]; subst.
    destruct (IH Hrest) as [IH1 IH2]. cbn [flat_map].
    destruct (too_simple (window (clean_lines_of content language) i)).
    + cbn [app]. split; [exact IH1|].
      intros o Ho. destruct (IH2 o Ho) as (E1 & E2 & j & Hj & Ej).
      repeat split; try assumption. exists j. split; [now right | exact Ej].
    + cbn [app map snd]. split.
      * constructor; [|exact IH1].
        intros Hin. apply in_map_iff in Hin. destruct Hin as (o & Ek & Ho).
        destruct (IH2 o Ho) as (E1 & _ & j & Hj & Ej).
        unfold occ_key in Ek. cbn [occ_file occ_start_line] in Ek.
        inversion Ek as [[Ef Es]]. rewrite Ej in Es.
        assert (j = i) by lia. subst j. contradiction.
      * intros o [<- | Ho].
        -- cbn [occ_file occ_start_line occ_end_line].
           repeat split; [unfold min_block_size; lia|].
           exists i. split; [now left | reflexivity].
        -- destruct (IH2 o Ho) as (E1 & E2 & j & Hj & Ej).
           repeat split; try assumption. exists j. split; [now right|exact Ej].
Qed.

Lemma file_windows_keys (f : SourceFile) :
  NoDup (map occ_key (map snd (file_windows f)))
  /\ forall o, In o (map snd (file_windows f)) ->
       occ_file o = sf_path f /\ occ_end_line o - occ_start_line o + 1 = 5.
Proof.
  unfold file_windows.
  destruct (String.eqb _ "Unknown"); [split; [constructor | intros o []]|].
  destruct (sf_content f) as [content|]; [|split; [constructor | intros o []]].
  unfold windows_of.
  destruct (windows_of_keys (sf_path f) content (language_of (sf_path f))
              (range (len (clean_lines_of content (language_of (sf_path f)))
                      - min_block_size + 1))) as [H1 H2].
  { unfold range. apply seq_NoDup. }
  split; [exact H1|]. intros o Ho. destruct (H2 o Ho) as (E1 & E2 & _).
  now split.
Qed.

Lemma project_windows_keys (files : list SourceFile) :
  NoDup (map sf_path files) ->
  NoDup (map occ_key (map snd (flat_map file_windows files)))
  /\ forall o, In o (map snd (flat_map file_windows files)) ->
       (exists f, In f files /\ occ_file o = sf_path f)
       /\ occ_end_line o - occ_start_line o + 1 = 5.
Proof.
  induction files as [|f files IH]; intros Hnd.
  - split; [constructor | intros o []].
  - cbn [map] in Hnd. inversion Hnd as [|p ps Hf Hrest]; subst.
    destruct (IH Hrest) as [IH1 IH2].
    destruct (file_windows_keys f) as [F1 F2].
    cbn [flat_map]. rewrite !map_app. split.
    + apply NoDup_app; [exact F1 | exact IH1 |].
      intros k Hk1 Hk2.
      apply in_map_iff in Hk1. destruct Hk1 as (o1 & E1 & Ho1).
      apply in_map_iff in Hk2. destruct Hk2 as (o2 & E2 & Ho2).
      destruct (F2 o1 Ho1) as [P1 _].
      destruct (IH2 o2 Ho2) as [(g & Hg & P2) _].
      apply Hf. apply in_map_iff. exists g. split; [|exact Hg].
      rewrite <- P2, <- P1.
      unfold occ_key in E1, E2. rewrite <- E2 in E1. now inversion E1.
    + intros o Ho. apply in_app_or in Ho. destruct Ho as [Ho | Ho].
      * destruct (F2 o Ho) as [P1 P2]. split; [|exact P2].
        exists f. split; [now left | exact P1].
      * destruct (IH2 o Ho) as [(g & Hg & P1) P2]. split; [|exact P2].
        exists g. split; [now right | exact P1].
Qed.

Lemma run_blocks `{Runtime} (hash : string -> Z) (files : list SourceFile) :
  duplicated_blocks (fold_left (fun a f => analyze_file hash f a) files init)
  = insert_windows hash (flat_map file_windows files) [].
Proof.
  destruct (analyze_files_split files init) as (x & Hx).
  change init with (set_duplicated_blocks [] init) at 1.
  now rewrite Hx.
Qed.

(** X20: a run over files with distinct paths reports exactly the hash
    groups with two windows or more, each with all its windows as
    locations, in descending order of (lines, tokens). *)
Theorem run_reports_every_group `{Runtime} (hash : string -> Z)
    (files : list SourceFile) (a : Analyzer) :
  analyze_project hash files = Ok a ->
  NoDup (map sf_path files) ->
  duplicated_code a
  = sort_desc (map (fun item => report_of (snd item))
                 (filter (fun item => 1 <? len (snd item))
                    (duplicated_blocks a))).
Proof.
  unfold analyze_project. intros E Hnd.
  set (a1 := fold_left (fun a f => analyze_file hash f a) files init) in *.
  assert (Hblocks : duplicated_blocks (analyze_duplicated_code a1)
                    = duplicated_blocks a1)
    by (apply (frame_analyze_duplicated_code duplicated_blocks); reflexivity).
  destruct (project_windows_keys files Hnd) as [K1 K2].
  pose proof (all_occurrences_insert_windows hash
                (flat_map file_windows files) []) as Hperm.
  rewrite <- (run_blocks hash files) in Hperm. fold a1 in Hperm.
  cbn [all_occurrences dict_values map List.concat app] in Hperm.
  change (List.concat (map snd (duplicated_blocks a1)))
    with (all_occurrences (duplicated_blocks a1)) in Hperm.
  assert (Hkeys : NoDup (map occ_key (all_occurrences (duplicated_blocks a1)))).
  { eapply Permutation_NoDup; [|exact K1].
    apply Permutation_map, Permutation_sym, Hperm. }
  assert (Hfive : forall item, In item (duplicated_blocks a1) ->
            is_processed item = (1 <? len (snd item))).
  { intros item Hitem. unfold is_processed.
    destruct (snd item) as [|o occs] eqn:Eocc; [reflexivity|].
    assert (Ho : In o (all_occurrences (duplicated_blocks a1))).
    { unfold all_occurrences, dict_values. apply in_concat.
      exists (snd item). split; [now apply in_map|].
      rewrite Eocc. now left. }
    apply (Permutation_in _ Hperm) in Ho.
    destruct (K2 o Ho) as [_ ->]. cbn. now rewrite andb_true_r. }
  assert (Hcode : duplicated_code a = duplicated_code (analyze_duplicated_code a1)
                  /\ duplicated_blocks a = duplicated_blocks a1).
  { rewrite <- Hblocks.
    destruct (file_metrics (analyze_duplicated_code a1)) as [|kv rest] eqn:Efm.
    - unfold calculate_project_metrics in E. rewrite Efm in E.
      inversion E; subst a. now split.
    - destruct (calculate_project_metrics_stores (analyze_duplicated_code a1))
        as (pm & Epm & _); [rewrite Efm; discriminate|].
      rewrite Epm in E. inversion E; subst a. now split. }
  destruct Hcode as [-> ->].
  rewrite (analyze_duplicated_code_fresh a1 Hkeys).
  f_equal. f_equal. apply filter_ext_in. exact Hfive.
Qed.

Lemma run_reports_every_group_witness :
  exists a,
    @analyze_project (Examples.python3 Examples.parse_statements)
      (Examples.digits_hash 257 0) Examples.two_copies = Ok a
    /\ duplicated_code a
       = sort_desc (map (fun item => report_of (snd item))
                      (filter (fun item => 1 <? len (snd item))
                         (duplicated_blocks a))).
Proof.
  destruct (@analyze_project (Examples.python3 Examples.parse_statements)
              (Examples.digits_hash 257 0) Examples.two_copies)
    as [a | e] eqn:E; [|vm_compute in E; discriminate E].
  exists a. split; [reflexivity|].
  apply (@run_reports_every_group (Examples.python3 Examples.parse_statements)
           (Examples.digits_hash 257 0) Examples.two_copies a E).
  vm_compute.
  repeat (constructor; [intros Hin; cbn in Hin; intuition discriminate|]).
  constructor.
Defined.

(** ** The reporter's reading of the metrics *)

Lemma Qfloor_bounds (x : Q) :
  (inject_Z (Qfloor x) <= x < inject_Z (Qfloor x) + 1)%Q.
Proof.
  split; [apply Qfloor_le|].
  pose proof (Qlt_floor x) as H. rewrite inject_Z_plus in H. exact H.
Qed.

Lemma inject_Z_le (a b : Z) : a <= b <-> (inject_Z a <= inject_Z b)%Q.
Proof. now rewrite <- Zle_Qle. Qed.

Lemma inject_Z_lt (a b : Z) : a < b <-> (inject_Z a < inject_Z b)%Q.
Proof. now rewrite <- Zlt_Qlt. Qed.

(** Rounding to the nearest integer reaches an even bound exactly when
    the number is within one half below it. *)
Lemma py_round_ge_even (b : Z) (x : Q) :
  Z.even b = true ->
  (b <= py_round x <-> (inject_Z b <= x + (1 # 2))%Q).
Proof.
  intros Hb. unfold py_round.
  pose proof (Qfloor_bounds x) as [Hlo Hhi].
  set (f := Qfloor x) in *.
  destruct (Qltb (x - inject_Z f) (1 # 2)) eqn:E1.
  - apply Qltb_lt in E1. split; intros H.
    + apply inject_Z_le in H. lra.
    + apply Z.lt_succ_r. apply inject_Z_lt.
      unfold Z.succ. rewrite inject_Z_plus. change (inject_Z 1) with 1%Q. lra.
  - apply Qltb_ge in E1.
    destruct (Qltb (1 # 2) (x - inject_Z f)) eqn:E2.
    + apply Qltb_lt in E2. split; intros H.
      * apply inject_Z_le in H. rewrite inject_Z_plus in H.
        change (inject_Z 1) with 1%Q in H. lra.
      * apply Z.lt_succ_r. apply inject_Z_lt.
        unfold Z.succ. rewrite !inject_Z_plus. change (inject_Z 1) with 1%Q.
        lra.
    + apply Qltb_ge in E2.
      assert (Ex : (x + (1 # 2) == inject_Z (f + 1))%Q).
      { rewrite inject_Z_plus. change (inject_Z 1) with 1%Q. lra. }
      rewrite Ex. rewrite <- inject_Z_le.
      destruct (Z.even f) eqn:Ef; [|reflexivity].
      split; [lia|]. intros H.
      assert (b <> f + 1); [|lia].
      intros ->. rewrite Z.even_add in Hb. rewrite Ef in Hb. discriminate.
Qed.

Lemma band_test (b : Z) (x : Q) :
  Z.even b = true ->
  (b <=? py_round x) = Qle_bool (inject_Z b) (x + (1 # 2)).
Proof.
  intros Hb. pose proof (py_round_ge_even b x Hb) as H.
  destruct (Z.leb_spec b (py_round x)) as [Hle | Hlt].
  - symmetry. apply Qle_bool_iff. now apply H.
  - destruct (Qle_bool (inject_Z b) (x + (1 # 2))) eqn:E; [|reflexivity].
    apply Qle_bool_iff in E. apply H in E. lia.
Qed.

Lemma reporter_rating_shift (metrics : option ProjectMetrics) :
  reporter_rating metrics
  = rating_of (metrics_get metrics maintainability_index 0%Q + (1 # 2)).
Proof.
  unfold reporter_rating, reporter_score, rating_of.
  rewrite !band_test by reflexivity. reflexivity.
Qed.

Lemma round1_idempotent (x : Q) : round1 (round1 x) = round1 x.
Proof.
  unfold round1 at 2.
  set (n := if Qltb _ (1 # 2) then _ else _).
  unfold round1.
  assert (E : ((n # 10) * 10 == inject_Z n)%Q).
  { unfold Qeq, Qmult, inject_Z. cbn [Qnum Qden]. lia. }
  assert (Ef : Qfloor ((n # 10) * 10) = n).
  { rewrite E. apply Qfloor_Z. }
  rewrite Ef.
  assert (Er : ((n # 10) * 10 - inject_Z n == 0)%Q) by (rewrite E; lra).
  rewrite (Qltb_proper _ 0 (1 # 2) (1 # 2) Er (Qeq_refl _)).
  reflexivity.
Qed.

(** All the fields that [_calculate_project_metrics] stores. *)
Lemma calculate_project_metrics_fields (a : Analyzer) :
  file_metrics a <> [] ->
  exists pm,
    calculate_project_metrics a = Ok (set_complexity_metrics (Some pm) a)
    /\ total_lines_of_code pm = sumZ (map loc (dict_values (file_metrics a)))
    /\ total_comment_lines pm
       = sumZ (map comment_lines (dict_values (file_metrics a)))
    /\ code_smell_count pm = sumZ (map len (dict_values (code_smells a)))
    /\ security_issue_count pm
       = sumZ (map len (dict_values (security_issues a)))
    /\ performance_issue_count pm
       = sumZ (map len (dict_values (performance_issues a)))
    /\ style_issue_count pm = sumZ (map len (dict_values (style_issues a)))
    /\ duplicated_code_blocks pm = len (duplicated_code a)
    /\ maintainability_rating pm = rating_of (maintainability_index pm)
    /\ technical_debt_hours pm = total_debt_hours a
    /\ technical_debt_days pm = round1 (total_debt_hours a / 8).
Proof.
  intros Hfm. unfold calculate_project_metrics.
  destruct (file_metrics a) as [|p rest] eqn:Efm; [congruence|].
  set (fms := dict_values (p :: rest)).
  destruct (guarded_div_ok (inject_Z (sumZ (map comment_lines fms)))
              (sumZ (map loc fms))) as [cd Hcd].
  destruct (guarded_div_ok
              (sumQ (map (fun m => (avg_line_length m * inject_Z (loc m))%Q) fms))
              (sumZ (map loc fms))) as [al Hal].
  destruct (function_average_ok fm_complexity (all_functions a)) as [fc [Hfc _]].
  destruct (function_average_ok fm_lines (all_functions a)) as [fs [Hfs _]].
  destruct (function_average_ok fm_params (all_functions a)) as [fp [Hfp _]].
  rewrite Hcd, Hal. cbn [bind_result].
  rewrite Hfc, Hfs, Hfp. cbn [bind_result].
  unfold maintainability.
  rewrite (truediv_ok _ 1000) by (intros E; discriminate E).
  cbn [bind_result].
  rewrite (truediv_ok _ 8) by (intros E; discriminate E).
  cbn [bind_result].
  eexists. split; [reflexivity|].
  cbn [total_lines_of_code total_comment_lines code_smell_count
       security_issue_count performance_issue_count style_issue_count
       duplicated_code_blocks maintainability_rating maintainability_index
       technical_debt_hours technical_debt_days].
  repeat split; reflexivity.
Qed.

(** X21: for the metrics that [_calculate_project_metrics] stores, the
    analyzer's rating is the band of the index; the rating that the
    reporter shows is the band of the index plus one half, because the
    reporter rounds the index to an integer first; and the reporter's
    second rounding of the debt in days changes nothing. *)
Theorem reporter_reads_metrics (a a' : Analyzer) (pm : ProjectMetrics) :
  calculate_project_metrics a = Ok a' ->
  complexity_metrics a = None ->
  complexity_metrics a' = Some pm ->
  maintainability_rating pm = rating_of (maintainability_index pm)
  /\ reporter_rating (Some pm)
     = rating_of (maintainability_index pm + (1 # 2))
  /\ reporter_debt_days (Some pm) = technical_debt_days pm.
Proof.
  intros E Hnone Hsome.
  destruct (file_metrics a) as [|kv rest] eqn:Efm.
  - unfold calculate_project_metrics in E. rewrite Efm in E.
    inversion E; subst a'. congruence.
  - destruct (calculate_project_metrics_fields a) as (pm' & Epm & F);
      [rewrite Efm; discriminate|].
    rewrite Epm in E. inversion E; subst a'.
    cbn [complexity_metrics set_complexity_metrics] in Hsome.
    inversion Hsome; subst pm'.
    destruct F as (_ & _ & _ & _ & _ & _ & _ & Hrating & _ & Hdays).
    split; [exact Hrating|]. split; [apply reporter_rating_shift|].
    unfold reporter_debt_days. cbn [metrics_get]. rewrite Hdays.
    apply round1_idempotent.
Qed.

Lemma reporter_reads_metrics_witness :
  exists a' pm,
    calculate_project_metrics Samples.near_good_project = Ok a'
    /\ complexity_metrics a' = Some pm
    /\ maintainability_rating pm = rating_of (maintainability_index pm)
    /\ reporter_rating (Some pm)
       = rating_of (maintainability_index pm + (1 # 2))
    /\ reporter_debt_days (Some pm) = technical_debt_days pm.
Proof.
  destruct (calculate_project_metrics Samples.near_good_project)
    as [a' | e] eqn:E; [|vm_compute in E; discriminate E].
  destruct (complexity_metrics a') as [pm|] eqn:Epm.
  - exists a', pm. split; [reflexivity|]. split; [exact Epm|].
    exact (reporter_reads_metrics Samples.near_good_project a' pm E
             eq_refl Epm).
  - vm_compute in E. inversion E; subst a'. discriminate Epm.
Defined.

(** Just below a band of the index the two ratings differ: at 79.664 the
    analyzer says Good, and the reporter, which rounds the index to 80
    first, says Excellent. *)
Example ratings_differ_below_a_band :
  exists a' pm,
    calculate_project_metrics Samples.near_good_project = Ok a'
    /\ complexity_metrics a' = Some pm
    /\ (maintainability_index pm == 79664 # 1000)%Q
    /\ maintainability_rating pm = "Good"
    /\ reporter_score (Some pm) = 80
    /\ reporter_rating (Some pm) = "Excellent".
Proof.
  eexists _, _. split; [reflexivity|]. split; [reflexivity|].
  vm_compute. repeat split.
Qed.

(** ** The debt of a run *)

Lemma sumZ_cons (x : Z) (l : list Z) : sumZ (x :: l) = x + sumZ l.
Proof. unfold sumZ. cbn [fold_left]. rewrite sumZ_from. unfold sumZ. lia. Qed.

Lemma sumZ_lens {A} (lists : list (list A)) :
  sumZ (map len lists) = len (List.concat lists).
Proof.
  induction lists as [|l lists IH]; [reflexivity|].
  cbn [map List.concat]. rewrite sumZ_cons, IH. unfold len.
  rewrite length_app. lia.
Qed.

Lemma Qsum_inject {A} (h : A -> Z) (l : list A) :
  (Spec.Qsum (map (fun i => inject_Z (h i)) l) == inject_Z (sumZ (map h l)))%Q.
Proof.
  induction l as [|x l IH]; [reflexivity|].
  cbn [map Spec.Qsum]. rewrite sumZ_cons, inject_Z_plus, IH. reflexivity.
Qed.

Lemma Qsum_const {A} (g : A -> Q) (c : Z) (l : list A) :
  Forall (fun i => (g i == inject_Z c)%Q) l ->
  (Spec.Qsum (map g l) == inject_Z (c * len l))%Q.
Proof.
  intros Hl. induction Hl as [|x l Hx _ IH].
  - unfold len. cbn. rewrite Z.mul_0_r. reflexivity.
  - cbn [map Spec.Qsum]. rewrite Hx, IH, <- inject_Z_plus.
    unfold len. cbn [List.length]. rewrite Nat2Z.inj_succ.
    apply inject_Z_injective. lia.
Qed.

Lemma security_hours (i : Issue) :
  listed security_catalogue i ->
  (Spec.counted_hours (Spec.Security, i) == inject_Z 12)%Q.
Proof.
  unfold listed, Spec.counted_hours. cbn [fst snd security_catalogue In].
  intros [H | [H | [H | [H | []]]]]; injection H as Ht Hs;
    rewrite <- Hs; reflexivity.
Qed.

Lemma performance_hours (i : Issue) :
  listed performance_catalogue i ->
  (Spec.counted_hours (Spec.Performance, i) == inject_Z 2)%Q.
Proof.
  unfold listed, Spec.counted_hours. cbn [fst snd performance_catalogue In].
  intros [H | [H | []]]; injection H as Ht Hs; rewrite <- Hs; reflexivity.
Qed.

Lemma smell_hours_listed (i : Issue) :
  listed smell_catalogue i -> In (smell_hours i) [1; 2; 4].
Proof.
  unfold listed, smell_hours. cbn [smell_catalogue In].
  intros H.
  repeat (destruct H as [H | H];
          [injection H as Ht Hs; rewrite <- Hs; cbn; tauto|]).
  destruct H.
Qed.

(** The findings of the analyzer before the metrics are calculated. *)
Lemma run_findings `{Runtime} (hash : string -> Z) (files : list SourceFile) :
  findings_grow init
    (analyze_duplicated_code
       (fold_left (fun a f => analyze_file hash f a) files init)).
Proof.
  eapply findings_grow_trans; [apply (analyze_files_grow hash files)|].
  apply analyze_duplicated_code_grow.
Qed.

Lemma grows_from_nothing (c : list (string * string)) (tbl : issue_table) :
  grows c [] tbl -> Forall (listed c) (issues_of tbl).
Proof.
  intros [_ H]. apply Forall_forall. intros i Hi.
  destruct (H i Hi) as [[] | Hl]. exact Hl.
Qed.

(** X22: the technical debt of a run, in hours, is the sum of 1, 2 or 4
    hours for each code smell, by its severity, 12 hours for each
    security issue, 2 hours for each performance issue and 3 hours for
    each reported duplicate block. *)
Theorem run_debt_hours `{Runtime} (hash : string -> Z)
    (files : list SourceFile) (a : Analyzer) (pm : ProjectMetrics) :
  analyze_project hash files = Ok a ->
  complexity_metrics a = Some pm ->
  (technical_debt_hours pm
   == inject_Z (sumZ (map smell_hours (issues_of (code_smells a)))
                + 12 * security_issue_count pm
                + 2 * performance_issue_count pm
                + 3 * duplicated_code_blocks pm))%Q
  /\ Forall (fun i => In (smell_hours i) [1; 2; 4])
       (issues_of (code_smells a)).
Proof.
  unfold analyze_project. intros E Hpm.
  pose proof (run_findings hash files) as (G1 & G2 & G3 & _).
  set (a2 := analyze_duplicated_code
               (fold_left (fun a f => analyze_file hash f a) files init)) in *.
  apply grows_from_nothing in G1, G2, G3.
  destruct (file_metrics a2) as [|kv rest] eqn:Efm.
  { unfold calculate_project_metrics in E. rewrite Efm in E.
    inversion E; subst a.
    assert (complexity_metrics a2 = None); [|congruence].
    unfold a2.
    rewrite (frame_analyze_duplicated_code complexity_metrics) by reflexivity.
    now rewrite (frame_analyze_files complexity_metrics) by reflexivity. }
  destruct (calculate_project_metrics_fields a2) as (pm' & Epm & F);
    [rewrite Efm; discriminate|].
  rewrite Epm in E. inversion E; subst a.
  cbn [complexity_metrics set_complexity_metrics] in Hpm.
  inversion Hpm; subst pm'.
  destruct F as (_ & _ & _ & Hsec & Hperf & _ & Hdup & _ & Hhours & _).
  cbn [code_smells set_complexity_metrics].
  split.
  - rewrite Hhours, Hsec, Hperf, Hdup, !sumZ_lens.
    rewrite total_debt_hours_sum. unfold Spec.all_findings.
    rewrite !map_app, !Qsum_app, !counted_hours_in, style_counts_nothing.
    fold (issues_of (code_smells a2)) (issues_of (security_issues a2))
      (issues_of (performance_issues a2)).
    rewrite (Qsum_const (fun i => Spec.counted_hours (Spec.Security, i)) 12)
      by (eapply Forall_impl; [apply security_hours | exact G2]).
    rewrite (Qsum_const (fun i => Spec.counted_hours (Spec.Performance, i)) 2)
      by (eapply Forall_impl; [apply performance_hours | exact G3]).
    change (fun i => Spec.counted_hours (Spec.CodeSmell, i))
      with (fun i => inject_Z (smell_hours i)).
    rewrite Qsum_inject.
    rewrite !inject_Z_plus, !inject_Z_mult. change (inject_Z 3) with 3%Q.
    ring.
  - eapply Forall_impl; [apply smell_hours_listed | exact G1].
Qed.

Lemma run_debt_hours_witness :
  exists a pm,
    @analyze_project Examples.small_runtime (Examples.digits_hash 257 0)
      Samples.hunter2_files = Ok a
    /\ complexity_metrics a = Some pm
    /\ (technical_debt_hours pm
        == inject_Z (sumZ (map smell_hours (issues_of (code_smells a)))
                     + 12 * security_issue_count pm
                     + 2 * performance_issue_count pm
                     + 3 * duplicated_code_blocks pm))%Q
    /\ Forall (fun i => In (smell_hours i) [1; 2; 4])
         (issues_of (code_smells a)).
Proof.
  destruct (@analyze_project Examples.small_runtime
              (Examples.digits_hash 257 0) Samples.hunter2_files)
    as [a | e] eqn:E; [|vm_compute in E; discriminate E].
  destruct (complexity_metrics a) as [pm|] eqn:Epm.
  - exists a, pm. split; [reflexivity|]. split; [exact Epm|].
    exact (@run_debt_hours Examples.small_runtime (Examples.digits_hash 257 0)
             Samples.hunter2_files a pm E Epm).
  - vm_compute in E. inversion E; subst a. discriminate Epm.
Defined.

(** ** The lines of code of a run *)

Lemma dict_set_new {K V} `{KeyEq K} (d : dict K V) (k : K) (v : V) :
  ~ In k (dict_keys d) -> dict_set d k v = d ++ [(k, v)].
Proof.
  unfold dict_keys. induction d as [|[k' v'] d IH]; intros Hk;
    cbn [dict_set app]; [reflexivity|].
  cbn [map fst In] in Hk.
  destruct (keqb_spec k' k) as [E | E]; [tauto|].
  rewrite IH by tauto. reflexivity.
Qed.

Lemma analyze_file_loc `{Runtime} (f : SourceFile) :
  exists fm,
    loc fm = file_lines f
    /\ forall hash a,
         file_metrics (analyze_file hash f a)
         = if analysable f then dict_set (file_metrics a) (sf_path f) fm
           else file_metrics a.
Proof.
  unfold analyze_file, analysable, file_lines.
  destruct (sf_content f) as [content|].
  - destruct (String.eqb _ "Unknown").
    + exists (mkFileMetrics (count_newlines content + 1) 0 0 0).
      split; reflexivity.
    + cbn [negb andb]. unfold analyze_content.
      destruct (analyze_generic_run (sf_path f) content
                  (language_of (sf_path f)))
        as (in_block & commented & Hrun).
      eexists. split; [|intros hash a; rewrite Hrun;
        unfold check_duplicated_code, store_file_metrics;
        cbn [file_metrics set_duplicated_blocks set_file_metrics];
        rewrite (frame_generic_findings file_metrics) by reflexivity;
        rewrite (frame_language_specific file_metrics) by reflexivity;
        reflexivity].
      cbn [loc]. apply split_lines_len.
  - exists (mkFileMetrics 0 0 0 0). split; [reflexivity|].
    intros hash a. rewrite andb_false_r.
    now destruct (String.eqb _ "Unknown").
Qed.

Lemma analyze_files_locs `{Runtime} (hash : string -> Z)
    (files : list SourceFile) :
  forall a,
    NoDup (map sf_path files) ->
    (forall f, In f files -> ~ In (sf_path f) (dict_keys (file_metrics a))) ->
    map loc (dict_values
               (file_metrics
                  (fold_left (fun a f => analyze_file hash f a) files a)))
    = map loc (dict_values (file_metrics a))
      ++ map file_lines (filter analysable files).
Proof.
  induction files as [|f files IH]; intros a Hnd Hnew;
    cbn [fold_left filter map].
  - now rewrite app_nil_r.
  - cbn [map] in Hnd. inversion Hnd as [|p ps Hf Hrest]; subst.
    destruct (analyze_file_loc f) as (fm & Hloc & Hfm).
    rewrite IH.
    + rewrite Hfm. destruct (analysable f); [|reflexivity].
      rewrite dict_set_new by (apply Hnew; now left).
      unfold dict_values. rewrite !map_app. cbn [map snd].
      rewrite Hloc, <- app_assoc. reflexivity.
    + exact Hrest.
    + intros g Hg Hin. rewrite Hfm in Hin.
      destruct (analysable f).
      * apply dict_keys_set in Hin. destruct Hin as [E | Hin].
        -- apply Hf. rewrite <- E. now apply in_map.
        -- apply (Hnew g); [now right | exact Hin].
      * apply (Hnew g); [now right | exact Hin].
Qed.

Lemma sumZ_app (l1 l2 : list Z) : sumZ (l1 ++ l2) = sumZ l1 + sumZ l2.
Proof.
  induction l1 as [|x l1 IH]; [reflexivity|].
  cbn [app]. rewrite !sumZ_cons, IH. lia.
Qed.

(** X23: in a run over files with distinct paths, the total lines of
    code are the sum, over the files with a known language that can be
    read, of the number of newlines of the file plus one; with project
    metrics there is at least one line. *)
Theorem run_total_lines `{Runtime} (hash : string -> Z)
    (files : list SourceFile) (a : Analyzer) (pm : ProjectMetrics) :
  analyze_project hash files = Ok a ->
  NoDup (map sf_path files) ->
  complexity_metrics a = Some pm ->
  total_lines_of_code pm = sumZ (map file_lines (filter analysable files))
  /\ 1 <= total_lines_of_code pm.
Proof.
  unfold analyze_project. intros E Hnd Hpm.
  set (a1 := fold_left (fun a f => analyze_file hash f a) files init) in *.
  set (a2 := analyze_duplicated_code a1) in *.
  assert (Hfm2 : file_metrics a2 = file_metrics a1)
    by (apply (frame_analyze_duplicated_code file_metrics); reflexivity).
  assert (Hlocs : map loc (dict_values (file_metrics a2))
                  = map file_lines (filter analysable files)).
  { rewrite Hfm2. unfold a1. rewrite analyze_files_locs; [reflexivity|exact Hnd|].
    intros f _ []. }
  destruct (file_metrics a2) as [|kv rest] eqn:Efm.
  { unfold calculate_project_metrics in E. rewrite Efm in E.
    inversion E; subst a.
    assert (complexity_metrics a2 = None); [|congruence].
    unfold a2.
    rewrite (frame_analyze_duplicated_code complexity_metrics) by reflexivity.
    unfold a1.
    now rewrite (frame_analyze_files complexity_metrics) by reflexivity. }
  destruct (calculate_project_metrics_fields a2) as (pm' & Epm & F);
    [rewrite Efm; discriminate|].
  rewrite Epm in E. inversion E; subst a.
  cbn [complexity_metrics set_complexity_metrics] in Hpm.
  inversion Hpm; subst pm'.
  destruct F as (Hloc & _). rewrite Efm in Hloc. rewrite Hloc, Hlocs.
  split; [reflexivity|].
  assert (Hne : filter analysable files <> []).
  { intros Hnil. rewrite Hnil in Hlocs. discriminate Hlocs. }
  assert (Hpos : forall l, Forall (fun f => analysable f = true) l ->
            l <> [] -> 1 <= sumZ (map file_lines l)).
  { intros l Hl. induction Hl as [|f l Hf Hl IH]; [congruence|]. intros _.
    cbn [map]. rewrite sumZ_cons.
    assert (1 <= file_lines f).
    { unfold analysable in Hf. apply andb_prop in Hf. destruct Hf as [_ Hc].
      unfold file_lines. destruct (sf_content f) as [c|]; [|discriminate].
      assert (0 <= count_newlines c); [|lia].
      clear. induction c as [|ch r IH]; cbn [count_newlines]; [lia|].
      destruct (Ascii.eqb ch newline); lia. }
    destruct l as [|g l]; [unfold sumZ; cbn; lia|].
    assert (1 <= sumZ (map file_lines (g :: l))) by (apply IH; discriminate).
    lia. }
  apply Hpos; [|exact Hne].
  apply Forall_forall. intros f Hf. apply filter_In in Hf. tauto.
Qed.

Lemma run_total_lines_witness :
  exists a pm,
    @analyze_project (Examples.python3 Examples.parse_statements)
      (Examples.digits_hash 257 0) Examples.two_copies = Ok a
    /\ complexity_metrics a = Some pm
    /\ total_lines_of_code pm
       = sumZ (map file_lines (filter analysable Examples.two_copies))
    /\ 1 <= total_lines_of_code pm.
Proof.
  destruct (@analyze_project (Examples.python3 Examples.parse_statements)
              (Examples.digits_hash 257 0) Examples.two_copies)
    as [a | e] eqn:E; [|vm_compute in E; discriminate E].
  destruct (complexity_metrics a) as [pm|] eqn:Epm.
  - exists a, pm. split; [reflexivity|]. split; [exact Epm|].
    apply (@run_total_lines (Examples.python3 Examples.parse_statements)
             (Examples.digits_hash 257 0) Examples.two_copies a pm E);
      [|exact Epm].
    vm_compute.
    repeat (constructor; [intros Hin; cbn in Hin; intuition discriminate|]).
    constructor.
  - vm_compute in E. inversion E; subst a. discriminate Epm.
Defined.

(** ** The summary of a run *)

Lemma rating_of_quote (x : Q) : exists quote, rick_quote (rating_of x) = Ok quote.
Proof.
  unfold rating_of.
  destruct (Qle_bool 80 x); [eexists; reflexivity|].
  destruct (Qle_bool 60 x); [eexists; reflexivity|].
  destruct (Qle_bool 40 x); [eexists; reflexivity|].
  destruct (Qle_bool 20 x); eexists; reflexivity.
Qed.

(** Whether a run has project metrics, and their rating. *)
Lemma run_metrics `{Runtime} (hash : string -> Z) (files : list SourceFile)
    (a : Analyzer) :
  analyze_project hash files = Ok a ->
  ((forall f, In f files -> analysable f = false) ->
   complexity_metrics a = None)
  /\ ((exists f, In f files /\ analysable f = true) ->
      exists pm, complexity_metrics a = Some pm
                 /\ maintainability_rating pm
                    = rating_of (maintainability_index pm)).
Proof.
  unfold analyze_project. intros E.
  set (a1 := fold_left (fun a f => analyze_file hash f a) files init) in *.
  set (a2 := analyze_duplicated_code a1) in *.
  assert (Hfm2 : file_metrics a2 = file_metrics a1)
    by (apply (frame_analyze_duplicated_code file_metrics); reflexivity).
  assert (Hcm2 : complexity_metrics a2 = None).
  { unfold a2.
    rewrite (frame_analyze_duplicated_code complexity_metrics) by reflexivity.
    unfold a1.
    now rewrite (frame_analyze_files complexity_metrics) by reflexivity. }
  assert (Hkeys : forall p,
            In p (dict_keys (file_metrics a2))
            <-> exists f, In f files /\ analysable f = true /\ sf_path f = p).
  { intros p. rewrite Hfm2. unfold a1. rewrite analyze_files_keys.
    cbn [init file_metrics dict_keys map In].
    split; [intros [[] | Hp]; exact Hp | now right]. }
  destruct (file_metrics a2) as [|[k v] rest] eqn:Efm.
  - unfold calculate_project_metrics in E. rewrite Efm in E.
    inversion E; subst a. split; [intros _; exact Hcm2|].
    intros (f & Hf & Hfa).
    destruct (proj2 (Hkeys (sf_path f))) as []. now exists f.
  - destruct (calculate_project_metrics_fields a2) as (pm & Epm & F);
      [rewrite Efm; discriminate|].
    rewrite Epm in E. inversion E; subst a.
    cbn [complexity_metrics set_complexity_metrics]. split.
    + intros Hnone.
      destruct (proj1 (Hkeys k)) as (f & Hf & Hfa & _); [now left|].
      rewrite (Hnone f Hf) in Hfa. discriminate.
    + intros _. exists pm. split; [reflexivity|]. apply F.
Qed.

(** X24: after a run over a project without a file that can be
    analysed, [get_summary] raises [NameError]: the rating is missing,
    and the branch for a missing rating calls [random.choice] in a module
    that does not import [random]. After a run with such a file it
    returns the text. *)
Theorem summary_of_run `{Runtime} `{FloatFormat} (hash : string -> Z)
    (files : list SourceFile) (a : Analyzer) (files_analyzed : Z) :
  analyze_project hash files = Ok a ->
  ((forall f, In f files -> analysable f = false) ->
   get_summary (Some files_analyzed) a
   = Raise (OtherException "NameError" "name 'random' is not defined"))
  /\ ((exists f, In f files /\ analysable f = true) ->
      exists text, get_summary (Some files_analyzed) a = Ok text).
Proof.
  intros E. destruct (run_metrics hash files a E) as [Hnone Hsome]. split.
  - intros Hall. unfold get_summary. rewrite (Hnone Hall). reflexivity.
  - intros Hex. destruct (Hsome Hex) as (pm & Hpm & Hrating).
    unfold get_summary. rewrite Hpm. cbn [metrics_get]. rewrite Hrating.
    destruct (rating_of_quote (maintainability_index pm)) as (quote & ->).
    eexists. reflexivity.
Qed.

Lemma summary_of_run_witness :
  exists a,
    @analyze_project Examples.small_runtime (Examples.digits_hash 257 0)
      Samples.unread_files = Ok a
    /\ ((forall f, In f Samples.unread_files -> analysable f = false) ->
        @get_summary Samples.decimal_format (Some 2) a
        = Raise (OtherException "NameError" "name 'random' is not defined"))
    /\ ((exists f, In f Samples.unread_files /\ analysable f = true) ->
        exists text, @get_summary Samples.decimal_format (Some 2) a = Ok text).
Proof.
  destruct (@analyze_project Examples.small_runtime
              (Examples.digits_hash 257 0) Samples.unread_files)
    as [a | e] eqn:E; [|vm_compute in E; discriminate E].
  exists a. split; [reflexivity|].
  exact (@summary_of_run Examples.small_runtime Samples.decimal_format
           (Examples.digits_hash 257 0) Samples.unread_files a 2 E).
Defined.

(** The summary of the project of one file with a hard-coded password,
    and that of a project without a file that can be analysed. *)
Example summaries :
  (exists a,
     @analyze_project Examples.small_runtime (Examples.digits_hash 257 0)
       Samples.hunter2_files = Ok a
     /\ @get_summary Samples.decimal_format (Some 1) a
        = Ok (join_lines
                [ "Project Analysis Summary:";
                  "- Total lines of code: 1";
                  "- Files analyzed: 1";
                  "- Comment density: 0.0%";
                  "- Maintainability rating: Excellent";
                  "- Technical debt: 1.5 days";
                  "";
                  "Issues found:";
                  "- Code smells: 0";
                  "- Security issues: 1";
                  "- Performance issues: 0";
                  "- Style issues: 0";
                  "- Duplicated code blocks: 0";
                  String.append nl
                    (String.append "Rick says: "
                       (String.append dq
                          (String.append
                             "Holy *burp* crap! This code is cleaner than the Citadel's bathrooms. And those are CLEAN."
                             dq))) ]))
  /\ (exists a,
        @analyze_project Examples.small_runtime (Examples.digits_hash 257 0)
          Samples.unread_files = Ok a
        /\ @get_summary Samples.decimal_format (Some 2) a
           = Raise (OtherException "NameError"
                      "name 'random' is not defined")).
Proof.
  split; eexists; (split; [reflexivity|]); vm_compute; reflexivity.
Qed.

(** ** The flag of [_analyze_python_file] *)

Lemma analyze_python_file_flag `{Runtime} (file content : string)
    (a : Analyzer) :
  fst (analyze_python_file file content a)
  = match ast_parse content with
    | Parsed tree =>
        match function_pass_outcome tree with
        | Ok _ => true
        | Raise _ => false
        end
    | ParseRaises _ => false
    end.
Proof.
  unfold analyze_python_file.
  destruct (ast_parse content) as [tree | e]; [|reflexivity].
  unfold function_pass_outcome, function_defs.
  rewrite <- (for_each_outcome file (walk tree)
                (analyze_python_imports tree file a)).
  rewrite <- analyze_python_functions_body.
  destruct (analyze_python_functions tree file
              (analyze_python_imports tree file a)) as [[[] | e] a2];
    reflexivity.
Qed.

(** X25: [_analyze_python_file] returns [True] exactly when the content
    parses and the function pass over the tree returns, and then it
    leaves the style issues as they were. *)
Theorem python_file_flag `{Runtime} (file content : string) (a : Analyzer) :
  fst (analyze_python_file file content a)
  = match ast_parse content with
    | Parsed tree =>
        match function_pass_outcome tree with
        | Ok _ => true
        | Raise _ => false
        end
    | ParseRaises _ => false
    end
  /\ (fst (analyze_python_file file content a) = true ->
      style_issues (snd (analyze_python_file file content a))
      = style_issues a).
Proof.
  split; [apply analyze_python_file_flag|].
  unfold analyze_python_file.
  destruct (ast_parse content) as [tree | e]; [|discriminate].
  destruct (analyze_python_functions tree file
              (analyze_python_imports tree file a)) as [[[] | e] a2] eqn:E;
    [|discriminate].
  intros _. cbn [snd]. unfold apply_regex_patterns.
  rewrite (frame_patterns style_issues (fun _ _ => eq_refl)
             PYTHON_ANTI_PATTERNS
             (fun p m =>
                {| i_type := p_name p; i_description := p_description p;
                   i_severity := p_severity p;
                   i_line := Some (line_of_offset content (m_start m));
                   i_context :=
                     Some (context_line (split_lines content)
                             (line_of_offset content (m_start m))) |})).
  rewrite (frame_functions style_issues (fun _ _ => eq_refl)
             (fun _ _ => eq_refl) tree file _ _ _ E).
  apply imports_keep_style.
Qed.

(** ** Functions and imports come from Python files *)

Lemma analyze_file_other_language `{Runtime} {C} (proj : Analyzer -> C)
    (hash : string -> Z) (f : SourceFile) (a : Analyzer) :
  (forall v a, proj (set_code_smells v a) = proj a) ->
  (forall v a, proj (set_security_issues v a) = proj a) ->
  (forall v a, proj (set_performance_issues v a) = proj a) ->
  (forall v a, proj (set_style_issues v a) = proj a) ->
  (forall v a, proj (set_dependencies v a) = proj a) ->
  (forall v a, proj (set_file_metrics v a) = proj a) ->
  (forall v a, proj (set_duplicated_blocks v a) = proj a) ->
  language_of (sf_path f) <> "Python" ->
  proj (analyze_file hash f a) = proj a.
Proof.
  intros P1 P2 P3 P4 P5 P6 P7 Hlang. unfold analyze_file.
  destruct (String.eqb _ "Unknown"); [reflexivity|].
  destruct (sf_content f) as [content|]; [|reflexivity].
  unfold analyze_content.
  destruct (analyze_generic_run (sf_path f) content (language_of (sf_path f)))
    as (in_block & commented & ->).
  unfold check_duplicated_code, store_file_metrics.
  rewrite P7, P6.
  unfold performance_loop, security_loop.
  rewrite (rules_keep proj) by (intros; apply P3).
  rewrite (rules_keep proj) by (intros; apply P2).
  rewrite (report_commented_code_keep proj) by assumption.
  rewrite (long_lines_keep proj) by assumption.
  destruct (String.eqb_spec (language_of (sf_path f)) "Python");
    [contradiction|].
  destruct (str_in _ _); [|reflexivity].
  unfold analyze_js_file. cbn zeta.
  rewrite fold_left_keeps by (intros a0 m _; apply P5).
  rewrite fold_left_keeps by (intros a0 m _; apply P5).
  apply fold_left_keeps. intros a0 p _. apply fold_left_keeps.
  intros a1 m _. apply P1.
Qed.

(** X26: the analysis of a file that is not a Python file leaves the
    function metrics and the import graph as they are. *)
Theorem only_python_has_functions `{Runtime} (hash : string -> Z)
    (f : SourceFile) (a : Analyzer) :
  language_of (sf_path f) <> "Python" ->
  function_metrics (analyze_file hash f a) = function_metrics a
  /\ import_graph (analyze_file hash f a) = import_graph a.
Proof.
  intros Hlang.
  split; apply analyze_file_other_language; try reflexivity; exact Hlang.
Qed.

Lemma only_python_has_functions_witness :
  function_metrics
    (@analyze_file Examples.javascript_runtime (Examples.digits_hash 257 0)
       (mkSourceFile "loops.js" (Some Examples.loops_source)) init)
  = function_metrics init
  /\ import_graph
       (@analyze_file Examples.javascript_runtime (Examples.digits_hash 257 0)
          (mkSourceFile "loops.js" (Some Examples.loops_source)) init)
     = import_graph init.
Proof.
  apply (@only_python_has_functions Examples.javascript_runtime
           (Examples.digits_hash 257 0)
           (mkSourceFile "loops.js" (Some Examples.loops_source)) init).
  intros E. vm_compute in E. discriminate E.
Defined.

(** ** Commented-out code *)

Lemma last_app_one {A} (l : list A) (x d : A) : last (l ++ [x]) d = x.
Proof.
  induction l as [|y l IH]; [reflexivity|].
  cbn [app last]. destruct (l ++ [x]) eqn:E; [|exact IH].
  destruct l; discriminate E.
Qed.

(** A block that grows by the line after the lines seen so far. *)
Lemma block_grows (current : list (Z * string)) (i : Z) (text : string) :
  0 <= i ->
  Forall (fun p => 1 <= fst p <= i) current ->
  Forall (fun p => 1 <= fst p <= i + 1) (current ++ [(i + 1, text)])
  /\ (1 < len (current ++ [(i + 1, text)]) ->
      fst (block_span (current ++ [(i + 1, text)]))
      < snd (block_span (current ++ [(i + 1, text)]))).
Proof.
  intros Hi Hcur. split.
  - apply Forall_app. split.
    + eapply Forall_impl; [|exact Hcur]. cbn. intros p Hp. lia.
    + constructor; [cbn; lia|constructor].
  - unfold block_span. cbn [fst snd]. rewrite last_app_one. cbn [fst].
    destruct current as [|p rest]; [unfold len; cbn; intros Hl; lia|].
    intros _. cbn [app hd]. inversion Hcur; subst. lia.
Qed.

Lemma commented_code_loop_spans `{Runtime} (language : string)
    (markers : list string) (lines : list string) :
  forall i in_block commented current in_block' commented' current',
    commented_code_loop language markers lines i in_block commented current
    = (in_block', commented', current') ->
    0 <= i ->
    Forall (fun b => 1 <= fst (block_span b) < snd (block_span b)) commented ->
    Forall (fun p => 1 <= fst p <= i) current ->
    (1 < len current -> fst (block_span current) < snd (block_span current)) ->
    Forall (fun b => 1 <= fst (block_span b) < snd (block_span b)) commented'
    /\ Forall (fun p => 1 <= fst p <= i + len lines) current'
    /\ (1 < len current' ->
        fst (block_span current') < snd (block_span current')).
Proof.
  induction lines as [|line lines IH];
    intros i in_block commented current in_block' commented' current' E Hi
      Hcom Hcur Hspan; cbn [commented_code_loop] in E.
  - inversion E; subst. unfold len. cbn [List.length].
    rewrite Z.add_0_r. now repeat split.
  - assert (Hlen : i + len (line :: lines) = i + 1 + len lines)
      by (unfold len; cbn [List.length]; lia).
    rewrite Hlen.
    assert (Hcur1 : Forall (fun p => 1 <= fst p <= i + 1) current).
    { eapply Forall_impl; [|exact Hcur]. cbn. intros p Hp. lia. }
    destruct (String.eqb (strip line) "").
    { eapply IH; eauto. lia. }
    destruct (existsb (startswith (strip line)) markers
              || block_comment_after language (strip line) in_block).
    + destruct (existsb _ code_indicators).
      * destruct (block_grows current i (strip line) Hi Hcur) as [G1 G2].
        eapply IH; eauto. lia.
      * eapply IH; eauto. lia.
    + destruct current as [|p rest] eqn:Ecur.
      * eapply IH; eauto. lia.
      * eapply IH; [exact E | lia | | constructor | unfold len; cbn; lia].
        destruct (Z.ltb_spec 1 (len (p :: rest))) as [Hl | Hl];
          [|exact Hcom].
        apply Forall_app. split; [exact Hcom|].
        constructor; [|constructor]. split; [|now apply Hspan].
        unfold block_span. cbn [fst hd]. inversion Hcur; subst. lia.
Qed.

Lemma commented_blocks_spans `{Runtime} (content language : string) :
  Forall (fun b => 1 <= fst (block_span b) < snd (block_span b))
    (commented_blocks content language).
Proof.
  unfold commented_blocks.
  destruct (commented_code_loop language
              (dict_get comment_markers language ["#"; "//"])
              (split_lines content) 0 false [] [])
    as [[in_block commented] current] eqn:E.
  destruct (commented_code_loop_spans _ _ _ _ _ _ _ _ _ _ E)
    as (H1 & H2 & H3); try constructor; try lia.
  { unfold len. cbn. lia. }
  destruct (Z.ltb_spec 1 (len current)) as [Hl | Hl]; [|exact H1].
  apply Forall_app. split; [exact H1|]. constructor; [|constructor].
  split; [|now apply H3].
  unfold block_span. cbn [fst]. destruct current as [|p rest];
    [unfold len in Hl; cbn in Hl; lia|].
  inversion H2; subst. cbn [hd]. lia.
Qed.

Lemma analyze_generic_blocks `{Runtime} (file content language : string) :
  exists in_block,
    forall a,
      analyze_generic file content language a
      = (Ok tt,
         store_file_metrics file language (split_lines content)
           (dict_get comment_markers language ["#"; "//"]) in_block
           (performance_loop file content language
              (security_loop file content language
                 (report_commented_code file
                    (commented_blocks content language)
                    (long_lines_loop file (split_lines content) 0 a))))).
Proof.
  unfold analyze_generic, commented_blocks.
  destruct (commented_code_loop language
              (dict_get comment_markers language ["#"; "//"])
              (split_lines content) 0 false [] [])
    as [[in_block commented] current].
  exists in_block. intros a. reflexivity.
Qed.

Lemma report_commented_code_smells (file : string)
    (blocks : list (list (Z * string))) (f : string) :
  forall a,
    dict_get (code_smells (report_commented_code file blocks a)) f []
    = dict_get (code_smells a) f []
      ++ (if String.eqb file f
          then map (fun b => commented_code_issue (fst (block_span b))
                               (snd (block_span b))) blocks
          else []).
Proof.
  unfold report_commented_code.
  induction blocks as [|b blocks IH]; intros a; cbn [fold_left map].
  - destruct (String.eqb file f); now rewrite app_nil_r.
  - rewrite IH. unfold add_code_smell. cbn [code_smells set_code_smells].
    rewrite dict_get_dd_append. cbn [keqb KeyEq_string].
    destruct (String.eqb file f); rewrite <- app_assoc; reflexivity.
Qed.

(** X27: the code smells that [_analyze_generic] appends for the file
    are the [commented_code] smells of the blocks of commented-out code of
    its content, one for each block and in the order of the blocks, tagged
    with the first and the last line of the block, and nothing else; the
    last line of a block comes after its first, so one commented-out line
    alone is never reported. *)
Theorem commented_code_reported `{Runtime} (file content language : string)
    (a : Analyzer) :
  dict_get (code_smells (snd (analyze_generic file content language a)))
    file []
  = dict_get (code_smells a) file []
    ++ map (fun span => commented_code_issue (fst span) (snd span))
         (map block_span (commented_blocks content language))
  /\ Forall (fun span => 1 <= fst span < snd span)
       (map block_span (commented_blocks content language)).
Proof.
  split.
  - destruct (analyze_generic_blocks file content language) as (in_block & ->).
    cbn [snd]. unfold store_file_metrics.
    cbn [code_smells set_file_metrics].
    unfold performance_loop, security_loop.
    rewrite (rules_keep code_smells) by reflexivity.
    rewrite (rules_keep code_smells) by reflexivity.
    rewrite report_commented_code_smells, String.eqb_refl.
    rewrite (long_lines_keep code_smells) by reflexivity.
    now rewrite map_map.
  - apply Forall_map. apply commented_blocks_spans.
Qed.

(** ** Deep nesting in any chain of conditionals (C3) *)

Lemma plain_no_issue (name : string) (n : node) :
  forall depth, plain n = true -> nesting_issues name depth n = [].
Proof.
  induction n as [c line e ch IH] using node_children_ind.
  intros depth Hp. cbn [plain] in Hp.
  apply andb_prop in Hp as [Hc Hch]. apply negb_true_iff in Hc.
  rewrite nesting_issues_unfold. cbn [cls lineno children].
  rewrite Hc. cbn [andb app].
  induction ch as [|x ch IHch]; [reflexivity|].
  cbn [forallb] in Hch. apply andb_prop in Hch as [Hx Hch].
  cbn [flat_map]. inversion IH as [|? ? IHx IHrest]; subst.
  rewrite (IHx _ Hx). cbn [app]. now apply IHch.
Qed.

Lemma plain_forest_no_issue (name : string) (depth : Z) (l : list node) :
  forallb plain l = true -> flat_map (nesting_issues name depth) l = [].
Proof.
  induction l as [|x l IH]; intros Hl; [reflexivity|].
  cbn [forallb] in Hl. apply andb_prop in Hl as [Hx Hl].
  cbn [flat_map]. now rewrite (plain_no_issue _ _ _ Hx), IH.
Qed.

(** The nesting check of a chain of conditionals entered at [depth]. *)
Lemma nested_conditionals_issues (name : string) (lines : list Z)
    (ch : list node) :
  nested_conditionals lines ch ->
  forall depth,
    flat_map (nesting_issues name depth) ch
    = map (fun c => deep_nesting_issue name (fst c) (snd c))
        (filter (fun c => 4 <? fst c)
           (combine (map (fun k => depth + Z.of_nat k)
                       (seq 1 (List.length lines))) lines)).
Proof.
  induction 1 as [ch Hch | before line e ch after lines Hb Ha _ IH];
    intros depth.
  - now apply plain_forest_no_issue.
  - rewrite flat_map_app. cbn [flat_map].
    rewrite (plain_forest_no_issue _ _ _ Hb), (plain_forest_no_issue _ _ _ Ha).
    rewrite app_nil_r. cbn [app].
    rewrite nesting_issues_unfold. cbn [cls lineno children is_control andb].
    rewrite IH. cbn [List.length seq map combine filter fst snd].
    change (Z.of_nat 1) with 1.
    assert (E : map (fun k => depth + Z.of_nat k)
                  (seq 2 (List.length lines))
                = map (fun k => depth + 1 + Z.of_nat k)
                    (seq 1 (List.length lines))).
    { rewrite <- (seq_shift (List.length lines) 1), map_map.
      apply map_ext. intros k. lia. }
    rewrite E. destruct (4 <? depth + 1); reflexivity.
Qed.

Lemma flat_map_filter {A B} (p : A -> bool) (g : A -> list B) (l : list A) :
  (forall x, p x = false -> g x = []) ->
  flat_map g l = flat_map g (filter p l).
Proof.
  intros Hg. induction l as [|x l IH]; [reflexivity|].
  cbn [flat_map filter]. destruct (p x) eqn:E.
  - cbn [flat_map]. now rewrite IH.
  - now rewrite (Hg _ E), IH.
Qed.

(** C3, as the code has it: in a parsed file whose one function holds
    conditionals nested in one another, whatever their tests, the other
    statements around them and their lines, the structural analyzer adds
    one deep-nesting Finding for every conditional whose depth exceeds 4,
    in the order of the depths and each tagged with the [lineno] of its
    conditional; for six levels these are two Findings, at depths 5 and
    6. The interpreter is Python 3.8 or later and the function is not
    higher than the stack frames left. *)
Theorem deep_nesting_per_level `{Runtime} (file content : string)
    (tree fn : node) (name : string) (fargs : arguments) (body_len : Z)
    (lines : list Z) (a : Analyzer) :
  ast_parse content = Parsed tree ->
  function_defs tree = [fn] ->
  function_def fn = Some (name, fargs, body_len) ->
  nested_conditionals lines (children fn) ->
  has_posonlyargs = true ->
  (height fn <= frames)%nat ->
  fst (analyze_python_file file content a) = true
  /\ deep_nesting_issues (snd (analyze_python_file file content a)) file
     = deep_nesting_issues a file
       ++ map (fun c => deep_nesting_issue name (fst c) (snd c))
            (filter (fun c => 4 <? fst c) (conditional_depths lines)).
Proof.
  intros Hparse Hdefs Hdef Hchain Hmodern Hframes.
  unfold analyze_python_file. rewrite Hparse.
  pose proof (for_each_outcome file (walk tree)
                (analyze_python_imports tree file a)) as Hout.
  rewrite <- analyze_python_functions_body in Hout.
  fold (function_defs tree) in Hout. rewrite Hdefs in Hout.
  unfold defs_outcome in Hout. rewrite Hmodern in Hout. cbn [forallb] in Hout.
  apply Nat.leb_le in Hframes. rewrite Hframes in Hout. cbn [andb] in Hout.
  destruct (analyze_python_functions tree file
              (analyze_python_imports tree file a)) as [[[]|e] a2] eqn:E;
    cbn [fst] in Hout; [|discriminate Hout].
  cbn [fst snd]. split; [reflexivity|].
  rewrite deep_apply_regex.
  change (deep_nesting_issues a2 file)
    with (smells_of_type "deep_nesting" a2 file).
  rewrite (smells_of_type_pass _ _ _ _ _ E).
  change (smells_of_type "deep_nesting"
            (analyze_python_imports tree file a) file)
    with (deep_nesting_issues (analyze_python_imports tree file a) file).
  rewrite deep_imports. f_equal.
  rewrite (flat_map_filter is_function_def).
  2:{ intros n Hn. unfold is_function_def in Hn. unfold function_smells.
      destruct (function_def n); [discriminate Hn|reflexivity]. }
  fold (function_defs tree). rewrite Hdefs. cbn [flat_map].
  rewrite app_nil_r. unfold function_smells, threshold_smells. rewrite Hdef.
  rewrite filter_app, (filter_type_all _ (nesting_issues name 0 fn))
    by apply nesting_issues_type.
  assert (Hnone : filter (fun i => String.eqb (i_type i) "deep_nesting")
            ((if 5 <? params_total fargs
              then [too_many_parameters_issue name (params_total fargs)
                      (lineno fn)]
              else [])
             ++ (if 50 <? lines_of_code_of fn body_len
                 then [long_function_issue name
                         (lines_of_code_of fn body_len) (lineno fn)]
                 else [])
             ++ (if 10 <? complexity_of fn
                 then [high_complexity_issue name (complexity_of fn)
                         (lineno fn)]
                 else [])) = []).
  { destruct (5 <? params_total fargs),
      (50 <? lines_of_code_of fn body_len), (10 <? complexity_of fn);
      reflexivity. }
  rewrite Hnone. cbn [app].
  rewrite nesting_issues_unfold.
  assert (Hcls : is_control (cls fn) = false).
  { unfold function_def in Hdef. destruct (cls fn); try discriminate Hdef;
      reflexivity. }
  rewrite Hcls. cbn [andb app].
  rewrite (nested_conditionals_issues name lines _ Hchain 0).
  unfold conditional_depths. do 3 f_equal.
Qed.

Lemma deep_nesting_per_level_witness :
  fst (@analyze_python_file (Examples.python3 Uneven.parse_uneven)
         "uneven.py" Uneven.uneven_source init) = true
  /\ deep_nesting_issues
       (snd (@analyze_python_file (Examples.python3 Uneven.parse_uneven)
               "uneven.py" Uneven.uneven_source init)) "uneven.py"
     = deep_nesting_issues init "uneven.py"
       ++ map (fun c => deep_nesting_issue "g" (fst c) (snd c))
            (filter (fun c => 4 <? fst c)
               (conditional_depths [2; 4; 5; 6; 8; 9])).
Proof.
  apply (@deep_nesting_per_level (Examples.python3 Uneven.parse_uneven)
           "uneven.py" Uneven.uneven_source Uneven.uneven_module
           Uneven.uneven_function "g"
           (mkArguments ["a"; "b"] [] [] None None) 2 [2; 4; 5; 6; 8; 9] init).
  - reflexivity.
  - reflexivity.
  - reflexivity.
  - apply (conditional [_] 2 12 _ [_]); try reflexivity.
    apply (conditional [_; _] 4 12 _ []); try reflexivity.
    apply (conditional [_] 5 12 _ []); try reflexivity.
    apply (conditional [_] 6 12 _ []); try reflexivity.
    apply (conditional [_; _] 8 12 _ []); try reflexivity.
    apply (conditional [_] 9 12 _ []); try reflexivity.
    apply no_conditional. reflexivity.
  - reflexivity.
  - apply Nat.leb_le. vm_compute. reflexivity.
Defined.

(** The two Findings of the example: depth 5 on line 8 and depth 6 on
    line 9. *)
Example uneven_findings :
  deep_nesting_issues
    (snd (@analyze_python_file (Examples.python3 Uneven.parse_uneven)
            "uneven.py" Uneven.uneven_source init)) "uneven.py"
  = [deep_nesting_issue "g" 5 8; deep_nesting_issue "g" 6 9].
Proof. vm_compute. reflexivity. Qed.

(** ** No record without a file (C9) *)

(** C9, as the code has it: [_calculate_project_metrics] never raises,
    so no division error occurs. When no file has metrics it returns at
    once and stores nothing: the analyzer is left as it was, and after a
    run over a project without a file that can be analysed
    [complexity_metrics] is still the empty dictionary of [__init__],
    not a record of zeros. When some file has metrics it stores a record,
    and with no function collected the three per-function averages of
    that record are the fallback 0. *)
Theorem zero_files_zero_functions `{Runtime} (hash : string -> Z)
    (files : list SourceFile) (a : Analyzer) :
  (exists a',
     calculate_project_metrics a = Ok a'
     /\ (file_metrics a = [] -> a' = a)
     /\ (file_metrics a <> [] ->
         exists pm,
           a' = set_complexity_metrics (Some pm) a
           /\ (all_functions a = [] ->
               avg_function_complexity pm = 0%Q
               /\ avg_function_size pm = 0%Q
               /\ avg_function_params pm = 0%Q)))
  /\ (exists r,
        analyze_project hash files = Ok r
        /\ ((forall f, In f files -> analysable f = false) ->
            complexity_metrics r = None)).
Proof.
  split.
  - destruct (file_metrics a) as [|p rest] eqn:E.
    + exists a. split; [unfold calculate_project_metrics; now rewrite E|].
      split; [reflexivity|congruence].
    + destruct (calculate_project_metrics_stores a)
        as (pm & Hrun & _ & _ & _ & Hzero); [congruence|].
      eexists. split; [exact Hrun|]. split; [discriminate|].
      intros _. exists pm. split; [reflexivity|exact Hzero].
  - destruct (analyze_project hash files) as [r | e] eqn:E.
    + exists r. split; [reflexivity|].
      exact (proj1 (run_metrics hash files r E)).
    + exfalso. unfold analyze_project in E.
      destruct (calculate_project_metrics_total
                  (analyze_duplicated_code
                     (fold_left (fun a f => analyze_file hash f a) files init)))
        as (a' & Ha').
      rewrite Ha' in E. discriminate E.
Qed.

(** C9 as the specification words it does not hold: the run over a
    project without a file, or without a file that can be analysed,
    leaves no ProjectMetrics record, so nothing reports a count of 0;
    [get_summary], which reads the record next, raises [NameError] for
    the missing rating. *)
Lemma zero_files_no_record :
  @analyze_project Examples.small_runtime (Examples.digits_hash 257 0) []
  = Ok init
  /\ complexity_metrics init = None
  /\ @get_summary Samples.decimal_format (Some 0) init
     = Raise (OtherException "NameError" "name 'random' is not defined")
  /\ (exists a,
        @analyze_project Examples.small_runtime (Examples.digits_hash 257 0)
          Samples.unread_files = Ok a
        /\ complexity_metrics a = None
        /\ @get_summary Samples.decimal_format (Some 2) a
           = Raise (OtherException "NameError"
                      "name 'random' is not defined")).
Proof.
  split; [vm_compute; reflexivity|].
  split; [reflexivity|].
  split; [vm_compute; reflexivity|].
  eexists. split; [vm_compute; reflexivity|].
  split; vm_compute; reflexivity.
Qed.
